(** * slidev-mcp-apps: the slide export server and its mini-app

    A shallow embedding of [src/index.ts] (the three export tools of the MCP
    server) and of [src/mcp-app.ts] (the click handlers of the browser
    mini-app), with the properties the specification states about them.

    Conventions of the embedding.
    - JavaScript text is a [string] holding its UTF-8 bytes; a [Buffer] is a
      [list byte].
    - JavaScript numbers are written as exact integers in [Z]; [NaN] is
      [None].  IEEE doubles agree with [Z] on integers of magnitude at most
      2^53 ([MAX_SAFE_INTEGER]), which is where the theorems use them.
    - The file system, the random source and the log of spawned subprocesses
      form an explicit [World]; a handler is a function on worlds that
      returns a value or the thrown error together with the new world, so
      that whatever was written before a [throw] stays written.
    - The renderer (the [slidev] executable) is a parameter of the host. *)

From Stdlib Require Import String Ascii List ZArith NArith Lia Bool Arith.
From Stdlib Require Import Permutation Sorted.
From Stdlib.Strings Require Import Byte.
Import ListNotations.

#[local] Set Warnings "-register-all".

Local Open Scope string_scope.
Local Open Scope list_scope.

(** ** Characters that cannot be written inside a literal *)

Definition dquote : ascii := "034"%char.
Definition newline : ascii := "010"%char.
Definition str1 (c : ascii) : string := String c EmptyString.

(** ** JavaScript built-ins used by the sources *)

Module JS.

(** [s.endsWith(suffix)] *)
Definition endsWith (s suffix : string) : bool :=
  let n := String.length s in
  let m := String.length suffix in
  (m <=? n)%nat && String.eqb (substring (n - m) m s) suffix.

(** [s.split(sep)[0]] for a one-character separator: the text before the
    first occurrence of [sep], the whole of [s] when there is none. *)
Fixpoint split0 (sep : ascii) (s : string) : string :=
  match s with
  | EmptyString => EmptyString
  | String c rest =>
      if Ascii.eqb c sep then EmptyString else String c (split0 sep rest)
  end.

(** WhiteSpace and LineTerminator code points (ECMA-262, 12.2 and 12.3),
    each as its UTF-8 byte sequence. *)
Definition utf8 (bs : list nat) : string :=
  string_of_list_ascii (map ascii_of_nat bs).

Definition whiteSpace : list string :=
  [ utf8 [9]; utf8 [10]; utf8 [11]; utf8 [12]; utf8 [13]; utf8 [32];
    utf8 [194; 160];                       (* U+00A0 *)
    utf8 [225; 154; 128];                  (* U+1680 *)
    utf8 [226; 128; 128]; utf8 [226; 128; 129]; utf8 [226; 128; 130];
    utf8 [226; 128; 131]; utf8 [226; 128; 132]; utf8 [226; 128; 133];
    utf8 [226; 128; 134]; utf8 [226; 128; 135]; utf8 [226; 128; 136];
    utf8 [226; 128; 137]; utf8 [226; 128; 138];   (* U+2000 .. U+200A *)
    utf8 [226; 128; 168]; utf8 [226; 128; 169];   (* U+2028, U+2029 *)
    utf8 [226; 128; 175];                  (* U+202F *)
    utf8 [226; 129; 159];                  (* U+205F *)
    utf8 [227; 128; 128];                  (* U+3000 *)
    utf8 [239; 187; 191] ].                (* U+FEFF *)

Definition dropn (n : nat) (s : string) : string :=
  substring n (String.length s - n) s.

(** Remove white space from the front, at most [fuel] characters of it. *)
Fixpoint trimStart_fuel (fuel : nat) (s : string) : string :=
  match fuel with
  | O => s
  | S fuel' =>
      match find (fun ws => prefix ws s) whiteSpace with
      | Some ws => trimStart_fuel fuel' (dropn (String.length ws) s)
      | None => s
      end
  end.

Definition trimStart (s : string) : string :=
  trimStart_fuel (String.length s) s.

Definition rev_string (s : string) : string :=
  string_of_list_ascii (rev (list_ascii_of_string s)).

Fixpoint trimEnd_fuel (fuel : nat) (r : string) : string :=
  match fuel with
  | O => r
  | S fuel' =>
      match find (fun ws => prefix (rev_string ws) r) whiteSpace with
      | Some ws => trimEnd_fuel fuel' (dropn (String.length ws) r)
      | None => r
      end
  end.

Definition trimEnd (s : string) : string :=
  rev_string (trimEnd_fuel (String.length s) (rev_string s)).

(** [s.trim()] *)
Definition trim (s : string) : string := trimEnd (trimStart s).

(** Truthiness of a string: [!s] holds of the empty string only. *)
Definition falsy (s : string) : bool :=
  match s with EmptyString => true | _ => false end.

(** *** [parseInt(s)] without a radix (ECMA-262, 19.2.5)

    The result is the exact integer the digits denote, where JavaScript
    returns the nearest double: the two agree up to 2^53 - 1, and the
    theorems that depend on the value of a number keep to that range (see
    [Spec.numbered]). *)

Definition digit_value (radix : Z) (c : ascii) : option Z :=
  let n := Z.of_nat (nat_of_ascii c) in
  let v :=
    if (48 <=? n)%Z && (n <=? 57)%Z then Some (n - 48)%Z
    else if (97 <=? n)%Z && (n <=? 122)%Z then Some (n - 87)%Z
    else if (65 <=? n)%Z && (n <=? 90)%Z then Some (n - 55)%Z
    else None in
  match v with
  | Some d => if (d <? radix)%Z then Some d else None
  | None => None
  end.

(** The longest prefix of digits of the radix, read left to right: [acc]
    is the value so far and [seen] tells whether a digit was read. *)
Fixpoint parse_digits (radix : Z) (s : string) (acc : Z) (seen : bool)
  : option Z :=
  match s with
  | EmptyString => if seen then Some acc else None
  | String c rest =>
      match digit_value radix c with
      | Some d => parse_digits radix rest (acc * radix + d)%Z true
      | None => if seen then Some acc else None
      end
  end.

Definition parseInt (input : string) : option Z :=
  let s := trimStart input in
  let '(sign, s) :=
    match s with
    | String "-" rest => ((-1)%Z, rest)
    | String "+" rest => (1%Z, rest)
    | _ => (1%Z, s)
    end in
  let '(radix, s) :=
    match s with
    | String "0" (String "x" rest) => (16%Z, rest)
    | String "0" (String "X" rest) => (16%Z, rest)
    | _ => (10%Z, s)
    end in
  option_map (Z.mul sign) (parse_digits radix s 0%Z false).

(** *** [Array.prototype.sort(comparefn)]

    ECMA-262 requires the sort to be stable and, for a consistent
    comparator, to return the sorted permutation; that result is unique,
    so any stable sort models it.  [comparefn x y] is a number or [NaN]
    ([None]); a positive value puts [y] first, anything else (negative,
    zero, [NaN]) keeps [x] before [y].

    For a comparator that is not consistent (one that is [NaN] on some
    pairs and a number on others) the order is left to the engine, and
    this function is no model of it: every theorem that states an order
    assumes names on which the comparator is consistent. *)

Section Sort.
Context {A : Type} (comparefn : A -> A -> option Z).

Definition keeps_before (x y : A) : bool :=
  match comparefn x y with
  | Some v => (v <=? 0)%Z
  | None => true
  end.

Fixpoint insert (x : A) (l : list A) : list A :=
  match l with
  | [] => [x]
  | y :: l' => if keeps_before x y then x :: l else y :: insert x l'
  end.

Fixpoint sort (l : list A) : list A :=
  match l with
  | [] => []
  | x :: l' => insert x (sort l')
  end.
End Sort.

(** [a - b] on numbers: [NaN] as soon as one operand is. *)
Definition minus (a b : option Z) : option Z :=
  match a, b with
  | Some x, Some y => Some (x - y)%Z
  | _, _ => None
  end.

(** *** [JSON.stringify] of a string (QuoteJSONString, ECMA-262 25.5.2.3) *)

Definition hex_digit (n : nat) : ascii :=
  if (n <? 10)%nat then ascii_of_nat (48 + n) else ascii_of_nat (87 + n).

Definition quote_char (c : ascii) : string :=
  let n := nat_of_ascii c in
  if (n =? 8)%nat then "\b"
  else if (n =? 9)%nat then "\t"
  else if (n =? 10)%nat then "\n"
  else if (n =? 12)%nat then "\f"
  else if (n =? 13)%nat then "\r"
  else if (n =? 34)%nat then String "\" (str1 dquote)
  else if (n =? 92)%nat then "\\"
  else if (n <? 32)%nat then
    "\u00" ++ String (hex_digit (n / 16)) (str1 (hex_digit (n mod 16)))
  else str1 c.

Fixpoint quote_body (s : string) : string :=
  match s with
  | EmptyString => EmptyString
  | String c rest => quote_char c ++ quote_body rest
  end.

Definition quoteJSONString (s : string) : string :=
  String dquote (quote_body s ++ str1 dquote).

(** [error instanceof Error ? error.message : ...]: what can be thrown. *)
Inductive thrown : Type :=
| ErrorObj (message : string)      (* an instance of [Error] *)
| NonError (asString : string).    (* anything else, with its [String(e)] *)

End JS.

(** ** [Buffer.prototype.toString("base64")] and its inverse *)

Module Base64.

(** The character of a sextet: A-Z, a-z, 0-9, plus, slash. *)
Definition char_of (n : N) : ascii :=
  if (n <? 26)%N then ascii_of_N (65 + n)
  else if (n <? 52)%N then ascii_of_N (71 + n)
  else if (n <? 62)%N then ascii_of_N (n - 4)
  else if (n =? 62)%N then "+"%char
  else "/"%char.

Definition pad : ascii := "="%char.

Fixpoint encode (bs : list byte) : string :=
  match bs with
  | [] => EmptyString
  | [a] =>
      let a := Byte.to_N a in
      String (char_of (a / 4))
        (String (char_of ((a mod 4) * 16)) (String pad (String pad EmptyString)))
  | [a; b] =>
      let a := Byte.to_N a in
      let b := Byte.to_N b in
      String (char_of (a / 4))
        (String (char_of ((a mod 4) * 16 + b / 16))
           (String (char_of ((b mod 16) * 4)) (String pad EmptyString)))
  | a :: b :: c :: rest =>
      let a := Byte.to_N a in
      let b := Byte.to_N b in
      let c := Byte.to_N c in
      String (char_of (a / 4))
        (String (char_of ((a mod 4) * 16 + b / 16))
           (String (char_of ((b mod 16) * 4 + c / 64))
              (String (char_of (c mod 64)) (encode rest))))
  end%N.

(** The sextet of a character of the alphabet. *)
Definition value_of (c : ascii) : option N :=
  let n := N_of_ascii c in
  if (65 <=? n)%N && (n <=? 90)%N then Some (n - 65)%N
  else if (97 <=? n)%N && (n <=? 122)%N then Some (n - 71)%N
  else if (48 <=? n)%N && (n <=? 57)%N then Some (n + 4)%N
  else if (n =? 43)%N then Some 62%N
  else if (n =? 47)%N then Some 63%N
  else None.

Definition bytes_of (ns : list N) : option (list byte) :=
  fold_right
    (fun n acc =>
       match Byte.of_N n, acc with
       | Some b, Some bs => Some (b :: bs)
       | _, _ => None
       end)
    (Some []) ns.

(** The decoder of RFC 4648, section 4: four characters give three bytes,
    and the last group may be padded to one or two bytes. *)
Fixpoint decode (s : string) : option (list byte) :=
  match s with
  | EmptyString => Some []
  | String c1 (String c2 (String c3 (String c4 rest))) =>
      match value_of c1, value_of c2 with
      | Some v1, Some v2 =>
          let b1 := (v1 * 4 + v2 / 16)%N in
          if Ascii.eqb c3 pad then
            if Ascii.eqb c4 pad && JS.falsy rest then bytes_of [b1] else None
          else
            match value_of c3 with
            | Some v3 =>
                let b2 := ((v2 mod 16) * 16 + v3 / 4)%N in
                if Ascii.eqb c4 pad then
                  if JS.falsy rest then bytes_of [b1; b2] else None
                else
                  match value_of c4, decode rest with
                  | Some v4, Some bs =>
                      let b3 := ((v3 mod 4) * 64 + v4)%N in
                      option_map (fun l => l ++ bs) (bytes_of [b1; b2; b3])
                  | _, _ => None
                  end
            | None => None
            end
      | _, _ => None
      end
  | _ => None
  end.

End Base64.

(** ** The file system of the host *)

Module Fs.

(** A path is absolute and normalized: the list of its segments below the
    root.  On such operands [path.join(p, name)] appends the name. *)
Definition path : Type := list string.

Definition join (p : path) (name : string) : path := p ++ [name].

(** The text of an absolute path. *)
Definition show (p : path) : string :=
  match p with
  | [] => "/"
  | _ => String.concat EmptyString (map (fun seg => ("/" ++ seg)%string) p)
  end.

(** The text of a relative path. *)
Definition show_relative (p : path) : string := String.concat "/" p.

Fixpoint ups (from : path) : path :=
  match from with
  | [] => []
  | _ :: from' => ".." :: ups from'
  end.

(** [path.relative(from, to)]: drop the common prefix, climb out of what
    is left of [from], descend into what is left of [to]. *)
Fixpoint relative (from to : path) : path :=
  match from, to with
  | f :: from', t :: to' =>
      if String.eqb f t then relative from' to' else ups from ++ to
  | _, _ => ups from ++ to
  end.

(** Directory entries keep the order in which the system lists them. *)
Inductive node : Type :=
| File (data : list byte)
| Dir (entries : list (string * node)).

Inductive errno : Type := ENOENT | ENOTDIR | EISDIR | EEXIST.

Definition errno_text (e : errno) : string :=
  match e with
  | ENOENT => "ENOENT: no such file or directory"
  | ENOTDIR => "ENOTDIR: not a directory"
  | EISDIR => "EISDIR: illegal operation on a directory"
  | EEXIST => "EEXIST: file already exists"
  end.

Fixpoint assoc (name : string) (es : list (string * node)) : option node :=
  match es with
  | [] => None
  | (k, v) :: es' => if String.eqb k name then Some v else assoc name es'
  end.

(** Replace the entry [name] in place, or add it at the end. *)
Fixpoint put (name : string) (v : node) (es : list (string * node))
  : list (string * node) :=
  match es with
  | [] => [(name, v)]
  | (k, w) :: es' =>
      if String.eqb k name then (k, v) :: es' else (k, w) :: put name v es'
  end.

Fixpoint lookup (p : path) (n : node) : errno + node :=
  match p with
  | [] => inr n
  | seg :: p' =>
      match n with
      | File _ => inl ENOTDIR
      | Dir es =>
          match assoc seg es with
          | Some child => lookup p' child
          | None => inl ENOENT
          end
      end
  end.

Definition exists_ (p : path) (root : node) : bool :=
  match lookup p root with inr _ => true | inl _ => false end.

(** [mkdir -p]: every missing directory along [p] is created; meeting a
    file on the way, or at the end, is an error. *)
Fixpoint mkdirp (p : path) (n : node) : errno + node :=
  match n with
  | File _ => inl (match p with [] => EEXIST | _ => ENOTDIR end)
  | Dir es =>
      match p with
      | [] => inr n
      | seg :: p' =>
          let child :=
            match assoc seg es with Some c => c | None => Dir [] end in
          match mkdirp p' child with
          | inr child' => inr (Dir (put seg child' es))
          | inl e => inl e
          end
      end
  end.

(** Create or replace the file at [p]; its directory must exist. *)
Fixpoint write (p : path) (data : list byte) (n : node) : errno + node :=
  match p with
  | [] => inl EISDIR
  | [name] =>
      match n with
      | File _ => inl ENOTDIR
      | Dir es =>
          match assoc name es with
          | Some (Dir _) => inl EISDIR
          | _ => inr (Dir (put name (File data) es))
          end
      end
  | seg :: p' =>
      match n with
      | File _ => inl ENOTDIR
      | Dir es =>
          match assoc seg es with
          | Some child =>
              match write p' data child with
              | inr child' => inr (Dir (put seg child' es))
              | inl e => inl e
              end
          | None => inl ENOENT
          end
      end
  end.

Definition readdir (p : path) (root : node) : errno + list string :=
  match lookup p root with
  | inr (Dir es) => inr (map fst es)
  | inr (File _) => inl ENOTDIR
  | inl e => inl e
  end.

Definition readFile (p : path) (root : node) : errno + list byte :=
  match lookup p root with
  | inr (File data) => inr data
  | inr (Dir _) => inl EISDIR
  | inl e => inl e
  end.

End Fs.

(** ** The host: what the handlers of [index.ts] run on *)

Module Host.
Import JS Fs.

(** How a subprocess ends: it runs and exits with a status, leaving its
    standard error and the file system as it made it, or it cannot be
    spawned at all. *)
Inductive exec_outcome : Type :=
| Exited (status : Z) (stderr : string) (fs' : node)
| SpawnError (message : string).

(** What is fixed for the life of the process. *)
Record host : Type := {
  cwd : path;                                 (* process.cwd() *)
  uuid : nat -> string;                       (* the n-th randomUUID() *)
  renderer : string -> path -> node -> exec_outcome
    (* the shell on a command line, in a directory, on a file system *)
}.

(** One call of [execSync], as the subprocess saw it. *)
Record spawn : Type := {
  command : string;
  spawn_cwd : path;
  spawn_fs : node
}.

Record World : Type := {
  fs : node;
  draws : nat;                (* how many identifiers were drawn *)
  spawned : list spawn        (* the subprocesses run so far, oldest first *)
}.

Inductive result (A : Type) : Type :=
| Ok (a : A)
| Throw (e : thrown).
Arguments Ok {A} a.
Arguments Throw {A} e.

Definition M (A : Type) : Type := World -> result A * World.

Definition ret {A} (a : A) : M A := fun w => (Ok a, w).

Definition bind {A B} (m : M A) (k : A -> M B) : M B :=
  fun w =>
    match m w with
    | (Ok a, w') => k a w'
    | (Throw e, w') => (Throw e, w')
    end.

Definition throw {A} (e : thrown) : M A := fun w => (Throw e, w).

(** [try { body } catch (error) { handler }] *)
Definition try_catch {A} (body : M A) (handler : thrown -> M A) : M A :=
  fun w =>
    match body w with
    | (Ok a, w') => (Ok a, w')
    | (Throw e, w') => handler e w'
    end.

Fixpoint mapM {A B} (f : A -> M B) (l : list A) : M (list B) :=
  match l with
  | [] => ret []
  | x :: l' =>
      bind (f x) (fun y => bind (mapM f l') (fun ys => ret (y :: ys)))
  end.

Definition fs_error (e : errno) (syscall : string) (p : path) : thrown :=
  ErrorObj (errno_text e ++ ", " ++ syscall ++ " '" ++ show p ++ "'").

Definition set_fs (w : World) (n : node) : World :=
  {| fs := n; draws := draws w; spawned := spawned w |}.

(** [randomUUID()] *)
Definition randomUUID (h : host) : M string :=
  fun w =>
    (Ok (uuid h (draws w)),
     {| fs := fs w; draws := S (draws w); spawned := spawned w |}).

(** [existsSync(p)] *)
Definition existsSync (p : path) : M bool :=
  fun w => (Ok (exists_ p (fs w)), w).

(** [mkdirSync(p, { recursive: true })] *)
Definition mkdirSync (p : path) : M unit :=
  fun w =>
    match mkdirp p (fs w) with
    | inr n => (Ok tt, set_fs w n)
    | inl e => (Throw (fs_error e "mkdir" p), w)
    end.

(** [writeFileSync(p, text)]: the text goes out as its UTF-8 bytes. *)
Definition writeFileSync (p : path) (text : string) : M unit :=
  fun w =>
    match write p (list_byte_of_string text) (fs w) with
    | inr n => (Ok tt, set_fs w n)
    | inl e => (Throw (fs_error e "open" p), w)
    end.

(** [readdirSync(p)] *)
Definition readdirSync (p : path) : M (list string) :=
  fun w =>
    match readdir p (fs w) with
    | inr names => (Ok names, w)
    | inl e => (Throw (fs_error e "scandir" p), w)
    end.

(** What [readFileSync] throws: a directory can be opened, and it is the
    read that fails on it, with a message that does not name the path. *)
Definition read_error (e : errno) (p : path) : thrown :=
  match e with
  | EISDIR => ErrorObj (errno_text EISDIR ++ ", read")
  | _ => fs_error e "open" p
  end.

(** [readFileSync(p)] *)
Definition readFileSync (p : path) : M (list byte) :=
  fun w =>
    match readFile p (fs w) with
    | inr data => (Ok data, w)
    | inl e => (Throw (read_error e p), w)
    end.

(** [execSync(command, { cwd, stdio: "pipe" })]: blocks until the
    subprocess ends and throws unless it exits with status 0. *)
Definition execSync (h : host) (cmd : string) (dir : path) : M unit :=
  fun w =>
    let seen := {| command := cmd; spawn_cwd := dir; spawn_fs := fs w |} in
    match renderer h cmd dir (fs w) with
    | Exited status stderr fs' =>
        let w' := {| fs := fs'; draws := draws w;
                     spawned := spawned w ++ [seen] |} in
        if (status =? 0)%Z then (Ok tt, w')
        else
          (Throw (ErrorObj ("Command failed: " ++ cmd ++
                            (if falsy stderr then EmptyString
                             else String newline stderr))),
           w')
    | SpawnError message =>
        (Throw (ErrorObj message),
         {| fs := fs w; draws := draws w; spawned := spawned w ++ [seen] |})
    end.

End Host.

Declare Scope host_scope.
Delimit Scope host_scope with host.
Notation "x <- m ;; k" := (Host.bind m (fun x => k))
  (at level 61, m at next level, right associativity) : host_scope.
Notation "m ;;; k" := (Host.bind m (fun _ => k))
  (at level 61, right associativity) : host_scope.

(** ** [src/index.ts]: the three export tools *)

Module Server.
Import JS Fs Host.
Local Open Scope host_scope.

(** The parts of a tool result's [content] array. *)
Inductive part : Type :=
| TextPart (text : string)
| ImagePart (data mimeType : string)
| ResourcePart (uri blob mimeType : string).

(** [error instanceof Error ? error.message : String(error)] *)
Definition errorMessage (error : thrown) : string :=
  match error with
  | ErrorObj message => message
  | NonError asString => asString
  end.

(** [JSON.stringify({ markdown, theme })] *)
Definition JSON_stringify (markdown theme : string) : string :=
  "{" ++ quoteJSONString "markdown" ++ ":" ++ quoteJSONString markdown ++
  "," ++ quoteJSONString "theme" ++ ":" ++ quoteJSONString theme ++ "}".

(** The command line [`"${slidevPath}" export --format F --theme ${theme}
    "slides.md"`]. *)
Definition exportCommand (slidevPath : path) (format theme : string)
  : string :=
  str1 dquote ++ show slidevPath ++ str1 dquote ++
  " export --format " ++ format ++ " --theme " ++ theme ++ " " ++
  str1 dquote ++ "slides.md" ++ str1 dquote.

(** The comparator of [generateSlide]:
    [parseInt(a.split(".")[0]) - parseInt(b.split(".")[0])]. *)
Definition byNumber (a b : string) : option Z :=
  let numA := parseInt (split0 "." a) in
  let numB := parseInt (split0 "." b) in
  minus numA numB.

(** *** generateSlide *)

(** The [try] block. *)
Definition generateSlide_try (h : host) (markdown theme : string)
    (projectDir workDir : path) (executionId : string)
    (executionDir : path) : M (list part) :=
  present <- existsSync workDir ;;
  (if negb present then mkdirSync workDir else ret tt) ;;;
  mkdirSync executionDir ;;;
  let markdownPath := join executionDir "slides.md" in
  writeFileSync markdownPath markdown ;;;
  let slidevPath :=
    join (join (join projectDir "node_modules") ".bin") "slidev" in
  execSync h (exportCommand slidevPath "png" theme) executionDir ;;;
  let slidesExportDir := join executionDir "slides-export" in
  names <- readdirSync slidesExportDir ;;
  let files :=
    sort byNumber (filter (fun file => endsWith file ".png") names) in
  contentArray <-
    mapM (fun file =>
            let pngPath := join slidesExportDir file in
            pngBuffer <- readFileSync pngPath ;;
            let base64Image := Base64.encode pngBuffer in
            ret (ImagePart base64Image "image/png"))
         files ;;
  ret (TextPart executionId
       :: TextPart (JSON_stringify markdown theme)
       :: contentArray).

(** The [catch] block. *)
Definition generateSlide_catch (error : thrown) : M (list part) :=
  let errorMessage := errorMessage error in
  ret [TextPart ("Failed to generate slides: " ++ errorMessage)].

(** The handler; [theme = "default"] is the default of its parameter and
    the [finally] block is empty. *)
Definition generateSlide (h : host) (markdown : string)
    (theme : option string) : M (list part) :=
  let theme := match theme with Some t => t | None => "default" end in
  let projectDir := cwd h in
  let workDir := join projectDir ".slidev-work" in
  executionId <- randomUUID h ;;
  let executionDir := join workDir executionId in
  try_catch
    (generateSlide_try h markdown theme projectDir workDir executionId
       executionDir)
    generateSlide_catch.

(** *** generateSlidePDF *)

Definition generateSlidePDF_try (h : host) (markdown theme : string)
    (projectDir workDir : path) (executionId : string)
    (executionDir : path) : M (list part) :=
  present <- existsSync workDir ;;
  (if negb present then mkdirSync workDir else ret tt) ;;;
  mkdirSync executionDir ;;;
  let markdownPath := join executionDir "slides.md" in
  writeFileSync markdownPath markdown ;;;
  let slidevPath :=
    join (join (join projectDir "node_modules") ".bin") "slidev" in
  execSync h (exportCommand slidevPath "pdf" theme) executionDir ;;;
  let pdfPath := join executionDir "slides-export.pdf" in
  let fileUrl := ("file://" ++ show pdfPath)%string in
  pdfBuffer <- readFileSync pdfPath ;;
  let base64Pdf := Base64.encode pdfBuffer in
  ret [ResourcePart fileUrl base64Pdf "application/pdf"].

Definition generateSlidePDF_catch (error : thrown) : M (list part) :=
  let errorMessage := errorMessage error in
  ret [TextPart ("Failed to generate PDF: " ++ errorMessage)].

Definition generateSlidePDF (h : host) (markdown : string)
    (theme : option string) : M (list part) :=
  let theme := match theme with Some t => t | None => "default" end in
  let projectDir := cwd h in
  let workDir := join projectDir ".slidev-work" in
  executionId <- randomUUID h ;;
  let executionDir := join workDir executionId in
  try_catch
    (generateSlidePDF_try h markdown theme projectDir workDir executionId
       executionDir)
    generateSlidePDF_catch.

(** *** generateSlidePPTX *)

Definition pptxMime : string :=
  "application/vnd.openxmlformats-officedocument.presentationml.presentation".

Definition generateSlidePPTX_try (h : host) (markdown theme : string)
    (projectDir workDir : path) (executionId : string)
    (executionDir : path) : M (list part) :=
  present <- existsSync workDir ;;
  (if negb present then mkdirSync workDir else ret tt) ;;;
  mkdirSync executionDir ;;;
  let markdownPath := join executionDir "slides.md" in
  writeFileSync markdownPath markdown ;;;
  let slidevPath :=
    join (join (join projectDir "node_modules") ".bin") "slidev" in
  execSync h (exportCommand slidevPath "pptx" theme) executionDir ;;;
  let pptxPath := join executionDir "slides-export.pptx" in
  let relativePptxPath := show_relative (relative workDir pptxPath) in
  let fileUrl := ("file://" ++ relativePptxPath)%string in
  pptxBuffer <- readFileSync pptxPath ;;
  let base64Pptx := Base64.encode pptxBuffer in
  ret [ResourcePart fileUrl base64Pptx pptxMime].

Definition generateSlidePPTX_catch (error : thrown) : M (list part) :=
  let errorMessage := errorMessage error in
  ret [TextPart ("Failed to generate PPTX: " ++ errorMessage)].

Definition generateSlidePPTX (h : host) (markdown : string)
    (theme : option string) : M (list part) :=
  let theme := match theme with Some t => t | None => "default" end in
  let projectDir := cwd h in
  let workDir := join projectDir ".slidev-work" in
  executionId <- randomUUID h ;;
  let executionDir := join workDir executionId in
  try_catch
    (generateSlidePPTX_try h markdown theme projectDir workDir executionId
       executionDir)
    generateSlidePPTX_catch.

(** *** The input schema, shared by the three tools *)

(** A JSON value as a caller may send it; [JUndefined] is an absent key. *)
Inductive jsval : Type :=
| JUndefined
| JNull
| JBool (b : bool)
| JNumber (n : Z)
| JString (s : string)
| JArray (items : list jsval)
| JObject (fields : list (string * jsval)).

Record arguments : Type := {
  arg_markdown : jsval;
  arg_theme : jsval
}.

(** [z.string()] *)
Definition z_string (v : jsval) : option string :=
  match v with JString s => Some s | _ => None end.

(** [z.enum(values)] *)
Definition z_enum (values : list string) (v : jsval) : option string :=
  match v with
  | JString s => if existsb (String.eqb s) values then Some s else None
  | _ => None
  end.

(** [schema.optional().default(d)]: an absent value becomes [d]. *)
Definition z_optional_default (schema : jsval -> option string)
    (d : string) (v : jsval) : option string :=
  match v with
  | JUndefined => Some d
  | _ => schema v
  end.

Definition themes : list string :=
  ["default"; "bricks"; "apple-basic"; "seriph"; "shibainu"].

Definition inputSchema (a : arguments) : option (string * string) :=
  match z_string (arg_markdown a),
        z_optional_default (z_enum themes) "default" (arg_theme a) with
  | Some markdown, Some theme => Some (markdown, theme)
  | _, _ => None
  end.

Inductive tool : Type := GenerateSlide | GenerateSlidePDF | GenerateSlidePPTX.

Definition handler (t : tool)
  : host -> string -> option string -> M (list part) :=
  match t with
  | GenerateSlide => generateSlide
  | GenerateSlidePDF => generateSlidePDF
  | GenerateSlidePPTX => generateSlidePPTX
  end.

(** What the server does with a [tools/call] request: the arguments are
    parsed against the schema the tool was registered with, and only the
    parsed values reach the handler; arguments that do not parse are
    answered with an invalid-parameters error and the handler is not run. *)
Definition callTool (t : tool) (h : host) (a : arguments) : M (list part) :=
  match inputSchema a with
  | Some (markdown, theme) => handler t h markdown (Some theme)
  | None => throw (ErrorObj "Invalid arguments for tool")
  end.

End Server.

(** ** [src/mcp-app.ts]: the click handlers of the mini-app *)

Module App.
Import JS Server.

Record button : Type := {
  disabled : bool;
  label : string                (* the button's textContent *)
}.

(** What an element of the page holds, as a list of children. *)
Inductive dom : Type :=
| Text (s : string)             (* set through textContent *)
| Html (s : string)             (* markup set through innerHTML *)
| Img (src : string)
| UrlContainer (caption value : string)
    (* the box with a caption, a read-only input and a select-all button *)
| StaleUrlContainer (caption : string).
    (* what is left of such a box once the markup of its parent has been
       serialised and parsed again: the caption, the read-only input
       without a value, the button without its listener *)

Record UI : Type := {
  markdownInput : string;       (* markdownInput.value *)
  themeSelect : string;         (* themeSelect.value *)
  regenerateBtn : button;
  generatePdfBtn : button;
  generatePptxBtn : button;
  slidesContainer : list dom;
  pdfStatusDiv : list dom;
  currentExecutionId : option string;
  alerts : list string          (* the alert() dialogs shown, oldest first *)
}.

Definition set_regenerateBtn (b : button) (u : UI) : UI :=
  {| markdownInput := markdownInput u; themeSelect := themeSelect u;
     regenerateBtn := b; generatePdfBtn := generatePdfBtn u;
     generatePptxBtn := generatePptxBtn u;
     slidesContainer := slidesContainer u; pdfStatusDiv := pdfStatusDiv u;
     currentExecutionId := currentExecutionId u; alerts := alerts u |}.

Definition set_generatePdfBtn (b : button) (u : UI) : UI :=
  {| markdownInput := markdownInput u; themeSelect := themeSelect u;
     regenerateBtn := regenerateBtn u; generatePdfBtn := b;
     generatePptxBtn := generatePptxBtn u;
     slidesContainer := slidesContainer u; pdfStatusDiv := pdfStatusDiv u;
     currentExecutionId := currentExecutionId u; alerts := alerts u |}.

Definition set_generatePptxBtn (b : button) (u : UI) : UI :=
  {| markdownInput := markdownInput u; themeSelect := themeSelect u;
     regenerateBtn := regenerateBtn u; generatePdfBtn := generatePdfBtn u;
     generatePptxBtn := b;
     slidesContainer := slidesContainer u; pdfStatusDiv := pdfStatusDiv u;
     currentExecutionId := currentExecutionId u; alerts := alerts u |}.

Definition set_slidesContainer (c : list dom) (u : UI) : UI :=
  {| markdownInput := markdownInput u; themeSelect := themeSelect u;
     regenerateBtn := regenerateBtn u; generatePdfBtn := generatePdfBtn u;
     generatePptxBtn := generatePptxBtn u;
     slidesContainer := c; pdfStatusDiv := pdfStatusDiv u;
     currentExecutionId := currentExecutionId u; alerts := alerts u |}.

Definition set_pdfStatusDiv (c : list dom) (u : UI) : UI :=
  {| markdownInput := markdownInput u; themeSelect := themeSelect u;
     regenerateBtn := regenerateBtn u; generatePdfBtn := generatePdfBtn u;
     generatePptxBtn := generatePptxBtn u;
     slidesContainer := slidesContainer u; pdfStatusDiv := c;
     currentExecutionId := currentExecutionId u; alerts := alerts u |}.

(** [alert(message)] *)
Definition alert (message : string) (u : UI) : UI :=
  {| markdownInput := markdownInput u; themeSelect := themeSelect u;
     regenerateBtn := regenerateBtn u; generatePdfBtn := generatePdfBtn u;
     generatePptxBtn := generatePptxBtn u;
     slidesContainer := slidesContainer u; pdfStatusDiv := pdfStatusDiv u;
     currentExecutionId := currentExecutionId u;
     alerts := alerts u ++ [message] |}.

(** [app.callServerTool({ name, arguments: { markdown, theme } })] *)
Record request : Type := {
  name : string;
  req_markdown : string;
  req_theme : string
}.

(** The result of a tool call; an absent [isError] is [false], an absent
    [content] is [None]. *)
Record CallToolResult : Type := {
  isError : bool;
  content : option (list part)
}.

(** How the awaited promise settles. *)
Inductive settled : Type :=
| Resolved (r : CallToolResult)
| Rejected (error : thrown).

(** A handler runs until it returns, or until its one [await]: there it
    leaves the page as it made it and the request it sent, and resumes,
    on the page as it is by then, with the way the promise settled. *)
Inductive run : Type :=
| Done (u : UI)
| Await (u : UI) (req : request) (resume : UI -> settled -> UI).

(** [r.content?.[0]?.type === "text" ? r.content[0].text : "Unknown error"] *)
Definition errorText (r : CallToolResult) : string :=
  match content r with
  | Some (TextPart text :: _) => text
  | _ => "Unknown error"
  end.

(** [error instanceof Error ? error.message : "Unknown error"] *)
Definition errorMsg (error : thrown) : string :=
  match error with
  | ErrorObj message => message
  | NonError _ => "Unknown error"
  end.

Definition is_image (c : part) : bool :=
  match c with ImagePart _ _ => true | _ => false end.

Definition is_resource (c : part) : bool :=
  match c with ResourcePart _ _ _ => true | _ => false end.

Definition displaySlides (r : CallToolResult) (u : UI) : UI :=
  let images :=
    match content r with
    | Some parts => filter is_image parts
    | None => []
    end in
  match images with
  | [] => set_slidesContainer [Text "[ERROR] No images found"] u
  | _ =>
      set_slidesContainer
        (slidesContainer u ++
         map (fun image =>
                match image with
                | ImagePart data _ => Img ("data:image/png;base64," ++ data)
                | _ => Img "data:image/png;base64,undefined"
                end)
             images)
        u
  end.

(** *** handleRegenerate *)

Definition handleRegenerate_catch (error : thrown) (u : UI) : UI :=
  let errorMsg := errorMsg error in
  set_slidesContainer [Text ("Error: " ++ errorMsg)] u.

Definition handleRegenerate_finally (u : UI) : UI :=
  set_regenerateBtn
    {| disabled := false; label := "Regenerate with Theme" |} u.

Definition handleRegenerate (u : UI) : run :=
  let markdown := trim (markdownInput u) in
  let theme := themeSelect u in
  if falsy markdown then Done (alert "Please populate markdown first" u)
  else
    let u := set_regenerateBtn
               {| disabled := true; label := "Regenerating..." |} u in
    let u := set_slidesContainer [Html "Regenerating slides..."] u in
    Await u
      {| name := "generateSlide"; req_markdown := markdown;
         req_theme := theme |}
      (fun u slideResult =>
         let u :=
           match slideResult with
           | Rejected error => handleRegenerate_catch error u
           | Resolved slideResult =>
               if isError slideResult then
                 handleRegenerate_catch
                   (ErrorObj (errorText slideResult)) u
               else displaySlides slideResult u
           end in
         handleRegenerate_finally u).

(** *** handleGeneratePdf and handleGeneratePptx *)

(** What a child becomes when the markup of its parent is serialised and
    parsed again, which is what [el.innerHTML += markup] does to the
    children [el] already has: text and markup parse back to themselves and
    an image keeps its [src], which is an attribute; the [value] of the
    input of a URL box, assigned as a property, and the listener of its
    button are no part of the markup and are lost. *)
Definition reparsed (d : dom) : dom :=
  match d with
  | UrlContainer caption _ => StaleUrlContainer caption
  | _ => d
  end.

(** [pdfStatusDiv.innerHTML += markup] *)
Definition append_status (markup : string) (u : UI) : UI :=
  set_pdfStatusDiv (map reparsed (pdfStatusDiv u) ++ [Html markup]) u.

Definition export_catch (error : thrown) (u : UI) : UI :=
  let errorMsg := errorMsg error in
  append_status ("<br><strong>Exception:</strong> " ++ errorMsg) u.

(** What follows the [await] inside the [try] block of the two export
    handlers, up to the caption and the MIME type of the data URL. *)
Definition export_resume (kind mime : string) (u : UI) (result : settled)
  : UI :=
  match result with
  | Rejected error => export_catch error u
  | Resolved result =>
      if isError result then
        let errorText := errorText result in
        let u := append_status
                   ("<br><strong>Error:</strong> " ++ errorText) u in
        export_catch (ErrorObj errorText) u
      else
        let resourceContent :=
          match content result with
          | Some parts => find is_resource parts
          | None => None
          end in
        match resourceContent with
        | Some (ResourcePart _ blob _) =>
            if falsy blob then
              export_catch (ErrorObj ("Invalid " ++ kind ++ " data")) u
            else
              let dataUrl := ("data:" ++ mime ++ ";base64," ++ blob)%string in
              set_pdfStatusDiv
                (pdfStatusDiv u ++
                 [UrlContainer
                    (kind ++
                     " Data URL (copy and paste into browser address bar):")
                    dataUrl])
                u
        | _ =>
            export_catch
              (ErrorObj ("No " ++ kind ++ " resource found in response")) u
        end
  end.

Definition handleGeneratePdf_finally (u : UI) : UI :=
  set_generatePdfBtn {| disabled := false; label := "Generate PDF" |} u.

Definition handleGeneratePdf (u : UI) : run :=
  match currentExecutionId u with
  | None | Some EmptyString =>
      Done (alert "Please generate slides first" u)
  | Some _ =>
      let u := set_generatePdfBtn
                 {| disabled := true; label := "Generating PDF..." |} u in
      let u := set_pdfStatusDiv [Text "Generating PDF..."] u in
      let markdown := trim (markdownInput u) in
      let theme := themeSelect u in
      if falsy markdown then
        let u := set_pdfStatusDiv [Text "Please populate markdown first"] u in
        Done (handleGeneratePdf_finally u)
      else
        let u := set_pdfStatusDiv
                   [Html ("<strong>Generating PDF with theme: " ++ theme ++
                          "</strong>")] u in
        Await u
          {| name := "generateSlidePDF"; req_markdown := markdown;
             req_theme := theme |}
          (fun u pdfResult =>
             handleGeneratePdf_finally
               (export_resume "PDF" "application/pdf" u pdfResult))
  end.

Definition handleGeneratePptx_finally (u : UI) : UI :=
  set_generatePptxBtn {| disabled := false; label := "Generate PPTX" |} u.

Definition handleGeneratePptx (u : UI) : run :=
  let u := set_generatePptxBtn
             {| disabled := true; label := "Generating PPTX..." |} u in
  let u := set_pdfStatusDiv
             [Html ("<br><strong>Generating PPTX with theme: " ++
                    themeSelect u ++ "</strong>")] u in
  let markdown := trim (markdownInput u) in
  let theme := themeSelect u in
  if falsy markdown then
    let u := append_status "<br>Please populate markdown first" u in
    Done (handleGeneratePptx_finally u)
  else
    Await u
      {| name := "generateSlidePPTX"; req_markdown := markdown;
         req_theme := theme |}
      (fun u pptxResult =>
         handleGeneratePptx_finally
           (export_resume "PPTX" pptxMime u pptxResult)).

Inductive trigger : Type := Regenerate | ExportPdf | ExportPptx.

Definition handle (t : trigger) : UI -> run :=
  match t with
  | Regenerate => handleRegenerate
  | ExportPdf => handleGeneratePdf
  | ExportPptx => handleGeneratePptx
  end.

(** The control a trigger is bound to with [addEventListener("click")]. *)
Definition control (t : trigger) : UI -> button :=
  match t with
  | Regenerate => regenerateBtn
  | ExportPdf => generatePdfBtn
  | ExportPptx => generatePptxBtn
  end.

(** A complete run of a handler: [between] is whatever else happens to the
    page while the call is in flight, [answer] how the call settles.  The
    result is the page when the handler has completed and the requests it
    sent. *)
Definition complete (r : run) (between : UI -> UI) (answer : settled)
  : UI * list request :=
  match r with
  | Done u => (u, [])
  | Await u req resume => (resume (between u) answer, [req])
  end.

End App.

(** ** The vocabulary of the specification *)

Module Spec.
Import JS Fs Host Server.
Local Open Scope host_scope.

(** The staging directory of the invocation with identifier [id], and the
    places where the renderer leaves its output in it. *)
Definition workRoot (h : host) : path := join (cwd h) ".slidev-work".
Definition stagingDir (h : host) (id : string) : path :=
  join (workRoot h) id.
Definition exportDir (h : host) (id : string) : path :=
  join (stagingDir h id) "slides-export".
Definition slidevPath (h : host) : path :=
  join (join (join (cwd h) "node_modules") ".bin") "slidev".

(** The steps the three [try] blocks begin with: stage the input and run
    the renderer on it. *)
Definition stage (h : host) (format markdown theme id : string) : M unit :=
  present <- existsSync (workRoot h) ;;
  (if negb present then mkdirSync (workRoot h) else ret tt) ;;;
  mkdirSync (stagingDir h id) ;;;
  writeFileSync (join (stagingDir h id) "slides.md") markdown ;;;
  execSync h (exportCommand (slidevPath h) format theme) (stagingDir h id).

(** The [try] block of a tool, in the invocation with identifier [id]. *)
Definition try_block (t : tool) (h : host) (markdown theme id : string)
  : M (list part) :=
  match t with
  | GenerateSlide => generateSlide_try
  | GenerateSlidePDF => generateSlidePDF_try
  | GenerateSlidePPTX => generateSlidePPTX_try
  end h markdown theme (cwd h) (workRoot h) id (stagingDir h id).

Definition format_of (t : tool) : string :=
  match t with
  | GenerateSlide => "png"
  | GenerateSlidePDF => "pdf"
  | GenerateSlidePPTX => "pptx"
  end.

(** The image part made from the bytes of one exported file. *)
Definition image_of (data : list byte) : part :=
  ImagePart (Base64.encode data) "image/png".

Definition is_png (name : string) : bool := endsWith name ".png".

(** The name of the document a document tool reads back. *)
Definition document_name (t : tool) : string :=
  match t with
  | GenerateSlidePPTX => "slides-export.pptx"
  | _ => "slides-export.pdf"
  end.

(** The steps that follow in each [try] block: collect what the renderer
    left and build the content. *)
Definition collect (t : tool) (h : host) (markdown theme id : string)
  : M (list part) :=
  match t with
  | GenerateSlide =>
      names <- readdirSync (exportDir h id) ;;
      contentArray <-
        mapM (fun file =>
                pngBuffer <- readFileSync (join (exportDir h id) file) ;;
                ret (image_of pngBuffer))
             (sort byNumber (filter is_png names)) ;;
      ret (TextPart id
           :: TextPart (JSON_stringify markdown theme)
           :: contentArray)
  | GenerateSlidePDF =>
      let pdfPath := join (stagingDir h id) "slides-export.pdf" in
      pdfBuffer <- readFileSync pdfPath ;;
      ret [ResourcePart ("file://" ++ show pdfPath)
             (Base64.encode pdfBuffer) "application/pdf"]
  | GenerateSlidePPTX =>
      let pptxPath := join (stagingDir h id) "slides-export.pptx" in
      pptxBuffer <- readFileSync pptxPath ;;
      ret [ResourcePart
             ("file://" ++ show_relative (relative (workRoot h) pptxPath))
             (Base64.encode pptxBuffer) pptxMime]
  end.

Definition theme_or_default (theme : option string) : string :=
  match theme with Some t => t | None => "default" end.

(** The world in which the [try] block of an invocation starts: one more
    identifier has been drawn. *)
Definition drawn (w : World) : World :=
  {| fs := fs w; draws := S (draws w); spawned := spawned w |}.

(** An invocation is successful when its [try] block runs to its
    [return]. *)
Definition succeeds (t : tool) (h : host) (markdown : string)
    (theme : option string) (w : World) (content : list part) (w' : World)
  : Prop :=
  try_block t h markdown (theme_or_default theme) (uuid h (draws w))
    (drawn w) = (Ok content, w').

(** A subprocess fails when it exits with another status than 0 or cannot
    be spawned. *)
Definition fails (o : exec_outcome) : Prop :=
  match o with
  | Exited status _ _ => status <> 0%Z
  | SpawnError _ => True
  end.

Definition failure_prefix (t : tool) : string :=
  match t with
  | GenerateSlide => "Failed to generate slides: "
  | GenerateSlidePDF => "Failed to generate PDF: "
  | GenerateSlidePPTX => "Failed to generate PPTX: "
  end.

(** *** Numbered file names

    The value of a decimal numeral, by position; [None] when the text is
    empty or holds another character than a digit. *)
Definition is_digit (c : ascii) : bool :=
  let n := nat_of_ascii c in (48 <=? n)%nat && (n <=? 57)%nat.

Fixpoint numeral (s : string) : option Z :=
  match s with
  | EmptyString => None
  | String c rest =>
      if is_digit c then
        let d := (Z.of_nat (nat_of_ascii c) - 48)%Z in
        match rest with
        | EmptyString => Some d
        | _ =>
            match numeral rest with
            | Some v => Some (d * 10 ^ Z.of_nat (String.length rest) + v)%Z
            | None => None
            end
        end
      else None
  end.

Definition MAX_SAFE_INTEGER : Z := (2 ^ 53 - 1)%Z.

(** [numbered name n]: the name is the numeral of [n], a dot, and the
    rest, as in [1.png], [2.png], ..., and [n] is a number that a double
    holds exactly. *)
Definition numbered (name : string) (n : Z) : Prop :=
  exists stem rest,
    name = (stem ++ "." ++ rest)%string /\
    numeral stem = Some n /\
    (n <= MAX_SAFE_INTEGER)%Z.

(** The number the comparator of [generateSlide] reads in a name. *)
Definition number_of (name : string) : Z :=
  match parseInt (split0 "." name) with Some v => v | None => 0%Z end.

Section Keys.
Context {A : Type} (comparefn : A -> A -> option Z) (key : A -> Z).

(** On [l] the comparator is the difference of the keys. *)
Definition by_key (l : list A) : Prop :=
  forall x y, In x l -> In y l -> comparefn x y = Some (key x - key y)%Z.

Definition key_le (x y : A) : Prop := (key x <= key y)%Z.

Definition has_key (k : Z) (x : A) : bool := (key x =? k)%Z.
End Keys.

(** Numeric order of numbered names. *)
Definition numeric_le (a b : string) : Prop :=
  forall m n, numbered a m -> numbered b n -> (m <= n)%Z.

(** [reads dir root file data]: in [root], [file] of directory [dir] is a
    regular file that holds [data]. *)
Definition reads (dir : path) (root : node) (file : string)
    (data : list byte) : Prop :=
  readFile (join dir file) root = inr data.

(** The subprocess a tool spawns in the invocation [id], on the file
    system [root]. *)
Definition spawn_of (h : host) (format theme id : string) (root : node)
  : spawn :=
  {| command := exportCommand (slidevPath h) format theme;
     spawn_cwd := stagingDir h id;
     spawn_fs := root |}.

Definition image_count (content : list part) : nat :=
  List.length
    (filter (fun c => match c with ImagePart _ _ => true | _ => false end)
       content).

Definition resource_count (content : list part) : nat :=
  List.length
    (filter (fun c => match c with ResourcePart _ _ _ => true | _ => false end)
       content).

End Spec.

Module PageSpec.
Import App.

(** The message a handler shows instead of calling the server: an alert,
    or a line in the status area. *)
Definition notice (t : trigger) (u u' : UI) : Prop :=
  match t with
  | Regenerate =>
      alerts u' = alerts u ++ ["Please populate markdown first"]
  | ExportPdf =>
      alerts u' = alerts u ++ ["Please generate slides first"] \/
      pdfStatusDiv u' = [Text "Please populate markdown first"]
  | ExportPptx =>
      exists shown,
        pdfStatusDiv u' = shown ++ [Html "<br>Please populate markdown first"]
  end.

(** The requests a complete run of a trigger's handler sends. *)
Definition requests (t : trigger) (u : UI) (between : UI -> UI)
    (answer : settled) : list request :=
  snd (complete (handle t u) between answer).

(** The page when a complete run of a trigger's handler is over. *)
Definition page_after (t : trigger) (u : UI) (between : UI -> UI)
    (answer : settled) : UI :=
  fst (complete (handle t u) between answer).

Definition enabled (t : trigger) (u : UI) : Prop :=
  disabled (control t u) = false.

End PageSpec.

(** ** Sample hosts and pages *)

Module Sample.
Import JS Fs Host Server App.

Definition bytes (s : string) : list byte := list_byte_of_string s.

(** Write the files into [dir], which exists. *)
Definition emit (dir : path) (files : list (string * list byte))
    (root : node) : node :=
  fold_left
    (fun n f =>
       match write (join dir (fst f)) (snd f) n with
       | inr n' => n'
       | inl _ => n
       end)
    files root.

(** A renderer that leaves the given images in [slides-export] and the
    given document as [slides-export.pdf] and [slides-export.pptx]. *)
Definition slidev (images : list (string * list byte)) (doc : list byte)
  : string -> path -> node -> exec_outcome :=
  fun _ dir root =>
    match mkdirp (join dir "slides-export") root with
    | inr n =>
        Exited 0 EmptyString
          (emit dir
             [("slides-export.pdf", doc); ("slides-export.pptx", doc)]
             (emit (join dir "slides-export") images n))
    | inl _ => Exited 1 "cannot create slides-export" root
    end.

(** A renderer that always exits with status 1. *)
Definition broken : string -> path -> node -> exec_outcome :=
  fun _ _ root => Exited 1 "Error: unknown theme" root.

(** A renderer that exits with status 0 and writes nothing. *)
Definition idle : string -> path -> node -> exec_outcome :=
  fun _ _ root => Exited 0 EmptyString root.

Definition ids (n : nat) : string :=
  match n with
  | 0 => "1b4e28ba-2fa1-41d2-883f-0016d3cca427"
  | 1 => "6fa459ea-ee8a-4ca4-894e-db77e160355e"
  | _ => "886313e1-3b8a-4372-9b90-0c9aee199e5d"
  end%nat.

Definition on (r : string -> path -> node -> exec_outcome) : host :=
  {| cwd := ["srv"; "app"]; uuid := ids; renderer := r |}.

Definition deck : list (string * list byte) :=
  [("2.png", bytes "two"); ("10.png", bytes "ten");
   ("index.json", bytes "{}"); ("1.png", bytes "one")].

Definition good : host := on (slidev deck (bytes "%PDF-1.7")).
Definition empty_export : host := on (slidev [] (bytes "%PDF-1.7")).

Definition disk : World :=
  {| fs := Dir [("srv", Dir [("app", Dir [])])]; draws := 0; spawned := [] |}.

(** The world after a [generateSlide] on [good], and what its export
    directory holds. *)
Definition staged : World :=
  snd (Spec.stage good "png" "# Deck" "default" (ids 0) (Spec.drawn disk)).

Definition deck_entries : list (string * node) :=
  map (fun f => (fst f, File (snd f))) deck.

(** The parts that follow the identifier in that invocation's content,
    and the world after a second, equal, invocation. *)
Definition slides : list part :=
  [TextPart (JSON_stringify "# Deck" "default");
   Spec.image_of (bytes "one"); Spec.image_of (bytes "two");
   Spec.image_of (bytes "ten")].

Definition staged_again : World :=
  snd (generateSlide good "# Deck" None staged).

(** Arguments as a caller sends them. *)
Definition request : arguments :=
  {| arg_markdown := JString "# Deck; rm -rf /";
     arg_theme := JString "seriph" |}.

(** A text of white space only: two spaces, a tab, a line feed. *)
Definition blank : string :=
  String " " (String " " (String "009" (String "010" EmptyString))).

Definition page (text : string) (id : option string) : UI :=
  {| markdownInput := text; themeSelect := "seriph";
     regenerateBtn := {| disabled := false; label := "Regenerate with Theme" |};
     generatePdfBtn := {| disabled := false; label := "Generate PDF" |};
     generatePptxBtn := {| disabled := false; label := "Generate PPTX" |};
     slidesContainer := []; pdfStatusDiv := [];
     currentExecutionId := id; alerts := [] |}.

End Sample.

(** ** [JSON.parse] (ECMA-262, 25.5.1; the grammar of ECMA-404) *)

Module Json.

(** A parsed text.  A number keeps its lexeme: its value is a double. *)
Inductive value : Type :=
| Null
| Bool (b : bool)
| Num (lexeme : string)
| Str (s : string)
| Arr (items : list value)
| Obj (members : list (string * value)).

(** JSON white space: tab, line feed, carriage return, space. *)
Definition is_ws (c : ascii) : bool :=
  let n := nat_of_ascii c in
  (n =? 9)%nat || (n =? 10)%nat || (n =? 13)%nat || (n =? 32)%nat.

Fixpoint skip_ws (s : string) : string :=
  match s with
  | String c rest => if is_ws c then skip_ws rest else s
  | EmptyString => s
  end.

Definition hex_value (c : ascii) : option N :=
  let n := N_of_ascii c in
  if (48 <=? n)%N && (n <=? 57)%N then Some (n - 48)%N
  else if (97 <=? n)%N && (n <=? 102)%N then Some (n - 87)%N
  else if (65 <=? n)%N && (n <=? 70)%N then Some (n - 55)%N
  else None.

(** The code unit of the four hexadecimal digits of a [\u] escape. *)
Definition hex4 (a b c d : ascii) : option N :=
  match hex_value a, hex_value b, hex_value c, hex_value d with
  | Some x, Some y, Some z, Some t =>
      Some (((x * 16 + y) * 16 + z) * 16 + t)%N
  | _, _, _, _ => None
  end.

Definition byte_string (ns : list N) : string :=
  string_of_list_ascii (map ascii_of_N ns).

(** The UTF-8 bytes of a code point; a surrogate that stands alone is
    written the same way, in three bytes. *)
Definition utf8_encode (cp : N) : string :=
  if (cp <? 128)%N then byte_string [cp]
  else if (cp <? 2048)%N then
    byte_string [192 + cp / 64; 128 + cp mod 64]%N
  else if (cp <? 65536)%N then
    byte_string [224 + cp / 4096; 128 + (cp / 64) mod 64; 128 + cp mod 64]%N
  else
    byte_string [240 + cp / 262144; 128 + (cp / 4096) mod 64;
                 128 + (cp / 64) mod 64; 128 + cp mod 64]%N.

Definition is_high_surrogate (u : N) : bool :=
  (55296 <=? u)%N && (u <=? 56319)%N.
Definition is_low_surrogate (u : N) : bool :=
  (56320 <=? u)%N && (u <=? 57343)%N.

(** Put decoded text in front of what the rest of a string decodes to. *)
Definition prepend (pre : string) (r : string * string) : string * string :=
  let (body, rest) := r in ((pre ++ body)%string, rest).

(** The characters of a string after its opening quote: the text they
    denote and what follows the closing quote.  [None] when the string is
    not closed, holds a control character or a wrong escape. *)
Fixpoint string_body (s : string) : option (string * string) :=
  match s with
  | EmptyString => None
  | String c rest =>
      if Ascii.eqb c dquote then Some (EmptyString, rest)
      else if Ascii.eqb c "\" then
        match rest with
        | String e rest1 =>
            if Ascii.eqb e dquote then
              option_map (prepend (str1 dquote)) (string_body rest1)
            else if Ascii.eqb e "\" then
              option_map (prepend "\") (string_body rest1)
            else if Ascii.eqb e "/" then
              option_map (prepend "/") (string_body rest1)
            else if Ascii.eqb e "b" then
              option_map (prepend (str1 "008")) (string_body rest1)
            else if Ascii.eqb e "f" then
              option_map (prepend (str1 "012")) (string_body rest1)
            else if Ascii.eqb e "n" then
              option_map (prepend (str1 "010")) (string_body rest1)
            else if Ascii.eqb e "r" then
              option_map (prepend (str1 "013")) (string_body rest1)
            else if Ascii.eqb e "t" then
              option_map (prepend (str1 "009")) (string_body rest1)
            else if Ascii.eqb e "u" then
              match rest1 with
              | String h1 (String h2 (String h3 (String h4 rest2))) =>
                  match hex4 h1 h2 h3 h4 with
                  | Some u =>
                      let alone :=
                        option_map (prepend (utf8_encode u))
                          (string_body rest2) in
                      if is_high_surrogate u then
                        match rest2 with
                        | String b (String v (String l1 (String l2
                            (String l3 (String l4 rest3))))) =>
                            if Ascii.eqb b "\" && Ascii.eqb v "u" then
                              match hex4 l1 l2 l3 l4 with
                              | Some lo =>
                                  if is_low_surrogate lo then
                                    option_map
                                      (prepend
                                         (utf8_encode
                                            (65536 + (u - 55296) * 1024
                                             + (lo - 56320))%N))
                                      (string_body rest3)
                                  else alone
                              | None => alone
                              end
                            else alone
                        | _ => alone
                        end
                      else alone
                  | None => None
                  end
              | _ => None
              end
            else None
        | EmptyString => None
        end
      else if (nat_of_ascii c <? 32)%nat then None
      else option_map (prepend (str1 c)) (string_body rest)
  end.

Definition is_digit (c : ascii) : bool :=
  let n := nat_of_ascii c in (48 <=? n)%nat && (n <=? 57)%nat.

(** The longest run of digits at the front, and the rest. *)
Fixpoint digits (s : string) : string * string :=
  match s with
  | String c rest =>
      if is_digit c then prepend (str1 c) (digits rest) else (EmptyString, s)
  | EmptyString => (EmptyString, s)
  end.

(** A number: [-]? int frac? exp?, with no leading zero in [int]. *)
Definition number (s : string) : option (string * string) :=
  let (sign, s1) :=
    match s with
    | String "-" r => ("-", r)
    | _ => (EmptyString, s)
    end in
  let (int, s2) := digits s1 in
  match int with
  | EmptyString => None
  | String "0" (String _ _) => None
  | _ =>
      let frac :=
        match s2 with
        | String "." r =>
            let (ds, r') := digits r in
            match ds with
            | EmptyString => None
            | _ => Some (String "." ds, r')
            end
        | _ => Some (EmptyString, s2)
        end in
      match frac with
      | None => None
      | Some (fr, s3) =>
          let exp :=
            match s3 with
            | String e r =>
                if Ascii.eqb e "e" || Ascii.eqb e "E" then
                  let (sg, r1) :=
                    match r with
                    | String "+" r1 => ("+", r1)
                    | String "-" r1 => ("-", r1)
                    | _ => (EmptyString, r)
                    end in
                  let (ds, r2) := digits r1 in
                  match ds with
                  | EmptyString => None
                  | _ => Some (String e (sg ++ ds), r2)
                  end
                else Some (EmptyString, s3)
            | EmptyString => Some (EmptyString, s3)
            end in
          match exp with
          | None => None
          | Some (ex, s4) => Some ((sign ++ int ++ fr ++ ex)%string, s4)
          end
      end
  end.

(** What follows [word] at the front of [s], when [s] starts with it. *)
Fixpoint strip (word s : string) : option string :=
  match word, s with
  | EmptyString, _ => Some s
  | String a word', String b s' =>
      if Ascii.eqb a b then strip word' s' else None
  | String _ _, EmptyString => None
  end.

(** [literal word v s]: the value [v] when [s] starts with [word]. *)
Definition literal (word : string) (v : value) (s : string)
  : option (value * string) :=
  match strip word s with
  | Some rest => Some (v, rest)
  | None => None
  end.

(** A value at the front of [s], after white space, and the rest.  Each
    call passes on one unit of [fuel] less, and a shorter text at least
    every second time, so that a fuel above twice the length of the text
    is never used up. *)
Fixpoint value_ (fuel : nat) (s : string) : option (value * string) :=
  match fuel with
  | O => None
  | S fuel =>
      match skip_ws s with
      | EmptyString => None
      | String c rest =>
          if Ascii.eqb c "{" then
            match skip_ws rest with
            | String "}" rest1 => Some (Obj [], rest1)
            | _ =>
                match members_ fuel rest with
                | Some (ms, rest1) => Some (Obj ms, rest1)
                | None => None
                end
            end
          else if Ascii.eqb c "[" then
            match skip_ws rest with
            | String "]" rest1 => Some (Arr [], rest1)
            | _ =>
                match elements_ fuel rest with
                | Some (vs, rest1) => Some (Arr vs, rest1)
                | None => None
                end
            end
          else if Ascii.eqb c dquote then
            match string_body rest with
            | Some (text, rest1) => Some (Str text, rest1)
            | None => None
            end
          else if Ascii.eqb c "t" then literal "true" (Bool true) (String c rest)
          else if Ascii.eqb c "f" then
            literal "false" (Bool false) (String c rest)
          else if Ascii.eqb c "n" then literal "null" Null (String c rest)
          else
            match number (String c rest) with
            | Some (lexeme, rest1) => Some (Num lexeme, rest1)
            | None => None
            end
      end
  end

(** The members of an object after its brace or a comma, up to and with
    the closing brace. *)
with members_ (fuel : nat) (s : string)
  : option (list (string * value) * string) :=
  match fuel with
  | O => None
  | S fuel =>
      match skip_ws s with
      | String q rest =>
          if Ascii.eqb q dquote then
            match string_body rest with
            | Some (key, rest1) =>
                match skip_ws rest1 with
                | String ":" rest2 =>
                    match value_ fuel rest2 with
                    | Some (v, rest3) =>
                        match skip_ws rest3 with
                        | String "," rest4 =>
                            match members_ fuel rest4 with
                            | Some (ms, rest5) => Some ((key, v) :: ms, rest5)
                            | None => None
                            end
                        | String "}" rest4 => Some ([(key, v)], rest4)
                        | _ => None
                        end
                    | None => None
                    end
                | _ => None
                end
            | None => None
            end
          else None
      | EmptyString => None
      end
  end

(** The elements of an array after its bracket or a comma, up to and with
    the closing bracket. *)
with elements_ (fuel : nat) (s : string) : option (list value * string) :=
  match fuel with
  | O => None
  | S fuel =>
      match value_ fuel s with
      | Some (v, rest1) =>
          match skip_ws rest1 with
          | String "," rest2 =>
              match elements_ fuel rest2 with
              | Some (vs, rest3) => Some (v :: vs, rest3)
              | None => None
              end
          | String "]" rest2 => Some ([v], rest2)
          | _ => None
          end
      | None => None
      end
  end.

(** [JSON.parse(text)]: one value and nothing but white space after it;
    [None] is the [SyntaxError]. *)
Definition parse (text : string) : option value :=
  match value_ (S (2 * String.length text)) text with
  | Some (v, rest) =>
      match skip_ws rest with
      | EmptyString => Some v
      | _ => None
      end
  | None => None
  end.

(** [v[key]] on an object: the member written last under that key;
    [None] is [undefined]. *)
Fixpoint member (key : string) (ms : list (string * value)) : option value :=
  match ms with
  | [] => None
  | (k, v) :: ms' =>
      match member key ms' with
      | Some later => Some later
      | None => if String.eqb k key then Some v else None
      end
  end.

End Json.

(** ** [src/mcp-app.ts]: the result pushed by the host *)

Module Pushed.
Import JS Server App.

Definition is_text (c : part) : bool :=
  match c with TextPart _ => true | _ => false end.

(** [c.text] of a text part. *)
Definition text_of (c : part) : string :=
  match c with TextPart text => text | _ => "undefined" end.

Definition set_markdownInput (v : string) (u : UI) : UI :=
  {| markdownInput := v; themeSelect := themeSelect u;
     regenerateBtn := regenerateBtn u; generatePdfBtn := generatePdfBtn u;
     generatePptxBtn := generatePptxBtn u;
     slidesContainer := slidesContainer u; pdfStatusDiv := pdfStatusDiv u;
     currentExecutionId := currentExecutionId u; alerts := alerts u |}.

Definition set_themeSelect (v : string) (u : UI) : UI :=
  {| markdownInput := markdownInput u; themeSelect := v;
     regenerateBtn := regenerateBtn u; generatePdfBtn := generatePdfBtn u;
     generatePptxBtn := generatePptxBtn u;
     slidesContainer := slidesContainer u; pdfStatusDiv := pdfStatusDiv u;
     currentExecutionId := currentExecutionId u; alerts := alerts u |}.

Definition set_currentExecutionId (v : option string) (u : UI) : UI :=
  {| markdownInput := markdownInput u; themeSelect := themeSelect u;
     regenerateBtn := regenerateBtn u; generatePdfBtn := generatePdfBtn u;
     generatePptxBtn := generatePptxBtn u;
     slidesContainer := slidesContainer u; pdfStatusDiv := pdfStatusDiv u;
     currentExecutionId := v; alerts := alerts u |}.

(** What a textarea gives back as its [value]: the text it was given with
    each CR LF and each CR alone turned into LF. *)
Fixpoint normalize_newlines (s : string) : string :=
  match s with
  | EmptyString => EmptyString
  | String c rest =>
      if Ascii.eqb c "013" then
        String "010"
          match rest with
          | String c' rest' =>
              if Ascii.eqb c' "010" then normalize_newlines rest'
              else normalize_newlines rest
          | EmptyString => EmptyString
          end
      else String c (normalize_newlines rest)
  end.

(** [params[key]] for the keys ["markdown"] and ["theme"]: a member of an
    object, [undefined] ([None]) on anything else that is not [null]. *)
Definition property (params : Json.value) (key : string)
  : option Json.value :=
  match params with
  | Json.Obj members => Json.member key members
  | _ => None
  end.

Section Setters.
(** The markup of the page is not part of the sources: the values of the
    options of the theme selector are a parameter.  So is the text of a
    number, which is that of a double. *)
Variable options : list string.
Variable numberToString : string -> string.

(** [String(v)] *)
Fixpoint toString (v : Json.value) : string :=
  match v with
  | Json.Null => "null"
  | Json.Bool true => "true"
  | Json.Bool false => "false"
  | Json.Num lexeme => numberToString lexeme
  | Json.Str s => s
  | Json.Arr items =>
      String.concat ","
        (map (fun item =>
                match item with
                | Json.Null => EmptyString
                | _ => toString item
                end)
             items)
  | Json.Obj _ => "[object Object]"
  end.

(** [markdownInput.value = v], read back: [null] becomes the empty text,
    anything else its string. *)
Definition textarea_value (v : option Json.value) : string :=
  normalize_newlines
    match v with
    | None => "undefined"
    | Some Json.Null => EmptyString
    | Some v => toString v
    end.

(** [themeSelect.value = v], read back: the option with that value is
    selected, and none when there is no such option. *)
Definition select_value (v : option Json.value) : string :=
  let text := match v with None => "undefined" | Some v => toString v end in
  if existsb (String.eqb text) options then text else EmptyString.

(** [app.ontoolresult]; the two [catch]-ed failures are the [SyntaxError]
    of [JSON.parse] and the [TypeError] of reading a property of [null]. *)
Definition ontoolresult (result : CallToolResult) (u : UI) : UI :=
  let u := set_slidesContainer [] u in
  let textContents :=
    match content result with
    | Some parts => filter is_text parts
    | None => []
    end in
  let u :=
    match textContents with
    | first :: second :: _ =>
        let u := set_currentExecutionId (Some (text_of first)) u in
        let paramsText := text_of second in
        match Json.parse paramsText with
        | None => u
        | Some Json.Null => u
        | Some params =>
            let u :=
              set_markdownInput (textarea_value (property params "markdown"))
                u in
            set_themeSelect (select_value (property params "theme")) u
        end
    | _ => u
    end in
  displaySlides result u.
End Setters.

(** The object a handler of [index.ts] returns, as the mini-app receives
    it: a [content] array and no [isError]. *)
Definition returned (parts : list part) : CallToolResult :=
  {| isError := false; content := Some parts |}.

(** The image element [displaySlides] makes of the bytes of a slide. *)
Definition slide_image (data : list byte) : dom :=
  Img ("data:image/png;base64," ++ Base64.encode data).

(** The tool a trigger calls, and what its handler names in the page. *)
Definition tool_of (t : trigger) : tool :=
  match t with
  | Regenerate => GenerateSlide
  | ExportPdf => GenerateSlidePDF
  | ExportPptx => GenerateSlidePPTX
  end.

Definition export_kind (t : trigger) : string :=
  match t with ExportPptx => "PPTX" | _ => "PDF" end.

Definition export_mime (t : trigger) : string :=
  match t with ExportPptx => pptxMime | _ => "application/pdf" end.

(** The [finally] block of a trigger's handler. *)
Definition finish (t : trigger) : UI -> UI :=
  match t with
  | Regenerate => handleRegenerate_finally
  | ExportPdf => handleGeneratePdf_finally
  | ExportPptx => handleGeneratePptx_finally
  end.

(** The page as a handler leaves it when it sends its request (when it
    returns, if it sends none). *)
Definition page_at_await (t : trigger) (u : UI) : UI :=
  match handle t u with
  | Done u' => u'
  | Await u1 _ _ => u1
  end.

(** What a handler shows for a content without the part it looks for. *)
Definition nothing_found (t : trigger) (u : UI) : UI :=
  match t with
  | Regenerate => set_slidesContainer [Text "[ERROR] No images found"] u
  | _ =>
      append_status
        ("<br><strong>Exception:</strong> No " ++ export_kind t ++
         " resource found in response") u
  end.

(** A series of clicks, each run to its end before the next, with nothing
    else happening to the page. *)
Definition clicks (cs : list (trigger * settled)) (u : UI) : UI :=
  fold_left
    (fun u c => PageSpec.page_after (fst c) u (fun u => u) (snd c)) cs u.

End Pushed.

(** ** [src/index.ts]: [main] *)

Module Main.
Import JS.

(** [parseInt(s, 10)]: as [parseInt(s)], but a leading [0x] is not taken
    for a radix. *)
Definition parseInt10 (input : string) : option Z :=
  let s := trimStart input in
  let '(sign, s) :=
    match s with
    | String "-" rest => ((-1)%Z, rest)
    | String "+" rest => (1%Z, rest)
    | _ => (1%Z, s)
    end in
  option_map (Z.mul sign) (parse_digits 10 s 0%Z false).

(** What becomes of the process.  [serve] hands its port to [listen],
    which refuses what is not an integer from 0 to 65535 (the error rejects
    the promise of [main], whose [catch] ends the process with status 1) and
    lets the operating system choose the port when it is 0. *)
Inductive outcome : Type :=
| Stdio                         (* connected to the stdio transport *)
| Listen (port : Z)             (* asked to listen for HTTP on this port *)
| ListenAny                     (* asked to listen on a port of the system's choice *)
| Exit (status : Z).            (* [process.exit(status)] *)

(** [serve({ fetch, port })] *)
Definition serve (port : option Z) : outcome :=
  match port with
  | Some p =>
      if (p =? 0)%Z then ListenAny
      else if (1 <=? p)%Z && (p <=? 65535)%Z then Listen p
      else Exit 1
  | None => Exit 1
  end.

(** [process.env.PORT || "8000"] *)
Definition port_text (PORT : option string) : string :=
  match PORT with
  | Some p => if falsy p then "8000" else p
  | None => "8000"
  end.

(** [main], from [process.argv] and [process.env.PORT]. *)
Definition main (argv : list string) (PORT : option string) : outcome :=
  if existsb (String.eqb "--stdio") argv then Stdio
  else serve (parseInt10 (port_text PORT)).

End Main.

(** ** More vocabulary *)

Module Frame.
Import Fs.

(** [on_the_way q p]: [q] is [p] or a directory above it. *)
Fixpoint on_the_way (q p : path) : bool :=
  match q, p with
  | [], _ => true
  | a :: q', b :: p' => String.eqb a b && on_the_way q' p'
  | _ :: _, [] => false
  end.

(** Neither path is on the way to the other. *)
Definition apart (p q : path) : bool :=
  negb (on_the_way p q) && negb (on_the_way q p).

End Frame.

(** ** Listings and series of invocations *)

Module Run.
Import JS Fs Host Server Spec.

(** Every name ending in [.png] that the export directory of the
    invocation lists is a numbered name.  On such names the comparator of
    [generateSlide] is a consistent order and the numbers are exact as
    doubles, so the order of the sort is the engine's. *)
Definition numbered_export (h : host) (id : string) (root : node) : Prop :=
  forall names,
    readdir (exportDir h id) root = inr names ->
    forall a, In a names -> is_png a = true -> exists n, numbered a n.

(** [crypto.randomUUID()] does not return the same identifier twice. *)
Definition fresh_source (h : host) : Prop :=
  forall i j, uuid h i = uuid h j -> i = j.

(** A tool call, and the world after a series of calls.  No handler of
    [index.ts] has an [await]: each call runs to its end before the next
    one begins. *)
Record call : Type := {
  call_tool : tool;
  call_markdown : string;
  call_theme : option string
}.

Definition invocations (h : host) (cs : list call) (w : World) : World :=
  fold_left
    (fun w c =>
       snd (handler (call_tool c) h (call_markdown c) (call_theme c) w))
    cs w.

End Run.

(** ** More samples *)

Module Trial.
Import JS Fs Host Server App.

(** What the user typed: the deck between two blanks. *)
Definition typed : string := "  # Deck ".

Definition ask (tool : string) : request :=
  {| name := tool; req_markdown := "# Deck"; req_theme := "seriph" |}.

(** The content a run returned. *)
Definition answer (r : result (list part) * World) : list part :=
  match fst r with
  | Ok parts => parts
  | Throw _ => []
  end.

Definition run (t : tool) (h : host) : result (list part) * World :=
  handler t h "# Deck" (Some "seriph") Sample.disk.

(** A host whose renderer writes an empty document. *)
Definition hollow : host := Sample.on (Sample.slidev [] []).

(** A file and a directory that are there before any invocation. *)
Definition shelf : World :=
  {| fs :=
       Dir [("srv",
             Dir [("app",
                   Dir [("package.json", File (Sample.bytes "{}"));
                        (".slidev-work",
                         Dir [("older", Dir [("slides.md",
                                              File (Sample.bytes "# Old"))])])])])];
     draws := 0; spawned := [] |}.

(** The subprocess a run from [w] spawned last. *)
Definition spawn_in (t : tool) (h : host) (w : World) : spawn :=
  List.last (spawned (snd (handler t h "# Deck" (Some "seriph") w)))
    {| command := EmptyString; spawn_cwd := []; spawn_fs := Dir [] |}.

(** The subprocess of a [generateSlide] on [Sample.broken]. *)
Definition failed_spawn : spawn :=
  List.last
    (spawned (snd (handler GenerateSlide (Sample.on Sample.broken) "# Deck"
                     None Sample.disk)))
    {| command := EmptyString; spawn_cwd := []; spawn_fs := Dir [] |}.

(** What [execSync] throws on [Sample.broken]. *)
Definition refusal : thrown :=
  ErrorObj
    ("Command failed: " ++
     exportCommand (Spec.slidevPath (Sample.on Sample.broken)) "pdf" "seriph" ++
     String newline "Error: unknown theme").

(** A random source that counts: the identifier of draw [n] is [n] times
    the letter i before [id]. *)
Fixpoint serial (n : nat) : string :=
  match n with
  | O => "id"
  | S n' => String "i" (serial n')
  end.

Definition counting : host :=
  {| cwd := ["srv"; "app"]; uuid := serial;
     renderer := Sample.slidev Sample.deck (Sample.bytes "%PDF-1.7") |}.

(** A [generateSlide], then a [generateSlidePDF] of another deck, then the
    first [generateSlide] again. *)
Definition other : Run.call :=
  {| Run.call_tool := GenerateSlidePDF; Run.call_markdown := "# Other";
     Run.call_theme := Some "seriph" |}.

Definition once : World :=
  snd (generateSlide counting "# Deck" None Sample.disk).
Definition later : World := Run.invocations counting [other] once.
Definition twice : World :=
  snd (generateSlide counting "# Deck" None later).

End Trial.

Local Open Scope string_scope.

(** * Facts about the built-ins *)

(** ** Base64 *)

Lemma b64_value_of_char_of (n : N) :
  (n < 64)%N -> Base64.value_of (Base64.char_of n) = Some n.
Proof.
  intros H.
  destruct n as [|p]; [reflexivity|].
  do 6 (destruct p as [p|p|]; try reflexivity; try (exfalso; lia)).
Qed.

Lemma b64_char_of_not_pad (n : N) :
  (n < 64)%N -> Ascii.eqb (Base64.char_of n) Base64.pad = false.
Proof.
  intros H.
  destruct n as [|p]; [reflexivity|].
  do 6 (destruct p as [p|p|]; try reflexivity; try (exfalso; lia)).
Qed.

Lemma byte_bound (b : byte) : (Byte.to_N b < 256)%N.
Proof. pose proof (Byte.to_N_bounded b). lia. Qed.

Lemma of_N_eq (n : N) (b : byte) : n = Byte.to_N b -> Byte.of_N n = Some b.
Proof. intros ->. apply Byte.of_to_N. Qed.

(** Induction on a list, three elements at a time. *)
Lemma list_ind3 {A} (P : list A -> Prop) :
  P [] -> (forall a, P [a]) -> (forall a b, P [a; b]) ->
  (forall a b c rest, P rest -> P (a :: b :: c :: rest)) ->
  forall l, P l.
Proof.
  intros H0 H1 H2 H3.
  fix IH 1. intros [|a [|b [|c rest]]];
    [apply H0 | apply H1 | apply H2 | apply H3, IH].
Qed.

Ltac euclid := zify; Z.to_euclidean_division_equations; lia.

Ltac sextets :=
  repeat match goal with
  | |- context [Base64.value_of (Base64.char_of ?n)] =>
      rewrite (b64_value_of_char_of n) by euclid
  | |- context [Ascii.eqb (Base64.char_of ?n) Base64.pad] =>
      rewrite (b64_char_of_not_pad n) by euclid
  end.

(** Decoding what [Buffer.toString("base64")] produced gives the bytes
    back. *)
Lemma decode_encode (bs : list byte) :
  Base64.decode (Base64.encode bs) = Some bs.
Proof.
  induction bs as [|a|a b|a b c rest IH] using list_ind3.
  - reflexivity.
  - pose proof (byte_bound a).
    cbn [Base64.encode Base64.decode]. sextets.
    cbn [Ascii.eqb Base64.pad Bool.eqb JS.falsy andb Base64.bytes_of
           fold_right].
    rewrite (of_N_eq _ a); [reflexivity|euclid].
  - pose proof (byte_bound a). pose proof (byte_bound b).
    cbn [Base64.encode Base64.decode]. sextets.
    cbn [Ascii.eqb Base64.pad Bool.eqb JS.falsy andb Base64.bytes_of
           fold_right].
    rewrite (of_N_eq _ a), (of_N_eq _ b); [reflexivity| |]; euclid.
  - pose proof (byte_bound a). pose proof (byte_bound b).
    pose proof (byte_bound c).
    cbn [Base64.encode Base64.decode]. sextets. rewrite IH.
    cbn [Base64.bytes_of fold_right option_map].
    rewrite (of_N_eq _ a), (of_N_eq _ b), (of_N_eq _ c);
      [reflexivity| | |]; euclid.
Qed.

(** ** Decimal numerals and [parseInt] *)

Import JS Fs Host Server Spec.

Lemma digit_value_digit (c : ascii) :
  is_digit c = true ->
  digit_value 10 c = Some (Z.of_nat (nat_of_ascii c) - 48)%Z /\
  (0 <= Z.of_nat (nat_of_ascii c) - 48 <= 9)%Z.
Proof.
  unfold is_digit, digit_value. intros H.
  apply andb_true_iff in H as [H1 H2].
  apply Nat.leb_le in H1, H2.
  replace ((48 <=? Z.of_nat (nat_of_ascii c))%Z) with true
    by (symmetry; apply Z.leb_le; lia).
  replace ((Z.of_nat (nat_of_ascii c) <=? 57)%Z) with true
    by (symmetry; apply Z.leb_le; lia).
  cbn [andb].
  replace ((Z.of_nat (nat_of_ascii c) - 48 <? 10)%Z) with true
    by (symmetry; apply Z.ltb_lt; lia).
  split; [reflexivity | lia].
Qed.

Lemma parse_digits_numeral (s : string) :
  forall v acc seen,
    numeral s = Some v ->
    parse_digits 10 s acc seen = Some (acc * 10 ^ Z.of_nat (String.length s) + v)%Z.
Proof.
  induction s as [|c rest IH]; intros v acc seen H; [discriminate|].
  cbn [numeral] in H. destruct (is_digit c) eqn:D; [|discriminate].
  destruct (digit_value_digit c D) as [DV _].
  cbn [parse_digits]. rewrite DV.
  destruct rest as [|c' rest'].
  - injection H as <-. cbn [parse_digits String.length]. reflexivity.
  - destruct (numeral (String c' rest')) as [v'|] eqn:E; [|discriminate].
    injection H as <-.
    rewrite (IH v' _ true eq_refl).
    f_equal.
    set (n := String.length (String c' rest')).
    change (String.length (String c (String c' rest'))) with (S n).
    rewrite Nat2Z.inj_succ, Z.pow_succ_r by lia.
    change (Z.pow_pos 10 (PosDef.Pos.of_succ_nat (String.length rest')))
      with (10 ^ Z.of_nat n)%Z.
    ring.
Qed.

Lemma numeral_inv (s : string) (v : Z) :
  numeral s = Some v ->
  exists c rest, s = String c rest /\ is_digit c = true /\
    match rest with
    | EmptyString => True
    | String c' _ => is_digit c' = true
    end.
Proof.
  destruct s as [|c rest]; [discriminate|]. cbn [numeral].
  destruct (is_digit c) eqn:D; [|discriminate]. intros H.
  exists c, rest. repeat split; auto.
  destruct rest as [|c' rest']; [exact I|].
  cbn [numeral] in H. destruct (is_digit c'); [reflexivity|discriminate].
Qed.

Lemma numeral_no_dot (s : string) (v : Z) (rest : string) :
  numeral s = Some v -> split0 "." (s ++ "." ++ rest) = s.
Proof.
  revert v. induction s as [|c s' IH]; intros v H; [discriminate|].
  cbn [numeral] in H. destruct (is_digit c) eqn:D; [|discriminate].
  cbn [append split0].
  assert (Ascii.eqb c "." = false) as ->.
  { destruct (Ascii.eqb_spec c "."); [subst; discriminate|reflexivity]. }
  f_equal.
  destruct s' as [|c' s''].
  - reflexivity.
  - destruct (numeral (String c' s'')) as [v'|] eqn:E; [|discriminate].
    exact (IH v' eq_refl).
Qed.

Lemma is_digit_cases (c : ascii) :
  is_digit c = true ->
  In c ["0"; "1"; "2"; "3"; "4"; "5"; "6"; "7"; "8"; "9"]%char.
Proof.
  destruct c as [[] [] [] [] [] [] [] []]; intros D; try discriminate D;
    cbn [In]; tauto.
Qed.

Ltac digit_cases D :=
  apply is_digit_cases in D; cbn [In] in D;
  repeat (destruct D as [<-|D]); [..|contradiction D].

Lemma parseInt_numeral (s : string) (v : Z) :
  numeral s = Some v -> parseInt s = Some v.
Proof.
  intros H.
  pose proof (parse_digits_numeral s v 0 false H) as P.
  destruct (numeral_inv s v H) as (c & rest & -> & D & D').
  unfold parseInt, trimStart.
  cbn [String.length trimStart_fuel].
  assert (find (fun ws => prefix ws (String c rest)) whiteSpace = None) as ->.
  { digit_cases D; reflexivity. }
  destruct rest as [|c' rest'].
  - digit_cases D; cbv beta iota; rewrite P; cbn [option_map]; f_equal; lia.
  - digit_cases D; digit_cases D';
      cbv beta iota; rewrite P; cbn [option_map]; f_equal; lia.
Qed.

Lemma numbered_parseInt (name : string) (n : Z) :
  numbered name n -> parseInt (split0 "." name) = Some n.
Proof.
  intros (stem & rest & -> & H & _).
  rewrite (numeral_no_dot stem n rest H). apply parseInt_numeral, H.
Qed.

Lemma number_of_numbered name n : numbered name n -> number_of name = n.
Proof.
  intros H. unfold number_of. now rewrite (numbered_parseInt name n H).
Qed.

Lemma byNumber_numbered a b m n :
  numbered a m -> numbered b n -> byNumber a b = Some (m - n)%Z.
Proof.
  intros Ha Hb. unfold byNumber.
  now rewrite (numbered_parseInt a m Ha), (numbered_parseInt b n Hb).
Qed.

(** ** [Array.prototype.sort] under a comparator that subtracts keys *)

Section SortFacts.
Context {A : Type} (comparefn : A -> A -> option Z) (key : A -> Z).

Lemma insert_perm (x : A) (l : list A) :
  Permutation (insert comparefn x l) (x :: l).
Proof.
  induction l as [|y l IH]; cbn [insert]; [reflexivity|].
  destruct (keeps_before comparefn x y); [reflexivity|].
  rewrite IH. apply perm_swap.
Qed.

Lemma sort_perm (l : list A) : Permutation (sort comparefn l) l.
Proof.
  induction l as [|x l IH]; cbn [sort]; [reflexivity|].
  rewrite insert_perm. now constructor.
Qed.

Lemma insert_sorted (x : A) (l : list A) :
  (forall y, In y l -> comparefn x y = Some (key x - key y)%Z) ->
  StronglySorted (key_le key) l ->
  StronglySorted (key_le key) (insert comparefn x l).
Proof.
  intros Hc Hs. induction Hs as [|y l Hs IH Hall]; cbn [insert].
  - repeat constructor.
  - unfold keeps_before. rewrite (Hc y (or_introl eq_refl)).
    destruct (Z.leb_spec (key x - key y) 0) as [Hle|Hgt].
    + constructor; [now constructor|].
      constructor; [unfold key_le; lia|].
      rewrite Forall_forall in Hall |- *. intros z Hz.
      specialize (Hall z Hz). unfold key_le in *. lia.
    + constructor.
      * apply IH. intros z Hz. apply Hc. now right.
      * rewrite Forall_forall in Hall |- *. intros z Hz.
        apply (Permutation_in _ (insert_perm x l)) in Hz.
        destruct Hz as [<-|Hz]; [unfold key_le; lia|now apply Hall].
Qed.

Lemma sort_sorted (l : list A) :
  by_key comparefn key l -> StronglySorted (key_le key) (sort comparefn l).
Proof.
  induction l as [|x l IH]; intros Hk; cbn [sort]; [constructor|].
  apply insert_sorted.
  - intros y Hy. apply Hk; [now left|].
    right. exact (Permutation_in _ (sort_perm l) Hy).
  - apply IH. intros a b Ha Hb. apply Hk; now right.
Qed.

(** The sort is stable: names with the same number keep the order in
    which the directory listed them. *)
Lemma insert_keeps_ties (x : A) (l : list A) (k : Z) :
  (forall y, In y l -> comparefn x y = Some (key x - key y)%Z) ->
  filter (has_key key k) (insert comparefn x l) = filter (has_key key k) (x :: l).
Proof.
  induction l as [|y l IH]; intros Hc; [reflexivity|].
  cbn [insert]. unfold keeps_before. rewrite (Hc y (or_introl eq_refl)).
  destruct (Z.leb_spec (key x - key y) 0) as [_|Hgt]; [reflexivity|].
  cbn [filter]. rewrite IH by (intros z Hz; apply Hc; now right).
  cbn [filter]. unfold has_key.
  destruct (Z.eqb_spec (key y) k), (Z.eqb_spec (key x) k);
    try reflexivity; lia.
Qed.

Lemma sort_keeps_ties (l : list A) (k : Z) :
  by_key comparefn key l ->
  filter (has_key key k) (sort comparefn l) = filter (has_key key k) l.
Proof.
  induction l as [|x l IH]; intros Hk; [reflexivity|].
  cbn [sort]. rewrite insert_keeps_ties.
  - cbn [filter]. rewrite IH by (intros a b Ha Hb; apply Hk; now right).
    reflexivity.
  - intros y Hy. apply Hk; [now left|].
    right. exact (Permutation_in _ (sort_perm l) Hy).
Qed.
End SortFacts.

Lemma StronglySorted_weaken {A} (R S : A -> A -> Prop) (l : list A) :
  (forall a b, R a b -> S a b) -> StronglySorted R l -> StronglySorted S l.
Proof.
  intros RS. induction 1 as [|a l _ IH F]; constructor; [exact IH|].
  eapply Forall_impl; [|exact F]. intros b. apply RS.
Qed.

(** ** The file system *)

Lemma assoc_put_same name v es : assoc name (put name v es) = Some v.
Proof.
  induction es as [|[k w] es IH]; cbn [put assoc].
  - now rewrite String.eqb_refl.
  - destruct (String.eqb k name) eqn:E; cbn [assoc]; rewrite E; auto.
Qed.

Lemma assoc_In name v es : assoc name es = Some v -> In (name, v) es.
Proof.
  induction es as [|[k w] es IH]; cbn [assoc]; [discriminate|].
  destruct (String.eqb_spec k name) as [->|_].
  - intros [= ->]. now left.
  - intros H. right. auto.
Qed.

Lemma assoc_of_name name es :
  In name (map fst es) -> exists v, assoc name es = Some v.
Proof.
  induction es as [|[k w] es IH]; cbn [map fst assoc In]; [tauto|].
  intros [->|H].
  - rewrite String.eqb_refl. eauto.
  - destruct (String.eqb k name); eauto.
Qed.

Lemma lookup_join p name root :
  lookup (join p name) root =
  match lookup p root with
  | inr (Dir es) =>
      match assoc name es with Some c => inr c | None => inl ENOENT end
  | inr (File _) => inl ENOTDIR
  | inl e => inl e
  end.
Proof.
  unfold join. revert root. induction p as [|seg p IH]; intros root.
  - cbn [app lookup]. destruct root as [d|es]; [reflexivity|].
    destruct (assoc name es); reflexivity.
  - cbn [app lookup]. destruct root as [d|es]; [reflexivity|].
    destruct (assoc seg es); [apply IH|reflexivity].
Qed.

Lemma write_readFile p data root root' :
  write p data root = inr root' -> readFile p root' = inr data.
Proof.
  unfold readFile. revert root root'.
  induction p as [|seg p IH]; intros root root'; [discriminate|].
  destruct p as [|seg' p'].
  - cbn [write]. destruct root as [d|es]; [discriminate|].
    destruct (assoc seg es) as [[d|es']|]; intros [= <-];
      cbn [lookup]; rewrite assoc_put_same; reflexivity.
  - change (write (seg :: seg' :: p') data root) with
      (match root with
       | File _ => inl ENOTDIR
       | Dir es =>
           match assoc seg es with
           | Some child =>
               match write (seg' :: p') data child with
               | inr child' => inr (Dir (put seg child' es))
               | inl e => inl e
               end
           | None => @inl errno node ENOENT
           end
       end).
    destruct root as [d|es]; [discriminate|].
    destruct (assoc seg es) as [child|]; [|discriminate].
    destruct (write (seg' :: p') data child) as [e|child'] eqn:W; [discriminate|].
    intros [= <-]. cbn [lookup]. rewrite assoc_put_same.
    exact (IH child child' W).
Qed.

Lemma relative_below (p q : path) : relative p (p ++ q)%list = q.
Proof.
  induction p as [|seg p IH]; cbn [app relative].
  - destruct q; reflexivity.
  - rewrite String.eqb_refl. exact IH.
Qed.

Lemma show_absolute (p : path) : exists rest, show p = String "/" rest.
Proof.
  destruct p as [|seg p]; [now exists EmptyString|].
  cbn [show map]. destruct p as [|seg' p].
  - cbn. eauto.
  - cbn [map String.concat]. cbn [append]. eauto.
Qed.

(** * The handlers of [index.ts] *)

(** ** How the handlers are built *)

Ltac stopped_early :=
  left; eexists; first [left; reflexivity | right; eexists; reflexivity].

(** Staging either stops before the renderer is run, or runs it once on a
    file system that holds the markdown as [slides.md]. *)
Lemma stage_cases h format markdown theme id w :
  (exists e,
      stage h format markdown theme id w = (Throw e, w)
      \/ exists n, stage h format markdown theme id w = (Throw e, set_fs w n))
  \/
  (exists root,
      readFile (join (stagingDir h id) "slides.md") root
        = inr (list_byte_of_string markdown) /\
      let sp := spawn_of h format theme id root in
      match renderer h (command sp) (spawn_cwd sp) root with
      | Exited status stderr fs' =>
          exists r,
            stage h format markdown theme id w =
              (r, {| fs := fs'; draws := draws w;
                     spawned := spawned w ++ [sp] |}) /\
            (if (status =? 0)%Z then r = Ok tt else exists e, r = Throw e)
      | SpawnError message =>
          stage h format markdown theme id w =
            (Throw (ErrorObj message),
             {| fs := root; draws := draws w; spawned := spawned w ++ [sp] |})
      end).
Proof.
  unfold stage, bind, existsSync, mkdirSync, writeFileSync, execSync, ret.
    destruct (negb (exists_ (workRoot h) (fs w))).
  - destruct (mkdirp (workRoot h) (fs w)) as [e|n1]; [stopped_early|].
    cbn [fs set_fs].
    destruct (mkdirp (stagingDir h id) n1) as [e|n2]; [stopped_early|].
    cbn [fs set_fs].
    destruct (write (join (stagingDir h id) "slides.md")
                (list_byte_of_string markdown) n2) as [e|n3] eqn:W;
      [stopped_early|].
    right. exists n3. split; [exact (write_readFile _ _ _ _ W)|].
    cbn [fs set_fs draws spawned spawn_of command spawn_cwd].
    destruct (renderer h _ _ n3) as [status stderr fs'|message]; [|reflexivity].
    destruct (status =? 0)%Z; eexists; split; try reflexivity; cbn; eauto.
  - destruct (mkdirp (stagingDir h id) (fs w)) as [e|n2]; [stopped_early|].
    cbn [fs set_fs].
    destruct (write (join (stagingDir h id) "slides.md")
                (list_byte_of_string markdown) n2) as [e|n3] eqn:W;
      [stopped_early|].
    right. exists n3. split; [exact (write_readFile _ _ _ _ W)|].
    cbn [fs set_fs draws spawned spawn_of command spawn_cwd].
    destruct (renderer h _ _ n3) as [status stderr fs'|message]; [|reflexivity].
    destruct (status =? 0)%Z; eexists; split; try reflexivity; cbn; eauto.
Qed.

Lemma try_block_stage t h markdown theme id w :
  try_block t h markdown theme id w =
  match stage h (format_of t) markdown theme id w with
  | (Ok _, w1) => collect t h markdown theme id w1
  | (Throw e, w1) => (Throw e, w1)
  end.
Proof.
  destruct t;
    unfold try_block, generateSlide_try, generateSlidePDF_try,
      generateSlidePPTX_try, stage, collect, format_of;
    fold (workRoot h); fold (stagingDir h id); fold (slidevPath h);
    fold (exportDir h id);
    unfold bind;
    destruct (existsSync (workRoot h) w) as [[present|e] w1]; try reflexivity;
    destruct ((if negb present then mkdirSync (workRoot h) else ret tt) w1)
      as [[[]|e] w2]; try reflexivity;
    destruct (mkdirSync (stagingDir h id) w2) as [[[]|e] w3]; try reflexivity;
    destruct (writeFileSync (join (stagingDir h id) "slides.md") markdown w3)
      as [[[]|e] w4]; try reflexivity;
    destruct (execSync h _ (stagingDir h id) w4) as [[[]|e] w5];
    reflexivity.
Qed.

Lemma handler_try_block t h markdown theme w :
  handler t h markdown theme w =
  match try_block t h markdown (theme_or_default theme) (uuid h (draws w))
          (drawn w) with
  | (Ok content, w') => (Ok content, w')
  | (Throw e, w') =>
      (Ok [TextPart (failure_prefix t ++ errorMessage e)], w')
  end.
Proof. destruct t; reflexivity. Qed.

Lemma mapM_read_world dir files w :
  snd (mapM (fun file =>
               bind (readFileSync (join dir file))
                 (fun pngBuffer => ret (image_of pngBuffer))) files w) = w.
Proof.
  induction files as [|f files IH]; [reflexivity|].
  cbn [mapM]. unfold bind at 1 2. unfold readFileSync at 1.
  destruct (readFile (join dir f) (fs w)); [reflexivity|].
  unfold ret at 1, bind at 1.
  destruct (mapM _ files w) as [[ys|e] w'] eqn:E; cbn [snd] in *; exact IH.
Qed.

Lemma mapM_read_ok dir files datas w :
  Forall2 (reads dir (fs w)) files datas ->
  mapM (fun file =>
          bind (readFileSync (join dir file))
            (fun pngBuffer => ret (image_of pngBuffer))) files w
  = (Ok (map image_of datas), w).
Proof.
  induction 1 as [|f d files datas R _ IH]; [reflexivity|].
  cbn [mapM map]. unfold bind at 1 2. unfold readFileSync at 1.
  unfold reads in R. rewrite R. unfold ret at 1, bind at 1. rewrite IH.
  reflexivity.
Qed.

Lemma mapM_read_inv dir files w parts w' :
  mapM (fun file =>
          bind (readFileSync (join dir file))
            (fun pngBuffer => ret (image_of pngBuffer))) files w
  = (Ok parts, w') ->
  w' = w /\
  exists datas,
    Forall2 (reads dir (fs w)) files datas /\ parts = map image_of datas.
Proof.
  intros H.
  assert (w' = w) as ->.
  { pose proof (mapM_read_world dir files w) as W. now rewrite H in W. }
  split; [reflexivity|].
  revert parts H. induction files as [|f files IH]; intros parts.
  - intros [= <-]. exists []. split; constructor.
  - cbn [mapM]. unfold bind at 1 2. unfold readFileSync at 1.
    destruct (readFile (join dir f) (fs w)) as [e|d] eqn:R; [discriminate|].
    unfold ret at 1, bind at 1.
    destruct (mapM _ files w) as [[ys|e] w1] eqn:E; [|discriminate].
    pose proof (mapM_read_world dir files w) as W. rewrite E in W.
    cbn [snd] in W. subst w1.
    destruct (IH ys eq_refl) as (datas & F & ->).
    intros [= <-]. exists (d :: datas). split; [|reflexivity].
    constructor; assumption.
Qed.

Lemma collect_world t h markdown theme id w :
  snd (collect t h markdown theme id w) = w.
Proof.
  destruct t; unfold collect, bind, readdirSync, readFileSync.
  - destruct (readdir (exportDir h id) (fs w)) as [e|names]; [reflexivity|].
    pose proof (mapM_read_world (exportDir h id)
                  (sort byNumber (filter is_png names)) w) as W.
    unfold bind in W.
    destruct (mapM _ _ w) as [[ys|e] w1]; exact W.
  - destruct (readFile _ (fs w)); reflexivity.
  - destruct (readFile _ (fs w)); reflexivity.
Qed.

Lemma readable_all dir root files :
  (forall f, In f files -> exists d, reads dir root f d) ->
  exists datas, Forall2 (reads dir root) files datas.
Proof.
  induction files as [|f files IH]; intros H.
  - exists []. constructor.
  - destruct (H f (or_introl eq_refl)) as [d R].
    destruct IH as [datas F]; [intros g G; apply H; now right|].
    exists (d :: datas). now constructor.
Qed.

Lemma image_count_images datas :
  image_count (map image_of datas) = List.length datas.
Proof.
  unfold image_count. induction datas as [|d datas IH]; [reflexivity|].
  cbn [map filter image_of List.length]. now rewrite IH.
Qed.

Lemma collect_images h markdown theme id w entries :
  lookup (exportDir h id) (fs w) = inr (Dir entries) ->
  collect GenerateSlide h markdown theme id w =
  match mapM (fun file =>
                bind (readFileSync (join (exportDir h id) file))
                  (fun pngBuffer => ret (image_of pngBuffer)))
          (sort byNumber (filter is_png (map fst entries))) w with
  | (Ok contentArray, w') =>
      (Ok (TextPart id :: TextPart (JSON_stringify markdown theme)
           :: contentArray), w')
  | (Throw e, w') => (Throw e, w')
  end.
Proof.
  intros L. unfold collect. unfold bind at 1. unfold readdirSync, readdir.
  rewrite L. unfold bind at 1.
  destruct (mapM _ _ w) as [[c|e] w']; reflexivity.
Qed.

Lemma succeeds_inv t h markdown theme w content w' :
  succeeds t h markdown theme w content w' ->
  stage h (format_of t) markdown (theme_or_default theme) (uuid h (draws w))
    (drawn w) = (Ok tt, w') /\
  collect t h markdown (theme_or_default theme) (uuid h (draws w)) w'
    = (Ok content, w').
Proof.
  unfold succeeds. rewrite try_block_stage.
  destruct (stage h _ markdown _ _ (drawn w)) as [[[]|e] w1]; [|discriminate].
  intros H. pose proof (collect_world t h markdown (theme_or_default theme)
                          (uuid h (draws w)) w1) as W.
  rewrite H in W. cbn [snd] in W. subst w1. now split.
Qed.

Lemma succeeds_handler t h markdown theme w content w' :
  succeeds t h markdown theme w content w' ->
  handler t h markdown theme w = (Ok content, w').
Proof.
  unfold succeeds. intros H. now rewrite handler_try_block, H.
Qed.

(** What staging leaves in the log of subprocesses. *)
Lemma stage_spawned h format markdown theme id w :
  let r := stage h format markdown theme id w in
  draws (snd r) = draws w /\
  ((spawned (snd r) = spawned w /\ exists e, fst r = Throw e) \/
   exists root,
     spawned (snd r) = (spawned w ++ [spawn_of h format theme id root])%list /\
     reads (stagingDir h id) root "slides.md" (list_byte_of_string markdown) /\
     (fails (renderer h (exportCommand (slidevPath h) format theme)
               (stagingDir h id) root) ->
      exists e, fst r = Throw e)).
Proof.
  cbv zeta.
  destruct (stage_cases h format markdown theme id w)
    as [(e & [E|[n E]])|(root & R & C)].
  - rewrite E. split; [reflexivity|]. left. split; [reflexivity|eexists; reflexivity].
  - rewrite E. split; [reflexivity|]. left. split; [reflexivity|eexists; reflexivity].
  - cbv zeta in C. cbn [command spawn_cwd spawn_of] in C.
    destruct (renderer h (exportCommand (slidevPath h) format theme)
                (stagingDir h id) root) as [status stderr fs'|message] eqn:Rn.
    + destruct C as (r & E & Hr). rewrite E. split; [reflexivity|].
      right. exists root. split; [reflexivity|]. split; [exact R|].
      intros Hs. rewrite Rn in Hs. cbn [fails] in Hs. cbn [fst].
      destruct (Z.eqb_spec status 0) as [->|_]; [exfalso; apply Hs; reflexivity|exact Hr].
    + rewrite C. split; [reflexivity|]. right. exists root.
      split; [reflexivity|]. split; [exact R|]. intros _. eexists. reflexivity.
Qed.

Lemma handler_world t h markdown theme w :
  snd (handler t h markdown theme w) =
  snd (stage h (format_of t) markdown (theme_or_default theme)
         (uuid h (draws w)) (drawn w)).
Proof.
  rewrite handler_try_block, try_block_stage.
  destruct (stage h _ markdown _ _ (drawn w)) as [[[]|e] w1]; [|reflexivity].
  pose proof (collect_world t h markdown (theme_or_default theme)
                (uuid h (draws w)) w1) as W.
  destruct (collect t h markdown _ _ w1) as [[c|e] w2]; exact W.
Qed.

Lemma handler_returns t h markdown theme w :
  exists content, fst (handler t h markdown theme w) = Ok content.
Proof.
  rewrite handler_try_block.
  destruct (try_block t h markdown _ _ (drawn w)) as [[c|e] w'];
    eexists; reflexivity.
Qed.

Lemma generateSlide_staged h markdown theme w w1 :
  stage h "png" markdown (theme_or_default theme) (uuid h (draws w)) (drawn w)
    = (Ok tt, w1) ->
  generateSlide h markdown theme w =
  match collect GenerateSlide h markdown (theme_or_default theme)
          (uuid h (draws w)) w1 with
  | (Ok content, w') => (Ok content, w')
  | (Throw e, w') =>
      (Ok [TextPart ("Failed to generate slides: " ++ errorMessage e)], w')
  end.
Proof.
  intros S. change generateSlide with (handler GenerateSlide).
  rewrite handler_try_block, try_block_stage.
  change (format_of GenerateSlide) with "png". now rewrite S.
Qed.

(** What a successful [generateSlide] returns. *)
Lemma generateSlide_succeeds_inv h markdown theme w content w' :
  succeeds GenerateSlide h markdown theme w content w' ->
  exists names datas,
    readdir (exportDir h (uuid h (draws w))) (fs w') = inr names /\
    Forall2 (reads (exportDir h (uuid h (draws w))) (fs w'))
      (sort byNumber (filter is_png names)) datas /\
    content =
      TextPart (uuid h (draws w))
      :: TextPart (JSON_stringify markdown (theme_or_default theme))
      :: map image_of datas.
Proof.
  intros H. apply succeeds_inv in H as [_ C].
  unfold collect in C. unfold bind at 1 in C. unfold readdirSync in C.
  destruct (readdir _ (fs w')) as [e|names]; [discriminate|].
  unfold bind at 1 in C.
  destruct (mapM _ _ w') as [[parts|e] w1] eqn:E; [|discriminate].
  apply mapM_read_inv in E as (-> & datas & F & ->).
  injection C as <-. exists names, datas. repeat split. exact F.
Qed.

Lemma reads_same_directory d1 r1 d2 r2 file data :
  lookup d1 r1 = lookup d2 r2 -> reads d1 r1 file data -> reads d2 r2 file data.
Proof.
  unfold reads, readFile. rewrite !lookup_join. now intros ->.
Qed.

Lemma reads_functional dir root files d1 d2 :
  Forall2 (reads dir root) files d1 -> Forall2 (reads dir root) files d2 ->
  d1 = d2.
Proof.
  intros F. revert d2. induction F as [|f d files ds R _ IH]; intros d2 G.
  - now inversion G.
  - inversion G as [|f' d' files' ds' R' G']; subst.
    unfold reads in R, R'. rewrite R in R'. injection R' as <-.
    f_equal. now apply IH.
Qed.

Lemma Forall2_reads_same_directory d1 r1 d2 r2 files datas :
  lookup d1 r1 = lookup d2 r2 ->
  Forall2 (reads d1 r1) files datas -> Forall2 (reads d2 r2) files datas.
Proof.
  intros L F. induction F; constructor; auto.
  eapply reads_same_directory; eassumption.
Qed.

Lemma succeeds_spawned t h markdown theme w content w' :
  succeeds t h markdown theme w content w' ->
  draws w' = S (draws w) /\
  exists root,
    spawned w' =
      (spawned w ++
       [spawn_of h (format_of t) (theme_or_default theme) (uuid h (draws w))
          root])%list.
Proof.
  intros H. apply succeeds_inv in H as [S _].
  destruct (stage_spawned h (format_of t) markdown (theme_or_default theme)
              (uuid h (draws w)) (drawn w)) as [D [[_ [e E]]|(root & Sp & _)]];
    cbv zeta in *; rewrite S in *; cbn [fst snd] in *.
  - discriminate E.
  - split; [exact D|]. exists root. exact Sp.
Qed.

Lemma z_enum_in values v s : z_enum values v = Some s -> In s values.
Proof.
  destruct v; try discriminate. cbn [z_enum].
  destruct (existsb (String.eqb s0) values) eqn:E; [|discriminate].
  intros [= <-]. apply existsb_exists in E as (x & Hx & Hs).
  apply String.eqb_eq in Hs. now subst.
Qed.

Lemma inputSchema_theme a markdown theme :
  inputSchema a = Some (markdown, theme) ->
  arg_markdown a = JString markdown /\ In theme themes.
Proof.
  unfold inputSchema.
  destruct (arg_markdown a) as [| | | |s| |]; try discriminate.
  cbn [z_string]. unfold z_optional_default.
  destruct (arg_theme a) as [| | | |s'| |] eqn:T; try discriminate.
  - intros [= <- <-]. split; [reflexivity|]. now left.
  - destruct (z_enum themes (JString s')) as [th|] eqn:E; [|discriminate].
    intros [= <- <-]. split; [reflexivity|]. exact (z_enum_in _ _ _ E).
Qed.

(** ** The properties of the specification *)

(** The order is numeric, not lexical: [10.png] comes after [2.png]. *)
Example ten_after_two :
  sort byNumber ["10.png"; "2.png"; "1.png"] = ["1.png"; "2.png"; "10.png"].
Proof. reflexivity. Qed.

(** C1.  When the renderer has exited with status 0 and every entry of the
    export directory that ends in [.png] is a regular file with a numbered
    name, [generateSlide] returns the two text parts followed by exactly one
    image part per such entry, N in all, made from the files taken in the
    numeric order of their numbers. *)
Theorem generateSlide_images_in_numeric_order
    (h : host) (markdown : string) (theme : option string) (w w1 : World)
    (entries : list (string * node)) :
  stage h "png" markdown (theme_or_default theme) (uuid h (draws w)) (drawn w)
    = (Ok tt, w1) ->
  lookup (exportDir h (uuid h (draws w))) (fs w1) = inr (Dir entries) ->
  Forall (fun e => is_png (fst e) = true ->
                   (exists n, numbered (fst e) n) /\
                   (exists data, snd e = File data)) entries ->
  exists files datas,
    generateSlide h markdown theme w =
      (Ok (TextPart (uuid h (draws w))
           :: TextPart (JSON_stringify markdown (theme_or_default theme))
           :: map image_of datas), w1) /\
    Permutation files (filter is_png (map fst entries)) /\
    StronglySorted numeric_le files /\
    Forall2 (reads (exportDir h (uuid h (draws w))) (fs w1)) files datas /\
    image_count (TextPart (uuid h (draws w))
           :: TextPart (JSON_stringify markdown (theme_or_default theme))
           :: map image_of datas)
      = List.length (filter is_png (map fst entries)).
Proof.
  intros Hstage Hdir Hentries.
  set (id := uuid h (draws w)) in *.
  set (names := filter is_png (map fst entries)).
  set (files := sort byNumber names).
  assert (Hperm : Permutation files names) by apply sort_perm.
  assert (Hnum : forall f, In f names -> exists n, numbered f n).
  { intros f Hf. apply filter_In in Hf as [Hin Hpng].
    destruct (assoc_of_name f entries Hin) as [v Hv].
    apply assoc_In in Hv.
    rewrite Forall_forall in Hentries.
    exact (proj1 (Hentries (f, v) Hv Hpng)). }
  assert (Hread : forall f, In f files ->
                   exists d, reads (exportDir h id) (fs w1) f d).
  { intros f Hf. apply (Permutation_in _ Hperm) in Hf.
    apply filter_In in Hf as [Hin Hpng].
    destruct (assoc_of_name f entries Hin) as [v Hv].
    pose proof (assoc_In _ _ _ Hv) as Hv'.
    rewrite Forall_forall in Hentries.
    destruct (proj2 (Hentries (f, v) Hv' Hpng)) as [d Hd].
    cbn [snd] in Hd. subst v. exists d.
    unfold reads, readFile. now rewrite lookup_join, Hdir, Hv. }
  destruct (readable_all _ _ _ Hread) as [datas Hdatas].
  exists files, datas. repeat split.
  - change generateSlide with (handler GenerateSlide).
    rewrite handler_try_block, try_block_stage.
    change (format_of GenerateSlide) with "png". fold id. rewrite Hstage.
    rewrite (collect_images _ _ _ _ _ entries Hdir).
    fold names. fold files. now rewrite (mapM_read_ok _ _ _ _ Hdatas).
  - exact Hperm.
  - apply (StronglySorted_weaken (key_le number_of)).
    + intros a b Hab m n Ha Hb. unfold key_le in Hab.
      now rewrite (number_of_numbered a m Ha), (number_of_numbered b n Hb) in Hab.
    + apply sort_sorted. intros x y Hx Hy.
      destruct (Hnum x Hx) as [m Hm]. destruct (Hnum y Hy) as [n Hn].
      rewrite (number_of_numbered x m Hm), (number_of_numbered y n Hn).
      now apply byNumber_numbered.
  - exact Hdatas.
  - change (image_count (map image_of datas) = List.length names).
    rewrite image_count_images, <- (Forall2_length Hdatas).
    now apply Permutation_length.
Qed.

Lemma generateSlide_images_in_numeric_order_witness :
  exists files datas,
    generateSlide Sample.good "# Deck" None Sample.disk =
      (Ok (TextPart (Sample.ids 0)
           :: TextPart (JSON_stringify "# Deck" "default")
           :: map image_of datas), Sample.staged) /\
    Permutation files (filter is_png (map fst Sample.deck_entries)) /\
    StronglySorted numeric_le files /\
    Forall2 (reads (exportDir Sample.good (Sample.ids 0)) (fs Sample.staged))
      files datas /\
    image_count (TextPart (Sample.ids 0)
           :: TextPart (JSON_stringify "# Deck" "default")
           :: map image_of datas) = 3%nat.
Proof.
  apply (generateSlide_images_in_numeric_order Sample.good "# Deck" None
           Sample.disk Sample.staged Sample.deck_entries).
  - vm_compute. reflexivity.
  - vm_compute. reflexivity.
  - repeat apply Forall_cons; try apply Forall_nil; cbn [fst snd]; intros Hpng.
    + split; [exists 2%Z, "2", "png"|eexists; reflexivity].
      repeat split; vm_compute; congruence.
    + split; [exists 10%Z, "10", "png"|eexists; reflexivity].
      repeat split; vm_compute; congruence.
    + vm_compute in Hpng. discriminate Hpng.
    + split; [exists 1%Z, "1", "png"|eexists; reflexivity].
      repeat split; vm_compute; congruence.
Defined.

(** C2.  When the subprocess of an invocation exits with another status than
    0 or cannot be spawned, or when anything else throws inside the [try]
    block, each of the three tools returns, and does not throw, a content of
    exactly one text part that starts with the tool's failure message; there
    is no image part and no resource part. *)
Theorem failure_is_one_text_part
    (t : tool) (h : host) (markdown : string) (theme : option string)
    (w : World) :
  (exists sp,
      spawned (snd (handler t h markdown theme w)) = (spawned w ++ [sp])%list /\
      fails (renderer h (command sp) (spawn_cwd sp) (spawn_fs sp)))
  \/ (exists e w',
         try_block t h markdown (theme_or_default theme) (uuid h (draws w))
           (drawn w) = (Throw e, w')) ->
  exists content msg,
    fst (handler t h markdown theme w) = Ok content /\
    content = [TextPart (failure_prefix t ++ msg)] /\
    image_count content = 0%nat /\ resource_count content = 0%nat.
Proof.
  intros H.
  assert (exists e w',
             try_block t h markdown (theme_or_default theme)
               (uuid h (draws w)) (drawn w) = (Throw e, w')) as (e & w' & E).
  { destruct H as [(sp & Hsp & Hfail)|H]; [|exact H].
    rewrite handler_world in Hsp. rewrite try_block_stage.
    destruct (stage_spawned h (format_of t) markdown (theme_or_default theme)
                (uuid h (draws w)) (drawn w)) as [_ [[S _]|(root & S & _ & F)]];
      cbv zeta in *.
    - rewrite S in Hsp. cbn [spawned drawn] in Hsp.
      apply (f_equal (@List.length spawn)) in Hsp.
      rewrite length_app in Hsp. cbn [List.length] in Hsp. lia.
    - rewrite S in Hsp. cbn [spawned drawn] in Hsp.
      apply app_inv_head in Hsp. injection Hsp as <-.
      cbn [command spawn_cwd spawn_fs spawn_of] in Hfail.
      destruct (F Hfail) as [e E].
      destruct (stage h _ markdown _ _ (drawn w)) as [r w1].
      cbn [fst] in E. subst r. eauto. }
  exists [TextPart (failure_prefix t ++ errorMessage e)], (errorMessage e).
  rewrite handler_try_block, E. repeat split.
Qed.

Lemma failure_is_one_text_part_witness :
  exists content msg,
    fst (handler GenerateSlidePDF (Sample.on Sample.broken) "# Deck"
           (Some "seriph") Sample.disk) = Ok content /\
    content = [TextPart (failure_prefix GenerateSlidePDF ++ msg)] /\
    image_count content = 0%nat /\ resource_count content = 0%nat.
Proof.
  apply (failure_is_one_text_part GenerateSlidePDF (Sample.on Sample.broken)
           "# Deck" (Some "seriph") Sample.disk).
  left. eexists. split.
  - vm_compute. reflexivity.
  - vm_compute. discriminate.
Defined.

(** C4.  A successful [generateSlidePDF] or [generateSlidePPTX] returns
    exactly one resource part, and decoding its blob from base64 gives, byte
    for byte, the file [slides-export.pdf], respectively
    [slides-export.pptx], of the staging directory. *)
Theorem document_blob_decodes_to_file
    (t : tool) (h : host) (markdown : string) (theme : option string)
    (w : World) (content : list part) (w' : World) :
  t = GenerateSlidePDF \/ t = GenerateSlidePPTX ->
  succeeds t h markdown theme w content w' ->
  handler t h markdown theme w = (Ok content, w') /\
  resource_count content = 1%nat /\
  exists uri blob mimeType data,
    content = [ResourcePart uri blob mimeType] /\
    reads (stagingDir h (uuid h (draws w))) (fs w') (document_name t) data /\
    Base64.decode blob = Some data.
Proof.
  intros Ht H. split; [exact (succeeds_handler _ _ _ _ _ _ _ H)|].
  apply succeeds_inv in H as [_ C].
  destruct Ht as [-> | ->]; unfold collect, bind, readFileSync, ret in C;
    cbn [document_name]; unfold reads;
    destruct (readFile _ (fs w')) as [e|data]; try discriminate C;
    injection C as <-; (split; [reflexivity|]);
    do 3 eexists; exists data; (split; [reflexivity|]);
    (split; [reflexivity|apply decode_encode]).
Qed.

Lemma document_blob_decodes_to_file_witness :
  handler GenerateSlidePPTX Sample.good "# Deck" (Some "bricks") Sample.disk
    = (Ok [ResourcePart
             "file://1b4e28ba-2fa1-41d2-883f-0016d3cca427/slides-export.pptx"
             "JVBERi0xLjc=" pptxMime],
       snd (handler GenerateSlidePPTX Sample.good "# Deck" (Some "bricks")
              Sample.disk)) /\
  resource_count
    [ResourcePart
       "file://1b4e28ba-2fa1-41d2-883f-0016d3cca427/slides-export.pptx"
       "JVBERi0xLjc=" pptxMime] = 1%nat /\
  exists uri blob mimeType data,
    [ResourcePart
       "file://1b4e28ba-2fa1-41d2-883f-0016d3cca427/slides-export.pptx"
       "JVBERi0xLjc=" pptxMime] = [ResourcePart uri blob mimeType] /\
    reads (stagingDir Sample.good (Sample.ids 0))
      (fs (snd (handler GenerateSlidePPTX Sample.good "# Deck" (Some "bricks")
                  Sample.disk)))
      (document_name GenerateSlidePPTX) data /\
    Base64.decode blob = Some data.
Proof.
  apply (document_blob_decodes_to_file GenerateSlidePPTX Sample.good "# Deck"
           (Some "bricks") Sample.disk).
  - right. reflexivity.
  - vm_compute. reflexivity.
Defined.

(** C5.  The locator of the resource part is [file://] followed by a path of
    the staging area: for [generateSlidePDF] the absolute path of the output
    file, for [generateSlidePPTX] its path relative to the working root
    [.slidev-work], that is the identifier, a slash and the file name. *)
Theorem document_locators
    (h : host) (markdown : string) (theme : option string) (wa wb : World)
    (pdf pptx : list part) (wa' wb' : World) :
  succeeds GenerateSlidePDF h markdown theme wa pdf wa' ->
  succeeds GenerateSlidePPTX h markdown theme wb pptx wb' ->
  exists blobA blobB rest,
    pdf = [ResourcePart
             ("file://" ++
              show (join (stagingDir h (uuid h (draws wa))) "slides-export.pdf"))
             blobA "application/pdf"] /\
    show (join (stagingDir h (uuid h (draws wa))) "slides-export.pdf")
      = String "/" rest /\
    pptx = [ResourcePart
              ("file://" ++ uuid h (draws wb) ++ "/slides-export.pptx")
              blobB pptxMime] /\
    join (stagingDir h (uuid h (draws wb))) "slides-export.pptx"
      = (workRoot h ++ [uuid h (draws wb); "slides-export.pptx"])%list.
Proof.
  intros Ha Hb.
  apply succeeds_inv in Ha as [_ Ca]. apply succeeds_inv in Hb as [_ Cb].
  unfold collect, bind, readFileSync, ret in Ca, Cb.
  destruct (readFile _ (fs wa')) as [e|da]; [discriminate|].
  destruct (readFile _ (fs wb')) as [e|db]; [discriminate|].
  injection Ca as <-. injection Cb as <-.
  destruct (show_absolute
              (join (stagingDir h (uuid h (draws wa))) "slides-export.pdf"))
    as [rest R].
  exists (Base64.encode da), (Base64.encode db), rest.
  assert (J : join (stagingDir h (uuid h (draws wb))) "slides-export.pptx"
              = (workRoot h ++ [uuid h (draws wb); "slides-export.pptx"])%list).
  { unfold stagingDir, join. now rewrite <- app_assoc. }
  repeat split; [exact R| |exact J].
  rewrite J, relative_below. reflexivity.
Qed.

Lemma document_locators_witness :
  exists blobA blobB rest,
    [ResourcePart
       "file:///srv/app/.slidev-work/1b4e28ba-2fa1-41d2-883f-0016d3cca427/slides-export.pdf"
       "JVBERi0xLjc=" "application/pdf"]
    = [ResourcePart
         ("file://" ++
          show (join (stagingDir Sample.good (Sample.ids 0))
                  "slides-export.pdf"))
         blobA "application/pdf"] /\
    show (join (stagingDir Sample.good (Sample.ids 0)) "slides-export.pdf")
      = String "/" rest /\
    [ResourcePart
       "file://1b4e28ba-2fa1-41d2-883f-0016d3cca427/slides-export.pptx"
       "JVBERi0xLjc=" pptxMime]
    = [ResourcePart ("file://" ++ Sample.ids 0 ++ "/slides-export.pptx")
         blobB pptxMime] /\
    join (stagingDir Sample.good (Sample.ids 0)) "slides-export.pptx"
      = (workRoot Sample.good ++ [Sample.ids 0; "slides-export.pptx"])%list.
Proof.
  apply (document_locators Sample.good "# Deck" None Sample.disk Sample.disk
           _ _
           (snd (generateSlidePDF Sample.good "# Deck" None Sample.disk))
           (snd (generateSlidePPTX Sample.good "# Deck" None Sample.disk))).
  - vm_compute. reflexivity.
  - vm_compute. reflexivity.
Defined.

(** C6, amended.  Once the renderer has exited with status 0: if the export
    directory is missing (or is not a directory), [generateSlide] takes the
    path of the [catch] block and returns a single error text part; if it
    is there and holds no [.png] entry, [generateSlide] returns the success
    envelope with its two text parts and no image part. *)
Theorem missing_export_fails_empty_export_does_not
    (h : host) (markdown : string) (theme : option string) (w w1 : World) :
  stage h "png" markdown (theme_or_default theme) (uuid h (draws w)) (drawn w)
    = (Ok tt, w1) ->
  ((forall entries,
       lookup (exportDir h (uuid h (draws w))) (fs w1) <> inr (Dir entries)) ->
   exists msg,
     generateSlide h markdown theme w =
       (Ok [TextPart ("Failed to generate slides: " ++ msg)], w1))
  /\
  (forall entries,
      lookup (exportDir h (uuid h (draws w))) (fs w1) = inr (Dir entries) ->
      filter is_png (map fst entries) = [] ->
      generateSlide h markdown theme w =
        (Ok [TextPart (uuid h (draws w));
             TextPart (JSON_stringify markdown (theme_or_default theme))],
         w1)).
Proof.
  intros S. rewrite (generateSlide_staged _ _ _ _ _ S). split.
  - intros Habsent. unfold collect. unfold bind at 1.
    unfold readdirSync, readdir.
    destruct (lookup (exportDir h (uuid h (draws w))) (fs w1))
      as [e|[data|entries]].
    + eexists. reflexivity.
    + eexists. reflexivity.
    + now elim (Habsent entries).
  - intros entries L E. rewrite (collect_images _ _ _ _ _ entries L), E.
    reflexivity.
Qed.

Lemma missing_export_fails_empty_export_does_not_witness :
  ((forall entries,
       lookup (exportDir (Sample.on Sample.idle) (Sample.ids 0))
         (fs (snd (generateSlide (Sample.on Sample.idle) "# Deck" None
                     Sample.disk)))
       <> inr (Dir entries)) ->
   exists msg,
     generateSlide (Sample.on Sample.idle) "# Deck" None Sample.disk =
       (Ok [TextPart ("Failed to generate slides: " ++ msg)],
        snd (generateSlide (Sample.on Sample.idle) "# Deck" None Sample.disk)))
  /\
  (forall entries,
      lookup (exportDir (Sample.on Sample.idle) (Sample.ids 0))
        (fs (snd (generateSlide (Sample.on Sample.idle) "# Deck" None
                    Sample.disk)))
      = inr (Dir entries) ->
      filter is_png (map fst entries) = [] ->
      generateSlide (Sample.on Sample.idle) "# Deck" None Sample.disk =
        (Ok [TextPart (Sample.ids 0);
             TextPart (JSON_stringify "# Deck" "default")],
         snd (generateSlide (Sample.on Sample.idle) "# Deck" None Sample.disk))).
Proof.
  apply (missing_export_fails_empty_export_does_not (Sample.on Sample.idle)
           "# Deck" None Sample.disk).
  vm_compute. reflexivity.
Defined.

(** C6, as the specification states it, fails: here the renderer exits with
    status 0 and leaves an export directory without a single image, and the
    response is the success envelope, not an error text part. *)
Lemma empty_export_is_not_reported :
  stage Sample.empty_export "png" "# Deck" "default" (Sample.ids 0)
    (drawn Sample.disk)
    = (Ok tt, snd (generateSlide Sample.empty_export "# Deck" None Sample.disk))
  /\ lookup (exportDir Sample.empty_export (Sample.ids 0))
       (fs (snd (generateSlide Sample.empty_export "# Deck" None Sample.disk)))
     = inr (Dir [])
  /\ fst (generateSlide Sample.empty_export "# Deck" None Sample.disk)
     = Ok [TextPart (Sample.ids 0);
           TextPart (JSON_stringify "# Deck" "default")]
  /\ ~ (exists msg,
          fst (generateSlide Sample.empty_export "# Deck" None Sample.disk)
          = Ok [TextPart msg]).
Proof.
  repeat split; try (vm_compute; reflexivity).
  intros [msg H]. vm_compute in H. discriminate H.
Qed.

(** C10.  For arguments that the input schema accepts, the theme is one of
    the five literals, the handler receives the parsed values, and the only
    subprocess the call spawns has the command line built from the path of
    [slidev], the format of the tool and that theme: the markdown is no part
    of it, and is what the file [slides.md] of the subprocess's working
    directory holds. *)
Theorem command_line_is_fixed
    (t : tool) (h : host) (a : arguments) (w : World)
    (markdown theme : string) :
  inputSchema a = Some (markdown, theme) ->
  (theme = "default" \/ theme = "bricks" \/ theme = "apple-basic" \/
   theme = "seriph" \/ theme = "shibainu") /\
  callTool t h a w = handler t h markdown (Some theme) w /\
  forall sp,
    In sp (spawned (snd (callTool t h a w))) ->
    In sp (spawned w) \/
    (command sp = exportCommand (slidevPath h) (format_of t) theme /\
     spawn_cwd sp = stagingDir h (uuid h (draws w)) /\
     reads (spawn_cwd sp) (spawn_fs sp) "slides.md"
       (list_byte_of_string markdown)).
Proof.
  intros H. destruct (inputSchema_theme _ _ _ H) as [_ T].
  split.
  { cbn [themes In] in T. intuition. }
  assert (C : callTool t h a w = handler t h markdown (Some theme) w)
    by (unfold callTool; now rewrite H).
  split; [exact C|]. rewrite C, handler_world. cbn [theme_or_default].
  destruct (stage_spawned h (format_of t) markdown theme (uuid h (draws w))
              (drawn w)) as [_ [[S _]|(root & S & R & _)]]; cbv zeta in *;
    rewrite S; cbn [spawned drawn]; intros sp Hsp.
  - now left.
  - apply in_app_or in Hsp as [Hsp|[<-|[]]]; [now left|right].
    cbn [command spawn_cwd spawn_fs spawn_of]. now repeat split.
Qed.

Lemma command_line_is_fixed_witness :
  ("seriph" = "default" \/ "seriph" = "bricks" \/ "seriph" = "apple-basic" \/
   "seriph" = "seriph" \/ "seriph" = "shibainu") /\
  callTool GenerateSlidePPTX Sample.good Sample.request Sample.disk
    = handler GenerateSlidePPTX Sample.good "# Deck; rm -rf /" (Some "seriph")
        Sample.disk /\
  forall sp,
    In sp (spawned (snd (callTool GenerateSlidePPTX Sample.good Sample.request
                           Sample.disk))) ->
    In sp (spawned Sample.disk) \/
    (command sp = exportCommand (slidevPath Sample.good)
                    (format_of GenerateSlidePPTX) "seriph" /\
     spawn_cwd sp = stagingDir Sample.good (uuid Sample.good (draws Sample.disk)) /\
     reads (spawn_cwd sp) (spawn_fs sp) "slides.md"
       (list_byte_of_string "# Deck; rm -rf /")).
Proof.
  apply (command_line_is_fixed GenerateSlidePPTX Sample.good Sample.request
           Sample.disk "# Deck; rm -rf /" "seriph").
  reflexivity.
Defined.

(** * The click handlers of [mcp-app.ts] *)

Import App PageSpec.

(** C7.  When the text of the markdown field is empty once trimmed, each of
    the three handlers returns without calling the server, and shows a
    message: an alert, or a line in the status area. *)
Theorem empty_markdown_sends_nothing (t : trigger) (u : UI) :
  trim (markdownInput u) = EmptyString ->
  exists u',
    handle t u = Done u' /\
    (forall between answer, requests t u between answer = []) /\
    notice t u u'.
Proof.
  intros E. destruct t; unfold requests, complete; cbn [handle notice].
  - unfold handleRegenerate. rewrite E. cbn [falsy].
    eexists. repeat split.
  - unfold handleGeneratePdf.
    destruct (currentExecutionId u) as [[|c id]|].
    + eexists. split; [reflexivity|]. split; [reflexivity|]. now left.
    + cbn [markdownInput set_pdfStatusDiv set_generatePdfBtn]. rewrite E.
      cbn [falsy]. eexists. split; [reflexivity|]. split; [reflexivity|].
      now right.
    + eexists. split; [reflexivity|]. split; [reflexivity|]. now left.
  - unfold handleGeneratePptx.
    cbn [markdownInput set_pdfStatusDiv set_generatePptxBtn]. rewrite E.
    cbn [falsy]. eexists. split; [reflexivity|]. split; [reflexivity|].
    eexists. reflexivity.
Qed.

Lemma empty_markdown_sends_nothing_witness :
  exists u',
    handle ExportPptx (Sample.page Sample.blank (Some "id")) = Done u' /\
    (forall between answer,
        requests ExportPptx (Sample.page Sample.blank (Some "id")) between answer
        = []) /\
    notice ExportPptx (Sample.page Sample.blank (Some "id")) u'.
Proof.
  apply (empty_markdown_sends_nothing ExportPptx
           (Sample.page Sample.blank (Some "id"))).
  vm_compute. reflexivity.
Defined.

(** Once a handler has sent its request, its control is enabled when it
    completes, whatever happened to the page in between and however the
    call settled: this is the [finally] block. *)
Lemma finally_enables
    (t : trigger) (u : UI) (between : UI -> UI) (answer : settled) :
  requests t u between answer <> [] ->
  enabled t (page_after t u between answer).
Proof.
  unfold enabled, page_after, requests, complete.
  destruct t; cbn [handle control].
  - unfold handleRegenerate. destruct (falsy (trim (markdownInput u))).
    + intros N. now elim N.
    + reflexivity.
  - unfold handleGeneratePdf.
    destruct (currentExecutionId u) as [[|c id]|];
      try (intros N; now elim N).
    cbn [markdownInput set_pdfStatusDiv set_generatePdfBtn].
    destruct (falsy (trim (markdownInput u))); reflexivity.
  - unfold handleGeneratePptx.
    cbn [markdownInput set_pdfStatusDiv set_generatePptxBtn].
    destruct (falsy (trim (markdownInput u))); reflexivity.
Qed.

(** C8.  A handler runs on a click of its control, which is therefore
    enabled; whatever the outcome (the call resolves, resolves with
    [isError], rejects, or the handler returns early) and whatever happens
    to the page while the call is in flight, the control is enabled when
    the handler completes. *)
Theorem control_is_enabled_again
    (t : trigger) (u : UI) (between : UI -> UI) (answer : settled) :
  enabled t u -> enabled t (page_after t u between answer).
Proof.
  unfold enabled, page_after, complete. intros En.
  destruct t; cbn [handle control] in *.
  - unfold handleRegenerate. destruct (falsy (trim (markdownInput u))).
    + exact En.
    + reflexivity.
  - unfold handleGeneratePdf.
    destruct (currentExecutionId u) as [[|c id]|]; try exact En.
    cbn [markdownInput set_pdfStatusDiv set_generatePdfBtn].
    destruct (falsy (trim (markdownInput u))); reflexivity.
  - unfold handleGeneratePptx.
    cbn [markdownInput set_pdfStatusDiv set_generatePptxBtn].
    destruct (falsy (trim (markdownInput u))); reflexivity.
Qed.

Lemma control_is_enabled_again_witness :
  enabled ExportPdf
    (page_after ExportPdf (Sample.page "# Deck" (Some "id"))
       (fun u => u) (Rejected (ErrorObj "Request timed out"))).
Proof.
  apply (control_is_enabled_again ExportPdf (Sample.page "# Deck" (Some "id"))).
  reflexivity.
Defined.

(** * [JSON.parse] *)

Import Json.

Lemma app_string_assoc (a b c : string) : (a ++ b) ++ c = a ++ (b ++ c).
Proof. induction a as [|x a IH]; cbn [append]; [reflexivity|now rewrite IH]. Qed.

Lemma string_body_quote_char (c : ascii) (tail : string) :
  string_body (quote_char c ++ tail)
  = option_map (prepend (str1 c)) (string_body tail).
Proof.
  destruct c as [[] [] [] [] [] [] [] []]; reflexivity.
Qed.

(** Reading back what [QuoteJSONString] wrote gives the text. *)
Lemma string_body_quote_body (s rest : string) :
  string_body (quote_body s ++ String dquote rest) = Some (s, rest).
Proof.
  induction s as [|c s IH]; [reflexivity|].
  cbn [quote_body]. rewrite app_string_assoc, string_body_quote_char, IH.
  reflexivity.
Qed.

Lemma quoteJSONString_app (s rest : string) :
  quoteJSONString s ++ rest
  = String dquote (quote_body s ++ String dquote rest).
Proof.
  unfold quoteJSONString. cbn [append]. now rewrite app_string_assoc.
Qed.

(** One step of each of the three functions. *)
Lemma value_S (f : nat) (s : string) :
  value_ (S f) s =
  match skip_ws s with
  | EmptyString => None
  | String c rest =>
      if Ascii.eqb c "{" then
        match skip_ws rest with
        | String "}" rest1 => Some (Obj [], rest1)
        | _ =>
            match members_ f rest with
            | Some (ms, rest1) => Some (Obj ms, rest1)
            | None => None
            end
        end
      else if Ascii.eqb c "[" then
        match skip_ws rest with
        | String "]" rest1 => Some (Arr [], rest1)
        | _ =>
            match elements_ f rest with
            | Some (vs, rest1) => Some (Arr vs, rest1)
            | None => None
            end
        end
      else if Ascii.eqb c dquote then
        match string_body rest with
        | Some (text, rest1) => Some (Str text, rest1)
        | None => None
        end
      else if Ascii.eqb c "t" then literal "true" (Bool true) (String c rest)
      else if Ascii.eqb c "f" then
        literal "false" (Bool false) (String c rest)
      else if Ascii.eqb c "n" then literal "null" Null (String c rest)
      else
        match number (String c rest) with
        | Some (lexeme, rest1) => Some (Num lexeme, rest1)
        | None => None
        end
  end.
Proof. reflexivity. Qed.

Lemma members_S (f : nat) (s : string) :
  members_ (S f) s =
  match skip_ws s with
  | String q rest =>
      if Ascii.eqb q dquote then
        match string_body rest with
        | Some (key, rest1) =>
            match skip_ws rest1 with
            | String ":" rest2 =>
                match value_ f rest2 with
                | Some (v, rest3) =>
                    match skip_ws rest3 with
                    | String "," rest4 =>
                        match members_ f rest4 with
                        | Some (ms, rest5) => Some ((key, v) :: ms, rest5)
                        | None => None
                        end
                    | String "}" rest4 => Some ([(key, v)], rest4)
                    | _ => None
                    end
                | None => None
                end
            | _ => None
            end
        | None => None
        end
      else None
  | EmptyString => None
  end.
Proof. reflexivity. Qed.

Lemma elements_S (f : nat) (s : string) :
  elements_ (S f) s =
  match value_ f s with
  | Some (v, rest1) =>
      match skip_ws rest1 with
      | String "," rest2 =>
          match elements_ f rest2 with
          | Some (vs, rest3) => Some (v :: vs, rest3)
          | None => None
          end
      | String "]" rest2 => Some ([v], rest2)
      | _ => None
      end
  | None => None
  end.
Proof. reflexivity. Qed.

(** Case analysis on a character that a [match] compares with [k]. *)
Ltac char_is c k H :=
  let N := fresh "N" in
  destruct (Ascii.eqb_spec c k) as [->|N];
  [cbv beta match in H |- *
  |destruct c as [[] [] [] [] [] [] [] []];
   cbv beta match in H |- *; try discriminate H; try (now elim N)].

(** More fuel does not change a result. *)
Lemma fuel_mono (f : nat) :
  (forall s r, value_ f s = Some r -> value_ (S f) s = Some r) /\
  (forall s r, members_ f s = Some r -> members_ (S f) s = Some r) /\
  (forall s r, elements_ f s = Some r -> elements_ (S f) s = Some r).
Proof.
  induction f as [|f (IHv & IHm & IHe)];
    [repeat split; intros s r H; discriminate H|].
  repeat split; intros s r H.
  - rewrite value_S in H |- *.
    destruct (skip_ws s) as [|c rest]; [discriminate H|].
    destruct (Ascii.eqb c "{").
    { destruct (members_ f rest) as [[ms r1]|] eqn:E.
      - rewrite (IHm _ _ E). exact H.
      - destruct (skip_ws rest) as [|c1 r1]; [discriminate H|].
        char_is c1 "}"%char H. exact H. }
    destruct (Ascii.eqb c "[").
    { destruct (elements_ f rest) as [[vs r1]|] eqn:E.
      - rewrite (IHe _ _ E). exact H.
      - destruct (skip_ws rest) as [|c1 r1]; [discriminate H|].
        char_is c1 "]"%char H. exact H. }
    exact H.
  - rewrite members_S in H |- *.
    destruct (skip_ws s) as [|q rest]; [discriminate H|].
    destruct (Ascii.eqb q dquote); [|discriminate H].
    destruct (string_body rest) as [[key r1]|]; [|discriminate H].
    destruct (skip_ws r1) as [|c r2]; [discriminate H|].
    char_is c ":"%char H.
    destruct (value_ f r2) as [[v r3]|] eqn:E; [|discriminate H].
    rewrite (IHv _ _ E).
    destruct (skip_ws r3) as [|c r4]; [discriminate H|].
    char_is c ","%char H; [|exact H].
    destruct (members_ f r4) as [[ms r5]|] eqn:E'; [|discriminate H].
    now rewrite (IHm _ _ E').
  - rewrite elements_S in H |- *.
    destruct (value_ f s) as [[v r1]|] eqn:E; [|discriminate H].
    rewrite (IHv _ _ E).
    destruct (skip_ws r1) as [|c r2]; [discriminate H|].
    char_is c ","%char H; [|exact H].
    destruct (elements_ f r2) as [[vs r3]|] eqn:E'; [|discriminate H].
    now rewrite (IHe _ _ E').
Qed.

Lemma fuel_le (f f' : nat) (s : string) (r : value * string) :
  f <= f' -> value_ f s = Some r -> value_ f' s = Some r.
Proof.
  induction 1 as [|f' _ IH]; [trivial|].
  intros H. apply (proj1 (fuel_mono f')), IH, H.
Qed.

(** A string written by [QuoteJSONString] is read as that string. *)
Lemma value_quoted (f : nat) (s rest : string) :
  value_ (S f) (quoteJSONString s ++ rest) = Some (Str s, rest).
Proof.
  rewrite quoteJSONString_app, value_S.
  change (skip_ws (String dquote ?r)) with (String dquote r).
  cbv beta match.
  change (Ascii.eqb dquote "{") with false.
  change (Ascii.eqb dquote "[") with false.
  change (Ascii.eqb dquote dquote) with true.
  cbv beta match. now rewrite string_body_quote_body.
Qed.

(** A member whose key was written by [QuoteJSONString]. *)
Lemma members_quoted (f : nat) (key rest : string) :
  members_ (S f) (quoteJSONString key ++ String ":" rest) =
  match value_ f rest with
  | Some (v, rest3) =>
      match skip_ws rest3 with
      | String "," rest4 =>
          match members_ f rest4 with
          | Some (ms, rest5) => Some ((key, v) :: ms, rest5)
          | None => None
          end
      | String "}" rest4 => Some ([(key, v)], rest4)
      | _ => None
      end
  | None => None
  end.
Proof.
  rewrite quoteJSONString_app, members_S.
  change (skip_ws (String dquote ?r)) with (String dquote r).
  cbv beta match.
  change (Ascii.eqb dquote dquote) with true.
  cbv beta match. rewrite string_body_quote_body.
  reflexivity.
Qed.

Lemma value_stringify (markdown theme : string) :
  value_ 4 (JSON_stringify markdown theme)
  = Some (Obj [("markdown", Str markdown); ("theme", Str theme)], EmptyString).
Proof.
  unfold JSON_stringify. rewrite value_S.
  cbn [append].
  change (skip_ws (String "{" ?r)) with (String "{" r).
  cbv beta match. change (Ascii.eqb "{" "{") with true. cbv beta match.
  change (skip_ws (quoteJSONString "markdown" ++ ?r))
    with (quoteJSONString "markdown" ++ r).
  unfold quoteJSONString at 1. cbn [append]. unfold dquote at 1.
  cbv beta match. fold dquote.
  change (String dquote ((quote_body "markdown" ++ str1 dquote) ++ ?r))
    with (quoteJSONString "markdown" ++ r).
  rewrite members_quoted, value_quoted.
  change (skip_ws (String "," ?r)) with (String "," r). cbv beta match.
  rewrite members_quoted, value_quoted.
  reflexivity.
Qed.

(** The text that [generateSlide] writes with [JSON.stringify] is read by
    [JSON.parse] as an object with the two members it was made of. *)
Lemma parse_JSON_stringify (markdown theme : string) :
  parse (JSON_stringify markdown theme)
  = Some (Obj [("markdown", Str markdown); ("theme", Str theme)]).
Proof.
  unfold parse.
  assert (B : 4 <= S (2 * String.length (JSON_stringify markdown theme))).
  { unfold JSON_stringify, quoteJSONString. cbn [append String.length]. lia. }
  rewrite (fuel_le 4 _ _ _ B (value_stringify markdown theme)).
  reflexivity.
Qed.

(** X1.  Whatever the markdown and the theme (quotes, backslashes, line
    breaks, control characters, bytes of multi-byte characters), the second
    text part that [generateSlide] writes with [JSON.stringify] is a text
    that the [JSON.parse] of [ontoolresult] accepts, and the properties
    [markdown] and [theme] of the parsed value are the two strings the
    server was given. *)
Theorem params_text_is_read_back (markdown theme : string) :
  exists params,
    parse (JSON_stringify markdown theme) = Some params /\
    Pushed.property params "markdown" = Some (Str markdown) /\
    Pushed.property params "theme" = Some (Str theme).
Proof.
  eexists. split; [apply parse_JSON_stringify|]. split; reflexivity.
Qed.

(** ** The fuel of [parse] is enough *)

Lemma skip_ws_length (s : string) :
  String.length (skip_ws s) <= String.length s.
Proof.
  induction s as [|c s IH]; cbn [skip_ws]; [lia|].
  destruct (is_ws c); cbn [String.length]; lia.
Qed.

Lemma prepend_inv pre (o : option (string * string)) text rest :
  option_map (prepend pre) o = Some (text, rest) ->
  exists body, o = Some (body, rest).
Proof.
  destruct o as [[b r]|]; [|discriminate]. cbn. intros [= _ <-]. eauto.
Qed.

Lemma string_body_length (n : nat) :
  forall s text rest,
    String.length s <= n ->
    string_body s = Some (text, rest) ->
    String.length rest < String.length s.
Proof.
  induction n as [|n IH]; intros s text rest L H.
  { destruct s; [discriminate H|cbn in L; lia]. }
  destruct s as [|c s1]; [discriminate H|].
  cbn [String.length] in L |- *.
  assert (step : forall pre s',
             String.length s' <= n ->
             option_map (prepend pre) (string_body s') = Some (text, rest) ->
             String.length rest < String.length s').
  { intros pre s' L' H'. apply prepend_inv in H' as [b H'].
    exact (IH _ _ _ L' H'). }
  destruct (Ascii.eqb c dquote) eqn:Q.
  { cbn [string_body] in H. rewrite Q in H. injection H as _ <-. lia. }
  destruct (Ascii.eqb c "\") eqn:B.
  - destruct s1 as [|e s2];
      [cbn [string_body] in H; rewrite Q, B in H; cbv beta match in H;
       discriminate H|].
    cbn [string_body] in H. rewrite Q, B in H.
    cbn [String.length] in L |- *.
    assert (S2 : forall pre,
               option_map (prepend pre) (string_body s2) = Some (text, rest) ->
               String.length rest < S (S (String.length s2))).
    { intros pre H'. pose proof (step pre s2 ltac:(lia) H'). lia. }
    repeat (match type of H with
            | (if ?b then _ else _) = _ => destruct b; [exact (S2 _ H)|]
            end).
    destruct (Ascii.eqb e "u"); [|discriminate H].
    destruct s2 as [|h1 [|h2 [|h3 [|h4 s3]]]]; try discriminate H.
    cbn [String.length] in L |- *.
    destruct (hex4 h1 h2 h3 h4) as [u|]; [|discriminate H].
    assert (S3 : forall pre,
               option_map (prepend pre) (string_body s3) = Some (text, rest) ->
               String.length rest
               < S (S (S (S (S (S (String.length s3))))))).
    { intros pre H'. pose proof (step pre s3 ltac:(lia) H'). lia. }
    cbv zeta in H.
    destruct (is_high_surrogate u); [|exact (S3 _ H)].
    destruct s3 as [|b [|v [|l1 [|l2 [|l3 [|l4 s4]]]]]]; try exact (S3 _ H).
    destruct (Ascii.eqb b "\" && Ascii.eqb v "u"); [|exact (S3 _ H)].
    destruct (hex4 l1 l2 l3 l4) as [lo|]; [|exact (S3 _ H)].
    destruct (is_low_surrogate lo); [|exact (S3 _ H)].
    cbn [String.length] in L |- *.
    pose proof (step _ s4 ltac:(lia) H). lia.
  - cbn [string_body] in H. rewrite Q, B in H.
    destruct (nat_of_ascii c <? 32)%nat; [discriminate H|].
    pose proof (step _ s1 ltac:(lia) H). lia.
Qed.

Lemma digits_length (s : string) :
  String.length (snd (digits s)) <= String.length s /\
  (fst (digits s) <> EmptyString ->
   String.length (snd (digits s)) < String.length s).
Proof.
  induction s as [|c s [IH1 IH2]]; cbn [digits].
  - split; [cbn; lia|intros N; now elim N].
  - destruct (is_digit c).
    + destruct (digits s) as [ds r]. cbn [prepend fst snd String.length] in *.
      split; [lia|intros _; lia].
    + cbn [fst snd]. split; [lia|intros N; now elim N].
Qed.

Lemma strip_length (word s rest : string) :
  strip word s = Some rest ->
  String.length rest + String.length word = String.length s.
Proof.
  revert s. induction word as [|a word IH]; intros s H.
  - cbn in H. injection H as <-. cbn. lia.
  - destruct s as [|b s]; [discriminate H|]. cbn [strip] in H.
    destruct (Ascii.eqb a b); [|discriminate H].
    apply IH in H. cbn [String.length]. lia.
Qed.

Lemma literal_length (word : string) (v w : value) (s rest : string) :
  word <> EmptyString ->
  literal word v s = Some (w, rest) ->
  String.length rest < String.length s.
Proof.
  unfold literal. intros N H.
  destruct (strip word s) as [r|] eqn:E; [|discriminate H].
  injection H as _ <-. apply strip_length in E.
  destruct word; [now elim N|cbn [String.length] in E; lia].
Qed.

Lemma number_length (s lexeme rest : string) :
  number s = Some (lexeme, rest) ->
  String.length rest < String.length s.
Proof.
  unfold number. intros H.
  set (p := match s with
            | String "-" r => ("-", r)
            | _ => (EmptyString, s)
            end) in H.
  assert (P : String.length (snd p) <= String.length s).
  { subst p. destruct s as [|c r]; [cbn; lia|].
    destruct c as [[] [] [] [] [] [] [] []]; cbn; lia. }
  destruct p as [sign s1]. cbn [snd] in P.
  pose proof (digits_length s1) as [D1 D2].
  destruct (digits s1) as [int s2]. cbn [fst snd] in D1, D2.
  assert (I : int <> EmptyString /\ String.length s2 < String.length s1
              \/ int = EmptyString).
  { destruct int; [now right|left]. split; [discriminate|].
    apply D2. discriminate. }
  destruct I as [[I1 I2]| ->]; [|discriminate H].
  assert (F : forall fr s3 ex s4,
             match s2 with
             | String "." r =>
                 let (ds, r') := digits r in
                 match ds with
                 | EmptyString => None
                 | _ => Some (String "." ds, r')
                 end
             | _ => Some (EmptyString, s2)
             end = Some (fr, s3) ->
             match s3 with
             | String e r =>
                 if Ascii.eqb e "e" || Ascii.eqb e "E" then
                   let (sg, r1) :=
                     match r with
                     | String "+" r1 => ("+", r1)
                     | String "-" r1 => ("-", r1)
                     | _ => (EmptyString, r)
                     end in
                   let (ds, r2) := digits r1 in
                   match ds with
                   | EmptyString => None
                   | _ => Some (String e (sg ++ ds), r2)
                   end
                 else Some (EmptyString, s3)
             | EmptyString => Some (EmptyString, s3)
             end = Some (ex, s4) ->
             String.length s4 <= String.length s2).
  { intros fr s3 ex s4 Hf He.
    assert (L3 : String.length s3 <= String.length s2).
    { destruct s2 as [|c r]; [injection Hf as _ <-; lia|].
      destruct (Ascii.eqb_spec c ".") as [->|N].
      - cbv beta match in Hf. pose proof (digits_length r) as [E1 _].
        destruct (digits r) as [ds r']. cbn [snd] in E1.
        destruct ds; [discriminate Hf|]. injection Hf as _ <-.
        cbn [String.length]. lia.
      - destruct c as [[] [] [] [] [] [] [] []]; cbv beta match in Hf;
          first [now elim N | injection Hf as _ <-; lia]. }
    destruct s3 as [|e r]; [injection He as _ <-; lia|].
    destruct (Ascii.eqb e "e" || Ascii.eqb e "E");
      [|injection He as _ <-; lia].
    set (q := match r with
              | String "+" r1 => ("+", r1)
              | String "-" r1 => ("-", r1)
              | _ => (EmptyString, r)
              end) in He.
    assert (Q : String.length (snd q) <= String.length r).
    { subst q. destruct r as [|c r1]; [cbn; lia|].
      destruct c as [[] [] [] [] [] [] [] []]; cbn; lia. }
    destruct q as [sg r1]. cbn [snd] in Q.
    pose proof (digits_length r1) as [E1 _].
    destruct (digits r1) as [ds r2]. cbn [snd] in E1.
    destruct ds; [discriminate He|]. injection He as _ <-.
    cbn [String.length] in L3. lia. }
  destruct int as [|i0 int']; [now elim I1|].
  assert (H' :
    match
      match s2 with
      | String "." r =>
          let (ds, r') := digits r in
          match ds with
          | EmptyString => None
          | _ => Some (String "." ds, r')
          end
      | _ => Some (EmptyString, s2)
      end
    with
    | None => None
    | Some (fr, s3) =>
        match
          match s3 with
          | String e r =>
              if Ascii.eqb e "e" || Ascii.eqb e "E" then
                let (sg, r1) :=
                  match r with
                  | String "+" r1 => ("+", r1)
                  | String "-" r1 => ("-", r1)
                  | _ => (EmptyString, r)
                  end in
                let (ds, r2) := digits r1 in
                match ds with
                | EmptyString => None
                | _ => Some (String e (sg ++ ds), r2)
                end
              else Some (EmptyString, s3)
          | EmptyString => Some (EmptyString, s3)
          end
        with
        | None => None
        | Some (ex, s4) =>
            Some ((sign ++ String i0 int' ++ fr ++ ex)%string, s4)
        end
    end = Some (lexeme, rest)).
  { destruct i0 as [[] [] [] [] [] [] [] []]; try exact H;
      destruct int'; first [exact H | discriminate H]. }
  clear H.
  destruct (match s2 with String "." r => _ | _ => _ end)
    as [[fr s3]|] eqn:Hf; [|discriminate H'].
  destruct (match s3 with String e r => _ | EmptyString => _ end)
    as [[ex s4]|] eqn:He; [|discriminate H'].
  injection H' as _ <-. pose proof (F _ _ _ _ eq_refl He). lia.
Qed.

Lemma skip_ws_cons (s : string) (c : ascii) (rest : string) :
  skip_ws s = String c rest -> String.length rest < String.length s.
Proof.
  intros H. pose proof (skip_ws_length s) as L. rewrite H in L.
  cbn [String.length] in L. lia.
Qed.

(** What is left after a value is shorter than the text. *)
Lemma rest_shorter (f : nat) :
  (forall s v r, value_ f s = Some (v, r) ->
                 String.length r < String.length s) /\
  (forall s ms r, members_ f s = Some (ms, r) ->
                  String.length r < String.length s) /\
  (forall s vs r, elements_ f s = Some (vs, r) ->
                  String.length r < String.length s).
Proof.
  induction f as [|f (IHv & IHm & IHe)];
    [repeat split; intros s v r H; discriminate H|].
  repeat split; intros s v r H.
  - rewrite value_S in H.
    destruct (skip_ws s) as [|c rest] eqn:W; [discriminate H|].
    apply skip_ws_cons in W.
    destruct (Ascii.eqb c "{").
    { destruct (members_ f rest) as [[ms r1]|] eqn:E.
      - apply IHm in E.
        destruct (skip_ws rest) as [|c1 r2] eqn:W1;
          [injection H as _ <-; lia|].
        apply skip_ws_cons in W1.
        char_is c1 "}"%char H; injection H as _ <-; lia.
      - destruct (skip_ws rest) as [|c1 r2] eqn:W1; [discriminate H|].
        apply skip_ws_cons in W1.
        char_is c1 "}"%char H. injection H as _ <-. lia. }
    destruct (Ascii.eqb c "[").
    { destruct (elements_ f rest) as [[vs r1]|] eqn:E.
      - apply IHe in E.
        destruct (skip_ws rest) as [|c1 r2] eqn:W1;
          [injection H as _ <-; lia|].
        apply skip_ws_cons in W1.
        char_is c1 "]"%char H; injection H as _ <-; lia.
      - destruct (skip_ws rest) as [|c1 r2] eqn:W1; [discriminate H|].
        apply skip_ws_cons in W1.
        char_is c1 "]"%char H. injection H as _ <-. lia. }
    destruct (Ascii.eqb c dquote).
    { destruct (string_body rest) as [[text r1]|] eqn:E; [|discriminate H].
      apply (string_body_length _ _ _ _ (le_n _)) in E.
      injection H as _ <-. lia. }
    assert (Lit : forall word w,
               word <> EmptyString ->
               literal word w (String c rest) = Some (v, r) ->
               String.length r < String.length s).
    { intros word w N H'. apply literal_length in H'; [|exact N].
      cbn [String.length] in H'. lia. }
    destruct (Ascii.eqb c "t");
      [apply (Lit "true" (Bool true) ltac:(discriminate) H)|].
    destruct (Ascii.eqb c "f");
      [apply (Lit "false" (Bool false) ltac:(discriminate) H)|].
    destruct (Ascii.eqb c "n");
      [apply (Lit "null" Null ltac:(discriminate) H)|].
    destruct (number (String c rest)) as [[lexeme r1]|] eqn:E;
      [|discriminate H].
    apply number_length in E. cbn [String.length] in E.
    injection H as _ <-. lia.
  - rewrite members_S in H.
    destruct (skip_ws s) as [|q rest] eqn:W; [discriminate H|].
    apply skip_ws_cons in W.
    destruct (Ascii.eqb q dquote); [|discriminate H].
    destruct (string_body rest) as [[key r1]|] eqn:B; [|discriminate H].
    apply (string_body_length _ _ _ _ (le_n _)) in B.
    destruct (skip_ws r1) as [|c r2] eqn:W1; [discriminate H|].
    apply skip_ws_cons in W1.
    char_is c ":"%char H.
    destruct (value_ f r2) as [[v0 r3]|] eqn:E; [|discriminate H].
    apply IHv in E.
    destruct (skip_ws r3) as [|c r4] eqn:W3; [discriminate H|].
    apply skip_ws_cons in W3.
    char_is c ","%char H; [|injection H as _ <-; lia].
    destruct (members_ f r4) as [[ms r5]|] eqn:E'; [|discriminate H].
    apply IHm in E'. injection H as _ <-. lia.
  - rewrite elements_S in H.
    destruct (value_ f s) as [[v0 r1]|] eqn:E; [|discriminate H].
    apply IHv in E.
    destruct (skip_ws r1) as [|c r2] eqn:W1; [discriminate H|].
    apply skip_ws_cons in W1.
    char_is c ","%char H; [|injection H as _ <-; lia].
    destruct (elements_ f r2) as [[vs r3]|] eqn:E'; [|discriminate H].
    apply IHe in E'. injection H as _ <-. lia.
Qed.

(** A result obtained with any fuel is obtained with a fuel above twice
    the length of the text. *)
Lemma fuel_enough (f : nat) :
  (forall s r g, value_ f s = Some r ->
                 2 * String.length s + 1 <= g -> value_ g s = Some r) /\
  (forall s r g, members_ f s = Some r ->
                 2 * String.length s + 2 <= g -> members_ g s = Some r) /\
  (forall s r g, elements_ f s = Some r ->
                 2 * String.length s + 2 <= g -> elements_ g s = Some r).
Proof.
  induction f as [|f (IHv & IHm & IHe)];
    [repeat split; intros s r g H; discriminate H|].
  repeat split; intros s r g H G;
    (destruct g as [|g]; [lia|]).
  - rewrite value_S in H |- *.
    destruct (skip_ws s) as [|c rest] eqn:W; [discriminate H|].
    apply skip_ws_cons in W.
    destruct (Ascii.eqb c "{").
    { destruct (members_ f rest) as [[ms r1]|] eqn:E.
      - rewrite (IHm _ _ g E) by lia. exact H.
      - destruct (skip_ws rest) as [|c1 r2] eqn:W1; [discriminate H|].
        char_is c1 "}"%char H. exact H. }
    destruct (Ascii.eqb c "[").
    { destruct (elements_ f rest) as [[vs r1]|] eqn:E.
      - rewrite (IHe _ _ g E) by lia. exact H.
      - destruct (skip_ws rest) as [|c1 r2] eqn:W1; [discriminate H|].
        char_is c1 "]"%char H. exact H. }
    exact H.
  - rewrite members_S in H |- *.
    destruct (skip_ws s) as [|q rest] eqn:W; [discriminate H|].
    apply skip_ws_cons in W.
    destruct (Ascii.eqb q dquote); [|discriminate H].
    destruct (string_body rest) as [[key r1]|] eqn:B; [|discriminate H].
    apply (string_body_length _ _ _ _ (le_n _)) in B.
    destruct (skip_ws r1) as [|c r2] eqn:W1; [discriminate H|].
    apply skip_ws_cons in W1.
    char_is c ":"%char H.
    destruct (value_ f r2) as [[v0 r3]|] eqn:E; [|discriminate H].
    rewrite (IHv _ _ g E) by lia.
    apply (proj1 (rest_shorter f)) in E.
    destruct (skip_ws r3) as [|c r4] eqn:W3; [discriminate H|].
    apply skip_ws_cons in W3.
    char_is c ","%char H; [|exact H].
    destruct (members_ f r4) as [[ms r5]|] eqn:E'; [|discriminate H].
    rewrite (IHm _ _ g E') by lia. exact H.
  - rewrite elements_S in H |- *.
    destruct (value_ f s) as [[v0 r1]|] eqn:E; [|discriminate H].
    rewrite (IHv _ _ g E) by lia.
    apply (proj1 (rest_shorter f)) in E.
    destruct (skip_ws r1) as [|c r2] eqn:W1; [discriminate H|].
    apply skip_ws_cons in W1.
    char_is c ","%char H; [|exact H].
    destruct (elements_ f r2) as [[vs r3]|] eqn:E'; [|discriminate H].
    rewrite (IHe _ _ g E') by lia. exact H.
Qed.

(** [parse] does not depend on its fuel: with any fuel above twice the
    length of the text the value read is the same. *)
Lemma parse_fuel (text : string) (g : nat) :
  S (2 * String.length text) <= g ->
  value_ g text = value_ (S (2 * String.length text)) text.
Proof.
  intros G.
  destruct (value_ g text) as [r|] eqn:E.
  - symmetry. apply (proj1 (fuel_enough g) _ _ _ E). lia.
  - destruct (value_ (S (2 * String.length text)) text) as [r|] eqn:E';
      [|reflexivity].
    apply (fuel_le _ g) in E'; [|exact G]. congruence.
Qed.

Import Run.

(** * Numbered listings *)

Lemma by_key_numbered (l : list string) :
  (forall a, In a l -> exists n, numbered a n) ->
  by_key byNumber number_of l.
Proof.
  intros N a b Ha Hb.
  destruct (N a Ha) as [m Hm]. destruct (N b Hb) as [n Hn].
  rewrite (byNumber_numbered a b m n Hm Hn).
  now rewrite (number_of_numbered a m Hm), (number_of_numbered b n Hn).
Qed.

Lemma numbered_sorted (names : list string) :
  (forall f, In f names -> exists n, numbered f n) ->
  StronglySorted numeric_le (sort byNumber names).
Proof.
  intros N.
  apply (StronglySorted_weaken (key_le number_of)).
  - intros a b Hab m n Ha Hb. unfold key_le in Hab.
    now rewrite (number_of_numbered a m Ha), (number_of_numbered b n Hb)
      in Hab.
  - apply sort_sorted, by_key_numbered, N.
Qed.

(** The content of a successful [generateSlide] whose export directory
    lists numbered names. *)
Lemma generateSlide_numbered_inv h markdown theme w content w' :
  succeeds GenerateSlide h markdown theme w content w' ->
  numbered_export h (uuid h (draws w)) (fs w') ->
  exists names files datas,
    readdir (exportDir h (uuid h (draws w))) (fs w') = inr names /\
    Permutation files (filter is_png names) /\
    StronglySorted numeric_le files /\
    Forall2 (reads (exportDir h (uuid h (draws w))) (fs w')) files datas /\
    content =
      TextPart (uuid h (draws w))
      :: TextPart (JSON_stringify markdown (theme_or_default theme))
      :: map image_of datas.
Proof.
  intros H N.
  destruct (generateSlide_succeeds_inv _ _ _ _ _ _ H)
    as (names & datas & R & F & ->).
  exists names, (sort byNumber (filter is_png names)), datas.
  split; [exact R|]. split; [apply sort_perm|].
  split; [|split; [exact F|reflexivity]].
  apply numbered_sorted. intros f Hf. apply filter_In in Hf as [Hf P].
  exact (N names R f Hf P).
Qed.

(** The names of a listing that was computed are numbered. *)
Ltac numbered_name :=
  match goal with
  | |- exists n, numbered ?a n =>
      let stem := eval vm_compute in (split0 "." a) in
      let rest := eval vm_compute in (dropn (S (String.length stem)) a) in
      match eval vm_compute in (numeral stem) with
      | Some ?n =>
          exists n, stem, rest; repeat split; vm_compute; discriminate
      end
  end.

Ltac numbered_listing :=
  let names := fresh "names" in
  let R := fresh "R" in
  let a := fresh "a" in
  let Ia := fresh "Ia" in
  let Pa := fresh "Pa" in
  intros names R a Ia Pa; vm_compute in R; injection R as <-;
  cbn [In] in Ia;
  repeat (destruct Ia as [<-|Ia]); try contradiction;
  try discriminate Pa; numbered_name.

Import Pushed.

(** * The mini-app and the server together *)

Lemma images_of_slides (datas : list (list byte)) :
  filter is_image (map image_of datas) = map image_of datas.
Proof.
  induction datas as [|d datas IH]; [reflexivity|].
  cbn [map filter image_of is_image]. now rewrite IH.
Qed.

Lemma slide_images (datas : list (list byte)) :
  map (fun image =>
         match image with
         | ImagePart data _ => Img ("data:image/png;base64," ++ data)
         | _ => Img "data:image/png;base64,undefined"
         end) (map image_of datas)
  = map slide_image datas.
Proof. now rewrite map_map. Qed.

(** What [displaySlides] does with the content of a successful
    [generateSlide]. *)
Lemma displaySlides_envelope (id params : string) (datas : list (list byte))
    (flag : bool) (u : UI) :
  displaySlides
    {| isError := flag;
       content := Some (TextPart id :: TextPart params :: map image_of datas) |}
    u
  = set_slidesContainer
      match datas with
      | [] => [Text "[ERROR] No images found"]
      | _ => (slidesContainer u ++ map slide_image datas)%list
      end u.
Proof.
  unfold displaySlides. cbn [content filter is_image].
  rewrite images_of_slides, <- slide_images.
  destruct datas; reflexivity.
Qed.

(** X2.  When the host pushes the content of a successful [generateSlide]
    to the mini-app, [ontoolresult] keeps the invocation's identifier as the
    current execution identifier, puts the markdown of the invocation in the
    markdown field (read back with its line breaks normalised) and selects
    its theme when the selector has an option of that value (no option
    otherwise), and replaces what the slide container held by one image
    per exported file, each a [data:] URL of the file's bytes; with no
    exported file it shows ["[ERROR] No images found"].  When the [.png]
    names of the export directory are numbered, the images are those of
    the [.png] files in the numeric order of their names.  The buttons, the
    status area and the alerts are left as they were. *)
Theorem pushed_result_repopulates_the_page
    (options : list string) (numberToString : string -> string)
    (h : host) (markdown : string) (theme : option string) (w w' : World)
    (content : list part) (u : UI) :
  succeeds GenerateSlide h markdown theme w content w' ->
  numbered_export h (uuid h (draws w)) (fs w') ->
  exists names files datas,
    readdir (exportDir h (uuid h (draws w))) (fs w') = inr names /\
    Permutation files (filter is_png names) /\
    StronglySorted numeric_le files /\
    Forall2 (reads (exportDir h (uuid h (draws w))) (fs w')) files datas /\
    ontoolresult options numberToString (returned content) u =
      {| markdownInput := normalize_newlines markdown;
         themeSelect :=
           if existsb (String.eqb (theme_or_default theme)) options
           then theme_or_default theme else EmptyString;
         regenerateBtn := regenerateBtn u;
         generatePdfBtn := generatePdfBtn u;
         generatePptxBtn := generatePptxBtn u;
         slidesContainer :=
           match datas with
           | [] => [Text "[ERROR] No images found"]
           | _ => map slide_image datas
           end;
         pdfStatusDiv := pdfStatusDiv u;
         currentExecutionId := Some (uuid h (draws w));
         alerts := alerts u |}.
Proof.
  intros H N.
  destruct (generateSlide_numbered_inv _ _ _ _ _ _ H N)
    as (names & files & datas & R & P & S & F & ->).
  exists names, files, datas.
  split; [exact R|]. split; [exact P|]. split; [exact S|]. split; [exact F|].
  unfold ontoolresult, returned.
  rewrite displaySlides_envelope.
  cbn [content filter is_text text_of].
  rewrite parse_JSON_stringify.
  destruct datas; reflexivity.
Qed.

Lemma pushed_result_repopulates_the_page_witness :
  exists names files datas,
    readdir (exportDir Sample.good (uuid Sample.good (draws Sample.disk)))
      (fs Sample.staged) = inr names /\
    Permutation files (filter is_png names) /\
    StronglySorted numeric_le files /\
    Forall2 (reads (exportDir Sample.good (uuid Sample.good (draws Sample.disk)))
               (fs Sample.staged))
      files datas /\
    ontoolresult themes (fun lexeme => lexeme)
      (returned (TextPart (Sample.ids 0) :: Sample.slides))
      (Sample.page "# Old" None) =
      {| markdownInput := normalize_newlines "# Deck";
         themeSelect :=
           if existsb (String.eqb (theme_or_default None)) themes
           then theme_or_default None else EmptyString;
         regenerateBtn := regenerateBtn (Sample.page "# Old" None);
         generatePdfBtn := generatePdfBtn (Sample.page "# Old" None);
         generatePptxBtn := generatePptxBtn (Sample.page "# Old" None);
         slidesContainer :=
           match datas with
           | [] => [Text "[ERROR] No images found"]
           | _ => map slide_image datas
           end;
         pdfStatusDiv := pdfStatusDiv (Sample.page "# Old" None);
         currentExecutionId := Some (uuid Sample.good (draws Sample.disk));
         alerts := alerts (Sample.page "# Old" None) |}.
Proof.
  apply (pushed_result_repopulates_the_page themes (fun lexeme => lexeme)
           Sample.good "# Deck" None Sample.disk Sample.staged).
  - vm_compute. reflexivity.
  - numbered_listing.
Defined.

(** The content of a failed invocation. *)
Lemma handler_failed t h markdown theme w e w' :
  try_block t h markdown (theme_or_default theme) (uuid h (draws w)) (drawn w)
    = (Throw e, w') ->
  handler t h markdown theme w
    = (Ok [TextPart (failure_prefix t ++ errorMessage e)], w').
Proof. intros H. now rewrite handler_try_block, H. Qed.

(** X3.  When the [try] block of [generateSlide] throws, the handler
    still returns a content (its one text part), and [ontoolresult] on that
    content neither shows the failure text nor touches the fields or the
    execution identifier: it empties the slide container and shows
    ["[ERROR] No images found"]. *)
Theorem pushed_failure_is_not_shown
    (options : list string) (numberToString : string -> string)
    (h : host) (markdown : string) (theme : option string) (w w' : World)
    (e : thrown) (u : UI) :
  try_block GenerateSlide h markdown (theme_or_default theme)
    (uuid h (draws w)) (drawn w) = (Throw e, w') ->
  exists content,
    generateSlide h markdown theme w = (Ok content, w') /\
    ontoolresult options numberToString (returned content) u
      = set_slidesContainer [Text "[ERROR] No images found"] u.
Proof.
  intros H. eexists. split.
  - exact (handler_failed GenerateSlide _ _ _ _ _ _ H).
  - reflexivity.
Qed.

Lemma pushed_failure_is_not_shown_witness :
  exists content,
    generateSlide (Sample.on Sample.broken) "# Deck" None Sample.disk
      = (Ok content,
         snd (generateSlide (Sample.on Sample.broken) "# Deck" None
                Sample.disk)) /\
    ontoolresult themes (fun lexeme => lexeme) (returned content)
      (Sample.page "# Old" (Some "earlier"))
      = set_slidesContainer [Text "[ERROR] No images found"]
          (Sample.page "# Old" (Some "earlier")).
Proof.
  eapply (pushed_failure_is_not_shown themes (fun lexeme => lexeme)
            (Sample.on Sample.broken) "# Deck" None Sample.disk).
  vm_compute. reflexivity.
Defined.

(** ** A click, the call and the answer *)

Lemma encode_falsy (data : list byte) :
  falsy (Base64.encode data) = match data with [] => true | _ => false end.
Proof. destruct data as [|a [|b [|c rest]]]; reflexivity. Qed.

(** A handler that sent a request: where it stood and how it goes on. *)
Lemma requests_sent (t : trigger) (u : UI) (between : UI -> UI)
    (answer : settled) (req : request) :
  requests t u between answer = [req] ->
  exists resume,
    handle t u = Await (page_at_await t u) req resume /\
    page_after t u between answer = resume (between (page_at_await t u)) answer.
Proof.
  unfold requests, page_after, page_at_await, complete.
  destruct (handle t u) as [u'|u1 req' resume]; [discriminate|].
  cbn [snd fst]. intros [= ->]. now exists resume.
Qed.

(** X4.  A click on Regenerate that sends a request sends the trimmed
    markdown and the selected theme, and leaves ["Regenerating slides..."]
    in the slide container while the call is in flight.  When the server's
    [generateSlide] succeeds on that request and the [.png] names of its
    export directory are numbered, the handler appends one image per [.png]
    file, in the numeric order of the names, after whatever the container
    holds by then (the placeholder is not removed), or replaces the
    container by ["[ERROR] No images found"] when nothing was exported, and
    then runs its [finally] block. *)
Theorem regenerate_appends_the_slides
    (h : host) (w w' : World) (content : list part)
    (u : UI) (between : UI -> UI) (req : request) :
  requests Regenerate u between (Resolved (returned content)) = [req] ->
  succeeds GenerateSlide h (req_markdown req) (Some (req_theme req)) w
    content w' ->
  numbered_export h (uuid h (draws w)) (fs w') ->
  req_markdown req = trim (markdownInput u) /\
  req_theme req = themeSelect u /\
  slidesContainer (page_at_await Regenerate u)
    = [Html "Regenerating slides..."] /\
  exists names files datas,
    readdir (exportDir h (uuid h (draws w))) (fs w') = inr names /\
    Permutation files (filter is_png names) /\
    StronglySorted numeric_le files /\
    Forall2 (reads (exportDir h (uuid h (draws w))) (fs w')) files datas /\
    page_after Regenerate u between (Resolved (returned content)) =
      handleRegenerate_finally
        (set_slidesContainer
           match datas with
           | [] => [Text "[ERROR] No images found"]
           | _ =>
               (slidesContainer (between (page_at_await Regenerate u))
                ++ map slide_image datas)%list
           end
           (between (page_at_await Regenerate u))).
Proof.
  intros Q H N. destruct (requests_sent _ _ _ _ _ Q) as (resume & A & ->).
  clear Q. set (u1 := page_at_await Regenerate u) in *. clearbody u1.
  cbn [handle] in A. unfold handleRegenerate in A.
  destruct (falsy (trim (markdownInput u))); [discriminate A|].
  injection A as <- <- <-. cbn [req_markdown req_theme] in *.
  repeat split.
  destruct (generateSlide_numbered_inv _ _ _ _ _ _ H N)
    as (names & files & datas & R & P & S & F & ->).
  exists names, files, datas.
  split; [exact R|]. split; [exact P|]. split; [exact S|]. split; [exact F|].
  unfold returned. cbn [isError]. now rewrite displaySlides_envelope.
Qed.

Lemma regenerate_appends_the_slides_witness :
  req_markdown (Trial.ask "generateSlide")
    = trim (markdownInput (Sample.page Trial.typed None)) /\
  req_theme (Trial.ask "generateSlide")
    = themeSelect (Sample.page Trial.typed None) /\
  slidesContainer (page_at_await Regenerate (Sample.page Trial.typed None))
    = [Html "Regenerating slides..."] /\
  exists names files datas,
    readdir (exportDir Sample.good (uuid Sample.good (draws Sample.disk)))
      (fs (snd (Trial.run GenerateSlide Sample.good))) = inr names /\
    Permutation files (filter is_png names) /\
    StronglySorted numeric_le files /\
    Forall2 (reads (exportDir Sample.good (uuid Sample.good (draws Sample.disk)))
               (fs (snd (Trial.run GenerateSlide Sample.good))))
      files datas /\
    page_after Regenerate (Sample.page Trial.typed None) (fun u => u)
      (Resolved (returned (Trial.answer (Trial.run GenerateSlide Sample.good))))
    = handleRegenerate_finally
        (set_slidesContainer
           match datas with
           | [] => [Text "[ERROR] No images found"]
           | _ =>
               (slidesContainer
                  (page_at_await Regenerate (Sample.page Trial.typed None))
                ++ map slide_image datas)%list
           end
           (page_at_await Regenerate (Sample.page Trial.typed None))).
Proof.
  apply (regenerate_appends_the_slides Sample.good Sample.disk
           (snd (Trial.run GenerateSlide Sample.good))
           (Trial.answer (Trial.run GenerateSlide Sample.good))
           (Sample.page Trial.typed None) (fun u => u)
           (Trial.ask "generateSlide")).
  - vm_compute. reflexivity.
  - vm_compute. reflexivity.
  - numbered_listing.
Defined.

(** X5.  A click on Generate PDF or Generate PPTX that sends a request
    sends the trimmed markdown and the selected theme.  When the server's
    tool succeeds on that request, the handler appends to the status area a
    box whose input holds the [data:] URL of the document's bytes, with the
    MIME type of the format, and leaves the rest of the area as it is by
    then.  When the document the renderer wrote is empty it appends
    ["Invalid PDF data"] (or PPTX) as an exception with [innerHTML +=]
    instead, so that the area is parsed again: a URL box that was put there
    while the call was in flight keeps its caption and loses the value of
    its input ([App.reparsed]). *)
Theorem export_offers_the_document
    (t : trigger) (h : host) (w w' : World) (content : list part)
    (u : UI) (between : UI -> UI) (req : request) :
  t = ExportPdf \/ t = ExportPptx ->
  requests t u between (Resolved (returned content)) = [req] ->
  succeeds (tool_of t) h (req_markdown req) (Some (req_theme req)) w
    content w' ->
  req_markdown req = trim (markdownInput u) /\
  req_theme req = themeSelect u /\
  exists data,
    reads (stagingDir h (uuid h (draws w))) (fs w')
      (document_name (tool_of t)) data /\
    page_after t u between (Resolved (returned content)) =
      finish t
        match data with
        | [] =>
            append_status
              ("<br><strong>Exception:</strong> Invalid " ++ export_kind t ++
               " data")
              (between (page_at_await t u))
        | _ =>
            set_pdfStatusDiv
              (pdfStatusDiv (between (page_at_await t u)) ++
               [UrlContainer
                  (export_kind t ++
                   " Data URL (copy and paste into browser address bar):")
                  ("data:" ++ export_mime t ++ ";base64," ++
                   Base64.encode data)])%list
              (between (page_at_await t u))
        end.
Proof.
  intros T Q H. destruct (requests_sent _ _ _ _ _ Q) as (resume & A & ->).
  clear Q. set (u1 := page_at_await t u) in *. clearbody u1.
  apply succeeds_inv in H as [_ C].
  destruct T as [-> | ->]; cbn [handle tool_of] in *.
  - unfold handleGeneratePdf in A.
    destruct (currentExecutionId u) as [[|c id]|]; try discriminate A.
    cbn [markdownInput themeSelect set_pdfStatusDiv set_generatePdfBtn] in A.
    destruct (falsy (trim (markdownInput u))); [discriminate A|].
    injection A as <- <- <-. cbn [req_markdown req_theme] in *.
    repeat split.
    unfold collect, bind, readFileSync, ret in C.
    unfold reads. cbn [document_name].
    destruct (readFile _ (fs w')) as [e|data]; [discriminate C|].
    injection C as <-. exists data. split; [reflexivity|].
    unfold export_resume, returned. cbn [isError content find is_resource].
    rewrite encode_falsy. destruct data; reflexivity.
  - unfold handleGeneratePptx in A.
    cbn [markdownInput themeSelect set_pdfStatusDiv set_generatePptxBtn] in A.
    destruct (falsy (trim (markdownInput u))); [discriminate A|].
    injection A as <- <- <-. cbn [req_markdown req_theme] in *.
    repeat split.
    unfold collect, bind, readFileSync, ret in C.
    unfold reads. cbn [document_name].
    destruct (readFile _ (fs w')) as [e|data]; [discriminate C|].
    injection C as <-. exists data. split; [reflexivity|].
    unfold export_resume, returned. cbn [isError content find is_resource].
    rewrite encode_falsy. destruct data; reflexivity.
Qed.

Lemma export_offers_the_document_witness :
  req_markdown (Trial.ask "generateSlidePPTX")
    = trim (markdownInput (Sample.page Trial.typed None)) /\
  req_theme (Trial.ask "generateSlidePPTX")
    = themeSelect (Sample.page Trial.typed None) /\
  exists data,
    reads (stagingDir Trial.hollow (uuid Trial.hollow (draws Sample.disk)))
      (fs (snd (Trial.run GenerateSlidePPTX Trial.hollow)))
      (document_name (tool_of ExportPptx)) data /\
    page_after ExportPptx (Sample.page Trial.typed None) (fun u => u)
      (Resolved
         (returned (Trial.answer (Trial.run GenerateSlidePPTX Trial.hollow))))
    = finish ExportPptx
        match data with
        | [] =>
            append_status
              ("<br><strong>Exception:</strong> Invalid " ++
               export_kind ExportPptx ++ " data")
              (page_at_await ExportPptx (Sample.page Trial.typed None))
        | _ =>
            set_pdfStatusDiv
              (pdfStatusDiv
                 (page_at_await ExportPptx (Sample.page Trial.typed None)) ++
               [UrlContainer
                  (export_kind ExportPptx ++
                   " Data URL (copy and paste into browser address bar):")
                  ("data:" ++ export_mime ExportPptx ++ ";base64," ++
                   Base64.encode data)])%list
              (page_at_await ExportPptx (Sample.page Trial.typed None))
        end.
Proof.
  apply (export_offers_the_document ExportPptx Trial.hollow Sample.disk
           (snd (Trial.run GenerateSlidePPTX Trial.hollow))
           (Trial.answer (Trial.run GenerateSlidePPTX Trial.hollow))
           (Sample.page Trial.typed None) (fun u => u)
           (Trial.ask "generateSlidePPTX")).
  - right. reflexivity.
  - vm_compute. reflexivity.
  - vm_compute. reflexivity.
Defined.


(** X6.  The handlers of [index.ts] report a failure as a content with
    one text part and no [isError].  The mini-app therefore never takes its
    [isError] branch on such an answer: it does not show the failure text,
    but ["[ERROR] No images found"] after Regenerate, and the exception
    ["No PDF resource found in response"] (or PPTX) after an export.  The
    exception is appended with [innerHTML +=], so that the status area is
    parsed again: a URL box that was put there while the call was in flight
    keeps its caption and loses the value of its input
    ([App.reparsed]). *)
Theorem server_failure_text_is_dropped
    (t : trigger) (h : host) (w w' : World) (e : thrown)
    (u : UI) (between : UI -> UI) (req : request) :
  requests t u between
    (Resolved (returned [TextPart (failure_prefix (tool_of t)
                                   ++ errorMessage e)])) = [req] ->
  try_block (tool_of t) h (req_markdown req) (req_theme req)
    (uuid h (draws w)) (drawn w) = (Throw e, w') ->
  handler (tool_of t) h (req_markdown req) (Some (req_theme req)) w
    = (Ok [TextPart (failure_prefix (tool_of t) ++ errorMessage e)], w') /\
  page_after t u between
    (Resolved (returned [TextPart (failure_prefix (tool_of t)
                                   ++ errorMessage e)]))
  = finish t (nothing_found t (between (page_at_await t u))).
Proof.
  intros Q H. split; [exact (handler_failed _ _ _ (Some _) _ _ _ H)|].
  destruct (requests_sent _ _ _ _ _ Q) as (resume & A & ->).
  clear Q. set (u1 := page_at_await t u) in *. clearbody u1.
  destruct t; cbn [handle tool_of] in *.
  - unfold handleRegenerate in A.
    destruct (falsy (trim (markdownInput u))); [discriminate A|].
    injection A as <- <- <-. reflexivity.
  - unfold handleGeneratePdf in A.
    destruct (currentExecutionId u) as [[|c id]|]; try discriminate A.
    cbn [markdownInput themeSelect set_pdfStatusDiv set_generatePdfBtn] in A.
    destruct (falsy (trim (markdownInput u))); [discriminate A|].
    injection A as <- <- <-. reflexivity.
  - unfold handleGeneratePptx in A.
    cbn [markdownInput themeSelect set_pdfStatusDiv set_generatePptxBtn] in A.
    destruct (falsy (trim (markdownInput u))); [discriminate A|].
    injection A as <- <- <-. reflexivity.
Qed.

Lemma server_failure_text_is_dropped_witness :
  handler (tool_of ExportPdf) (Sample.on Sample.broken)
    (req_markdown (Trial.ask "generateSlidePDF"))
    (Some (req_theme (Trial.ask "generateSlidePDF"))) Sample.disk
    = (Ok [TextPart (failure_prefix (tool_of ExportPdf)
                     ++ errorMessage Trial.refusal)],
       snd (Trial.run GenerateSlidePDF (Sample.on Sample.broken))) /\
  page_after ExportPdf (Sample.page Trial.typed (Some "id")) (fun u => u)
    (Resolved (returned [TextPart (failure_prefix (tool_of ExportPdf)
                                   ++ errorMessage Trial.refusal)]))
  = finish ExportPdf
      (nothing_found ExportPdf
         (page_at_await ExportPdf (Sample.page Trial.typed (Some "id")))).
Proof.
  apply (server_failure_text_is_dropped ExportPdf (Sample.on Sample.broken)
           Sample.disk (snd (Trial.run GenerateSlidePDF (Sample.on Sample.broken)))
           Trial.refusal (Sample.page Trial.typed (Some "id")) (fun u => u)
           (Trial.ask "generateSlidePDF")).
  - vm_compute. reflexivity.
  - vm_compute. reflexivity.
Defined.

Import Frame.

(** * Staging and the rest of the file system *)

Lemma assoc_put_other a b v es :
  a <> b -> assoc b (put a v es) = assoc b es.
Proof.
  intros N. induction es as [|[k w] es IH]; cbn [put assoc].
  - destruct (String.eqb_spec a b); [contradiction|reflexivity].
  - destruct (String.eqb_spec k a) as [->|Ka]; cbn [assoc].
    + destruct (String.eqb_spec a b); [contradiction|reflexivity].
    + now rewrite IH.
Qed.

Lemma on_the_way_app q p r :
  on_the_way q p = true -> on_the_way q (p ++ r)%list = true.
Proof.
  revert p. induction q as [|a q IH]; intros p H; [reflexivity|].
  destruct p as [|b p]; [discriminate H|]. cbn [app on_the_way] in *.
  apply andb_true_iff in H as [-> H]. now rewrite (IH _ H).
Qed.

Lemma lookup_missing q : q <> [] -> lookup q (Dir []) = inl ENOENT.
Proof. destruct q; [congruence|reflexivity]. Qed.

(** [mkdir -p] changes nothing but the directories on its way. *)
Lemma mkdirp_frame p :
  forall q n n',
    mkdirp p n = inr n' -> on_the_way q p = false ->
    lookup q n' = lookup q n.
Proof.
  induction p as [|a p IH]; intros q n n' M W.
  - destruct n; [discriminate M|]. cbn in M. now injection M as <-.
  - destruct q as [|b q]; [discriminate W|].
    destruct n as [d|es]; [discriminate M|]. cbn [mkdirp] in M.
    destruct (mkdirp p match assoc a es with Some c => c | None => Dir [] end)
      as [e|child'] eqn:E; [discriminate M|].
    injection M as <-. cbn [lookup on_the_way] in *.
    destruct (String.eqb_spec b a) as [->|N].
    + rewrite assoc_put_same. cbn [andb] in W.
      rewrite (IH _ _ _ E W).
      destruct (assoc a es) as [c|]; [reflexivity|].
      apply lookup_missing. intros ->. discriminate W.
    + rewrite assoc_put_other by congruence. reflexivity.
Qed.

(** Writing a file changes nothing beside its own path. *)
Lemma write_frame p data :
  forall q n n',
    write p data n = inr n' -> apart p q = true ->
    lookup q n' = lookup q n.
Proof.
  unfold apart. induction p as [|a p IH]; intros q n n' M W; [discriminate M|].
  destruct q as [|b q]; [now rewrite andb_false_r in W|].
  cbn [on_the_way] in W. cbn [lookup].
  assert (Wr : exists es child',
             n = Dir es /\ n' = Dir (put a child' es) /\
             (p = [] \/
              exists child, assoc a es = Some child /\
                            write p data child = inr child')).
  { destruct p as [|a' p'].
    - cbn [write] in M. destruct n as [d|es]; [discriminate M|].
      exists es, (File data). destruct (assoc a es) as [[d|es']|];
        first [discriminate M | injection M as <-; auto].
    - change (write (a :: a' :: p') data n) with
        (match n with
         | File _ => inl ENOTDIR
         | Dir es =>
             match assoc a es with
             | Some child =>
                 match write (a' :: p') data child with
                 | inr child' => inr (Dir (put a child' es))
                 | inl e => inl e
                 end
             | None => @inl errno node ENOENT
             end
         end) in M.
      destruct n as [d|es]; [discriminate M|].
      destruct (assoc a es) as [child|] eqn:A; [|discriminate M].
      destruct (write (a' :: p') data child) as [e|child'] eqn:E;
        [discriminate M|].
      injection M as <-. exists es, child'. eauto 6. }
  destruct Wr as (es & child' & -> & -> & Hp).
  destruct (String.eqb_spec a b) as [<-|N].
  - rewrite String.eqb_refl in W. cbn [andb] in W.
    rewrite assoc_put_same.
    destruct Hp as [->|(child & A & E)].
    + cbn [on_the_way] in W. discriminate W.
    + rewrite A. exact (IH _ _ _ E W).
  - now rewrite assoc_put_other.
Qed.

(** The steps that lead to the file system a subprocess is spawned on. *)
Lemma stage_root h format markdown theme id w sp :
  spawned (snd (stage h format markdown theme id w)) = (spawned w ++ [sp])%list ->
  exists n1 n2,
    (n1 = fs w \/ mkdirp (workRoot h) (fs w) = inr n1) /\
    mkdirp (stagingDir h id) n1 = inr n2 /\
    write (join (stagingDir h id) "slides.md") (list_byte_of_string markdown)
      n2 = inr (spawn_fs sp) /\
    sp = spawn_of h format theme id (spawn_fs sp) /\
    fs (snd (stage h format markdown theme id w)) =
      match renderer h (command sp) (spawn_cwd sp) (spawn_fs sp) with
      | Exited _ _ fs' => fs'
      | SpawnError _ => spawn_fs sp
      end.
Proof.
  assert (Stop : forall T : Prop,
             spawned w = (spawned w ++ [sp])%list -> T).
  { intros T H. apply (f_equal (@List.length spawn)) in H.
    rewrite length_app in H. cbn in H. lia. }
  assert (Run : forall s : spawn,
             (spawned w ++ [s])%list = (spawned w ++ [sp])%list -> s = sp).
  { intros s H. apply app_inv_head in H. now injection H. }
  unfold stage, bind, existsSync, mkdirSync, writeFileSync, execSync, ret.
  destruct (negb (exists_ (workRoot h) (fs w))).
  - destruct (mkdirp (workRoot h) (fs w)) as [e|n1] eqn:M1; [apply Stop|].
    cbn [fs set_fs].
    destruct (mkdirp (stagingDir h id) n1) as [e|n2] eqn:M2; [apply Stop|].
    cbn [fs set_fs].
    destruct (write (join (stagingDir h id) "slides.md")
                (list_byte_of_string markdown) n2) as [e|n3] eqn:W3;
      [apply Stop|].
    cbn [fs set_fs draws spawned]. intros H. exists n1, n2.
    destruct (renderer h _ _ n3) as [status stderr fs'|message] eqn:Rn;
      [destruct (status =? 0)%Z|];
      apply Run in H; subst sp; cbn [spawn_fs command spawn_cwd];
      rewrite Rn; auto 6.
  - destruct (mkdirp (stagingDir h id) (fs w)) as [e|n2] eqn:M2; [apply Stop|].
    cbn [fs set_fs].
    destruct (write (join (stagingDir h id) "slides.md")
                (list_byte_of_string markdown) n2) as [e|n3] eqn:W3;
      [apply Stop|].
    cbn [fs set_fs draws spawned]. intros H. exists (fs w), n2.
    destruct (renderer h _ _ n3) as [status stderr fs'|message] eqn:Rn;
      [destruct (status =? 0)%Z|];
      apply Run in H; subst sp; cbn [spawn_fs command spawn_cwd];
      rewrite Rn; auto 6.
Qed.

(** The subprocess an invocation spawns finds everything beside the way to
    its [slides.md] as it was. *)
Lemma stage_spawn_frame h format markdown theme id w sp q :
  spawned (snd (stage h format markdown theme id w)) = (spawned w ++ [sp])%list ->
  apart (join (stagingDir h id) "slides.md") q = true ->
  lookup q (spawn_fs sp) = lookup q (fs w).
Proof.
  intros H A.
  destruct (stage_root _ _ _ _ _ _ _ H) as (n1 & n2 & M1 & M2 & W3 & _ & _).
  assert (O : on_the_way q (workRoot h) = false /\
              on_the_way q (stagingDir h id) = false).
  { pose proof A as A'. unfold apart in A'.
    apply andb_true_iff in A' as [_ A']. apply negb_true_iff in A'.
    split.
    - destruct (on_the_way q (workRoot h)) eqn:O; [|reflexivity].
      unfold stagingDir, join in A'.
      rewrite <- app_assoc, (on_the_way_app _ _ _ O) in A'. discriminate A'.
    - destruct (on_the_way q (stagingDir h id)) eqn:O; [|reflexivity].
      unfold join in A'. rewrite (on_the_way_app _ _ _ O) in A'.
      discriminate A'. }
  destruct O as [O1 O2].
  rewrite (write_frame _ _ _ _ _ W3 A), (mkdirp_frame _ _ _ _ M2 O2).
  destruct M1 as [->|M1]; [reflexivity|exact (mkdirp_frame _ _ _ _ M1 O1)].
Qed.

Lemma handler_draws t h markdown theme w :
  draws (snd (handler t h markdown theme w)) = S (draws w).
Proof.
  rewrite handler_world.
  exact (proj1 (stage_spawned h (format_of t) markdown (theme_or_default theme)
                  (uuid h (draws w)) (drawn w))).
Qed.

Lemma apart_diverge (c : path) (a b : string) (p q : path) :
  a <> b -> apart (c ++ a :: p)%list (c ++ b :: q)%list = true.
Proof.
  intros N. unfold apart.
  assert (D : forall x y p' q', x <> y ->
             on_the_way (c ++ x :: p')%list (c ++ y :: q')%list = false).
  { intros x y p' q' Nxy. induction c as [|s c IH]; cbn [app on_the_way].
    - destruct (String.eqb_spec x y); [contradiction|reflexivity].
    - now rewrite String.eqb_refl. }
  rewrite (D a b p q N), (D b a q p); [reflexivity|congruence].
Qed.

(** X7.  The file system on which a tool's subprocess starts differs from
    the one the invocation found only on the way to [slides.md] of the
    invocation's staging directory: every path that is neither above that
    file nor below it resolves as before. *)
Theorem staging_keeps_the_rest
    (t : tool) (h : host) (markdown : string) (theme : option string)
    (w : World) (sp : spawn) (q : path) :
  spawned (snd (handler t h markdown theme w)) = (spawned w ++ [sp])%list ->
  apart (join (stagingDir h (uuid h (draws w))) "slides.md") q = true ->
  lookup q (spawn_fs sp) = lookup q (fs w).
Proof.
  rewrite handler_world. intros H A.
  exact (stage_spawn_frame _ _ _ _ _ (drawn w) _ _ H A).
Qed.

Lemma staging_keeps_the_rest_witness :
  lookup ["srv"; "app"; "package.json"]
    (spawn_fs (Trial.spawn_in GenerateSlidePDF Sample.good Trial.shelf))
  = lookup ["srv"; "app"; "package.json"] (fs Trial.shelf).
Proof.
  apply (staging_keeps_the_rest GenerateSlidePDF Sample.good "# Deck"
           (Some "seriph") Trial.shelf).
  - vm_compute. reflexivity.
  - vm_compute. reflexivity.
Defined.

(** X8.  When two consecutive invocations draw different identifiers, the
    subprocess of the second runs in the second staging directory, and on
    the file system it starts from everything in the staging directory of
    the first is as the first invocation left it. *)
Theorem earlier_staging_is_untouched
    (t1 t2 : tool) (h : host) (markdown1 markdown2 : string)
    (theme1 theme2 : option string) (w : World) (sp : spawn) (below : path) :
  spawned (snd (handler t2 h markdown2 theme2
                  (snd (handler t1 h markdown1 theme1 w))))
  = (spawned (snd (handler t1 h markdown1 theme1 w)) ++ [sp])%list ->
  uuid h (draws w) <> uuid h (S (draws w)) ->
  spawn_cwd sp = stagingDir h (uuid h (S (draws w))) /\
  lookup (stagingDir h (uuid h (draws w)) ++ below)%list (spawn_fs sp)
  = lookup (stagingDir h (uuid h (draws w)) ++ below)%list
      (fs (snd (handler t1 h markdown1 theme1 w))).
Proof.
  intros H N.
  set (w1 := snd (handler t1 h markdown1 theme1 w)) in *.
  assert (D : draws w1 = S (draws w)) by apply handler_draws.
  split.
  - rewrite handler_world in H.
    destruct (stage_root _ _ _ _ _ _ _ H) as (_ & _ & _ & _ & _ & E & _).
    rewrite E, D. reflexivity.
  - apply (staging_keeps_the_rest t2 h markdown2 theme2 w1 sp _ H).
    rewrite D. unfold stagingDir, join.
    rewrite <- !app_assoc. cbn [app].
    apply apart_diverge. congruence.
Qed.

Lemma earlier_staging_is_untouched_witness :
  spawn_cwd (Trial.spawn_in GenerateSlidePDF Sample.good Sample.staged)
  = stagingDir Sample.good (uuid Sample.good (S (draws Sample.disk))) /\
  lookup (stagingDir Sample.good (uuid Sample.good (draws Sample.disk))
          ++ ["slides-export"; "10.png"])%list
    (spawn_fs (Trial.spawn_in GenerateSlidePDF Sample.good Sample.staged))
  = lookup (stagingDir Sample.good (uuid Sample.good (draws Sample.disk))
            ++ ["slides-export"; "10.png"])%list
      (fs (snd (handler GenerateSlide Sample.good "# Deck" None Sample.disk))).
Proof.
  apply (earlier_staging_is_untouched GenerateSlide GenerateSlidePDF
           Sample.good "# Deck" "# Deck" None (Some "seriph") Sample.disk).
  - vm_compute. reflexivity.
  - vm_compute. discriminate.
Defined.

(** X9.  A tool deletes nothing when it is done: after an invocation that
    spawned its subprocess, whether it succeeded or returned a failure, the
    file system is the one the subprocess left (the one it started from if
    it could not be spawned), and the file system the subprocess started
    from holds the markdown in [slides.md] of its working directory. *)
Theorem nothing_is_cleaned_up
    (t : tool) (h : host) (markdown : string) (theme : option string)
    (w : World) (sp : spawn) :
  spawned (snd (handler t h markdown theme w)) = (spawned w ++ [sp])%list ->
  fs (snd (handler t h markdown theme w)) =
    match renderer h (command sp) (spawn_cwd sp) (spawn_fs sp) with
    | Exited _ _ fs' => fs'
    | SpawnError _ => spawn_fs sp
    end /\
  reads (spawn_cwd sp) (spawn_fs sp) "slides.md"
    (list_byte_of_string markdown).
Proof.
  rewrite handler_world. intros H.
  destruct (stage_root _ _ _ _ _ _ _ H) as (n1 & n2 & _ & _ & W & E & F).
  split; [exact F|].
  rewrite E at 1. cbn [spawn_cwd spawn_of].
  exact (write_readFile _ _ _ _ W).
Qed.

Lemma nothing_is_cleaned_up_witness :
  fs (snd (handler GenerateSlide (Sample.on Sample.broken) "# Deck" None
             Sample.disk)) =
    match renderer (Sample.on Sample.broken)
            (command (Trial.failed_spawn))
            (spawn_cwd (Trial.failed_spawn))
            (spawn_fs (Trial.failed_spawn)) with
    | Exited _ _ fs' => fs'
    | SpawnError _ => spawn_fs (Trial.failed_spawn)
    end /\
  reads (spawn_cwd Trial.failed_spawn) (spawn_fs Trial.failed_spawn)
    "slides.md" (list_byte_of_string "# Deck").
Proof.
  apply (nothing_is_cleaned_up GenerateSlide (Sample.on Sample.broken)
           "# Deck" None Sample.disk).
  vm_compute. reflexivity.
Defined.

Import Pushed Main.

(** * The order of the listing *)

Section SortedOnce.
Context {A : Type} (key : A -> Z).

(** A list has one arrangement by increasing key when no two of its
    elements share a key. *)
Lemma sorted_perm_unique (l1 l2 : list A) :
  StronglySorted (key_le key) l1 ->
  StronglySorted (key_le key) l2 ->
  Permutation l1 l2 ->
  (forall x y, In x l1 -> In y l1 -> key x = key y -> x = y) ->
  l1 = l2.
Proof.
  intros S1. revert l2.
  induction S1 as [|a l1 S1 IH F1]; intros l2 S2 P Inj.
  - apply Permutation_nil in P. now subst.
  - destruct S2 as [|b l2 S2 F2].
    + apply Permutation_sym, Permutation_nil in P. discriminate P.
    + assert (E : a = b).
      { assert (Ia : In a (b :: l2))
          by (apply (Permutation_in _ P); now left).
        assert (Ib : In b (a :: l1))
          by (apply (Permutation_in _ (Permutation_sym P)); now left).
        destruct Ia as [->|Ia]; [reflexivity|].
        destruct Ib as [->|Ib]; [reflexivity|].
        rewrite Forall_forall in F1, F2.
        specialize (F1 b Ib). specialize (F2 a Ia). unfold key_le in *.
        apply Inj; [now left|now right|lia]. }
      subst b. f_equal. apply IH; [exact S2| |].
      * exact (Permutation_cons_inv P).
      * intros x y Hx Hy. apply Inj; now right.
Qed.
End SortedOnce.

Lemma filter_perm {A} (f : A -> bool) (l1 l2 : list A) :
  Permutation l1 l2 -> Permutation (filter f l1) (filter f l2).
Proof.
  induction 1 as [|x l1 l2 P IH|x y l|l1 l2 l3 P1 IH1 P2 IH2]; cbn [filter].
  - constructor.
  - destruct (f x); [now constructor|exact IH].
  - destruct (f x), (f y); try reflexivity. apply perm_swap.
  - now transitivity (filter f l2).
Qed.

(** X10.  The order of the slides does not depend on the order in which
    the directory is listed: two listings of the same names, whose [.png]
    names are numbered with different numbers, give the same sorted list of
    [.png] files. *)
Theorem listing_order_does_not_matter (names1 names2 : list string) :
  Permutation names1 names2 ->
  (forall a, In a names1 -> is_png a = true -> exists n, numbered a n) ->
  (forall a b, In a names1 -> In b names1 ->
               is_png a = true -> is_png b = true ->
               number_of a = number_of b -> a = b) ->
  sort byNumber (filter is_png names1) = sort byNumber (filter is_png names2).
Proof.
  intros P N Inj.
  assert (P' : Permutation (filter is_png names1) (filter is_png names2))
    by now apply filter_perm.
  assert (K1 : by_key byNumber number_of (filter is_png names1)).
  { apply by_key_numbered. intros a Ha. apply filter_In in Ha as [Ha Hp].
    now apply N. }
  assert (K2 : by_key byNumber number_of (filter is_png names2)).
  { apply by_key_numbered. intros a Ha.
    apply (Permutation_in _ (Permutation_sym P')) in Ha.
    apply filter_In in Ha as [Ha Hp]. now apply N. }
  apply (sorted_perm_unique number_of).
  - now apply sort_sorted.
  - now apply sort_sorted.
  - rewrite !sort_perm. exact P'.
  - intros x y Hx Hy.
    apply (Permutation_in _ (sort_perm byNumber _)) in Hx, Hy.
    apply filter_In in Hx as [Hx Px], Hy as [Hy Py]. now apply Inj.
Qed.

Lemma listing_order_does_not_matter_witness :
  sort byNumber (filter is_png ["2.png"; "10.png"; "index.json"; "1.png"])
  = sort byNumber (filter is_png ["10.png"; "1.png"; "2.png"; "index.json"]).
Proof.
  apply (listing_order_does_not_matter
           ["2.png"; "10.png"; "index.json"; "1.png"]
           ["10.png"; "1.png"; "2.png"; "index.json"]).
  - apply (@perm_trans _ _ ["10.png"; "2.png"; "index.json"; "1.png"]);
      [apply perm_swap|]. apply perm_skip.
    apply (@perm_trans _ _ ["2.png"; "1.png"; "index.json"]);
      [apply perm_skip, perm_swap|]. apply perm_swap.
  - intros a [<-|[<-|[<-|[<-|[]]]]] E; try discriminate E.
    + exists 2%Z, "2", "png". repeat split. vm_compute. discriminate.
    + exists 10%Z, "10", "png". repeat split. vm_compute. discriminate.
    + exists 1%Z, "1", "png". repeat split. vm_compute. discriminate.
  - intros a b [<-|[<-|[<-|[<-|[]]]]] [<-|[<-|[<-|[<-|[]]]]] Ea Eb E;
      try reflexivity; try discriminate Ea; try discriminate Eb;
      vm_compute in E; discriminate E.
Defined.

(** Names in which [parseInt] reads no number. *)
Lemma insert_NaN (x : string) (l : list string) :
  parseInt (split0 "." x) = None -> insert byNumber x l = x :: l.
Proof.
  intros E. destruct l as [|y l]; [reflexivity|].
  cbn [insert]. unfold keeps_before, byNumber. now rewrite E.
Qed.

(** X11.  When [parseInt] reads no number in any of the [.png] names (the
    comparator is [NaN] on every pair), the sort leaves the [.png] files in
    the order in which the directory listed them. *)
Theorem unnumbered_names_keep_listing_order (names : list string) :
  (forall a, In a names -> is_png a = true ->
             parseInt (split0 "." a) = None) ->
  sort byNumber (filter is_png names) = filter is_png names.
Proof.
  induction names as [|a names IH]; intros H; [reflexivity|].
  cbn [filter]. destruct (is_png a) eqn:P.
  - cbn [sort]. rewrite IH by (intros b Hb; apply H; now right).
    apply insert_NaN, H; [now left|exact P].
  - apply IH. intros b Hb. apply H. now right.
Qed.

Lemma unnumbered_names_keep_listing_order_witness :
  sort byNumber (filter is_png ["title.png"; "notes.txt"; "agenda.png"])
  = filter is_png ["title.png"; "notes.txt"; "agenda.png"].
Proof.
  apply (unnumbered_names_keep_listing_order
           ["title.png"; "notes.txt"; "agenda.png"]).
  intros a [<-|[<-|[<-|[]]]] E; try discriminate E; reflexivity.
Defined.

(** * [main] *)

Lemma parseInt10_numeral (s : string) (v : Z) :
  numeral s = Some v -> parseInt10 s = Some v.
Proof.
  intros H.
  pose proof (parse_digits_numeral s v 0 false H) as P.
  destruct (numeral_inv s v H) as (c & rest & -> & D & D').
  unfold parseInt10, trimStart.
  cbn [String.length trimStart_fuel].
  assert (find (fun ws => prefix ws (String c rest)) whiteSpace = None) as ->.
  { digit_cases D; reflexivity. }
  digit_cases D; cbv beta iota; rewrite P; cbn [option_map]; f_equal; lia.
Qed.

(** X12.  Without [--stdio] among the arguments, when the text
    [process.env.PORT || "8000"] is a decimal numeral of a port from 1 to
    65535, [main] asks the server to listen for HTTP on that port: the
    value of [PORT], and 8000 when [PORT] is unset or empty. *)
Theorem main_serves_on_PORT
    (argv : list string) (PORT : option string) (port : Z) :
  ~ In "--stdio" argv ->
  numeral (port_text PORT) = Some port ->
  (1 <= port <= 65535)%Z ->
  main argv PORT = Listen port.
Proof.
  intros N H [Lo Hi]. unfold main.
  destruct (existsb (String.eqb "--stdio") argv) eqn:E.
  - apply existsb_exists in E as (a & Ia & Ea).
    apply String.eqb_eq in Ea. subst a. contradiction.
  - rewrite (parseInt10_numeral _ _ H). unfold serve.
    destruct (Z.eqb_spec port 0) as [->|_]; [lia|].
    destruct (Z.leb_spec 1 port); [|lia].
    destruct (Z.leb_spec port 65535); [reflexivity|lia].
Qed.

Lemma main_serves_on_PORT_witness :
  main ["node"; "dist/index.js"] (Some EmptyString) = Listen 8000%Z.
Proof.
  apply (main_serves_on_PORT ["node"; "dist/index.js"] (Some EmptyString)).
  - intros [E|[E|[]]]; discriminate E.
  - reflexivity.
  - lia.
Defined.

(** * The execution identifier of the page *)

Lemma handler_keeps_the_identifier
    (t : trigger) (u : UI) (answer : settled) :
  currentExecutionId (page_after t u (fun u => u) answer)
  = currentExecutionId u.
Proof.
  unfold page_after, complete. destruct t; cbn [handle].
  - unfold handleRegenerate. destruct (falsy (trim (markdownInput u)));
      [reflexivity|].
    cbn [fst]. destruct answer as [r|e]; [|reflexivity].
    destruct (isError r); [reflexivity|].
    unfold displaySlides.
    destruct (match content r with Some parts => filter is_image parts
              | None => [] end); reflexivity.
  - unfold handleGeneratePdf.
    destruct (currentExecutionId u) as [[|c id]|] eqn:E;
      try (cbn [fst alert currentExecutionId]; now rewrite E).
    cbn [markdownInput set_pdfStatusDiv set_generatePdfBtn].
    destruct (falsy (trim (markdownInput u)));
      [cbn; now rewrite E|].
    cbn [fst]. unfold export_resume.
    destruct answer as [r|e]; [|cbn; now rewrite E].
    destruct (isError r); [cbn; now rewrite E|].
    destruct (match content r with Some parts => find is_resource parts
              | None => None end) as [[| |uri blob mime]|];
      try (cbn; now rewrite E).
    destruct (falsy blob); cbn; now rewrite E.
  - unfold handleGeneratePptx.
    cbn [markdownInput set_pdfStatusDiv set_generatePptxBtn].
    destruct (falsy (trim (markdownInput u))); [reflexivity|].
    cbn [fst]. unfold export_resume.
    destruct answer as [r|e]; [|reflexivity].
    destruct (isError r); [reflexivity|].
    destruct (match content r with Some parts => find is_resource parts
              | None => None end) as [[| |uri blob mime]|];
      try reflexivity.
    destruct (falsy blob); reflexivity.
Qed.

Lemma clicks_keep_the_identifier (cs : list (trigger * settled)) (u : UI) :
  currentExecutionId (clicks cs u) = currentExecutionId u.
Proof.
  unfold clicks. revert u.
  induction cs as [|c cs IH]; intros u; [reflexivity|].
  cbn [fold_left]. rewrite IH. apply handler_keeps_the_identifier.
Qed.

(** X13.  No click handler sets the execution identifier: on a page that
    never received a pushed tool result, after any series of completed
    clicks, however their calls settled (a successful Regenerate included),
    a click on Generate PDF sends no request and only shows the alert
    ["Please generate slides first"]. *)
Theorem only_a_pushed_result_unlocks_the_pdf
    (cs : list (trigger * settled)) (u : UI)
    (between : UI -> UI) (answer : settled) :
  currentExecutionId u = None ->
  requests ExportPdf (clicks cs u) between answer = [] /\
  page_after ExportPdf (clicks cs u) between answer
  = alert "Please generate slides first" (clicks cs u).
Proof.
  intros E.
  pose proof (clicks_keep_the_identifier cs u) as K. rewrite E in K.
  unfold requests, page_after, complete. cbn [handle].
  unfold handleGeneratePdf. rewrite K. split; reflexivity.
Qed.

Lemma only_a_pushed_result_unlocks_the_pdf_witness :
  requests ExportPdf
    (clicks [(Regenerate, Resolved (returned Sample.slides))]
       (Sample.page "# Deck" None))
    (fun u => u) (Rejected (ErrorObj "Request timed out")) = [] /\
  page_after ExportPdf
    (clicks [(Regenerate, Resolved (returned Sample.slides))]
       (Sample.page "# Deck" None))
    (fun u => u) (Rejected (ErrorObj "Request timed out"))
  = alert "Please generate slides first"
      (clicks [(Regenerate, Resolved (returned Sample.slides))]
         (Sample.page "# Deck" None)).
Proof.
  apply (only_a_pushed_result_unlocks_the_pdf
           [(Regenerate, Resolved (returned Sample.slides))]
           (Sample.page "# Deck" None)).
  reflexivity.
Defined.


(** * The envelope of [generateSlide], and two invocations *)



(** ** A series of invocations *)

Lemma handler_spawned_extends t h markdown theme w :
  exists more,
    spawned (snd (handler t h markdown theme w)) = (spawned w ++ more)%list.
Proof.
  rewrite handler_world.
  destruct (stage_spawned h (format_of t) markdown (theme_or_default theme)
              (uuid h (draws w)) (drawn w)) as [_ [[S _]|(root & S & _)]];
    cbv zeta in S; rewrite S; cbn [spawned drawn].
  - exists []. now rewrite app_nil_r.
  - eexists. reflexivity.
Qed.

(** Every invocation takes one draw of the random source, and no draw is
    given back. *)
Lemma invocations_draws h cs w :
  draws (invocations h cs w) = (draws w + List.length cs)%nat.
Proof.
  unfold invocations. revert w.
  induction cs as [|c cs IH]; intros w; cbn [fold_left List.length].
  - lia.
  - rewrite IH, handler_draws. lia.
Qed.

Lemma invocations_spawned h cs w :
  exists more, spawned (invocations h cs w) = (spawned w ++ more)%list.
Proof.
  unfold invocations. revert w.
  induction cs as [|c cs IH]; intros w; cbn [fold_left].
  - exists []. now rewrite app_nil_r.
  - destruct (IH (snd (handler (call_tool c) h (call_markdown c)
                         (call_theme c) w))) as [more2 E2].
    destruct (handler_spawned_extends (call_tool c) h (call_markdown c)
                (call_theme c) w) as [more1 E1].
    exists (more1 ++ more2)%list. now rewrite E2, E1, app_assoc.
Qed.

Lemma serial_length (n : nat) : String.length (Trial.serial n) = (n + 2)%nat.
Proof. induction n as [|n IH]; cbn [Trial.serial String.length]; lia. Qed.

Lemma serial_fresh : fresh_source Trial.counting.
Proof.
  intros i j E. cbn [uuid Trial.counting] in E.
  apply (f_equal String.length) in E. rewrite !serial_length in E. lia.
Qed.

(** C9.  Take any two successful invocations of [generateSlide] with the
    same markdown and theme, an earlier and a later one with any series of
    tool calls between them, whose export directories the renderer filled
    alike.  Each invocation took a draw of its own from the random source,
    the later one a later draw; so, the source never returning the same
    identifier twice, the two identifiers are different.  The two contents
    are equal except for the first text part, which carries the identifier,
    and the renderer was run for each of the two, with the same command
    line, in two different staging directories: nothing is remembered from
    one call to the next. *)
Theorem no_memoization
    (h : host) (markdown : string) (theme : option string)
    (between : list call) (w w1 w2 : World) (first second : list part) :
  fresh_source h ->
  succeeds GenerateSlide h markdown theme w first w1 ->
  succeeds GenerateSlide h markdown theme (invocations h between w1)
    second w2 ->
  lookup (exportDir h (uuid h (draws w))) (fs w1)
    = lookup (exportDir h (uuid h (draws (invocations h between w1))))
        (fs w2) ->
  generateSlide h markdown theme w = (Ok first, w1) /\
  generateSlide h markdown theme (invocations h between w1)
    = (Ok second, w2) /\
  draws (invocations h between w1)
    = (S (draws w) + List.length between)%nat /\
  uuid h (draws w) <> uuid h (draws (invocations h between w1)) /\
  (exists rest,
      first = TextPart (uuid h (draws w)) :: rest /\
      second
        = TextPart (uuid h (draws (invocations h between w1))) :: rest) /\
  exists sp1 more sp2,
    spawned w2 = (spawned w ++ sp1 :: more ++ [sp2])%list /\
    command sp1 = command sp2 /\
    spawn_cwd sp1 = stagingDir h (uuid h (draws w)) /\
    spawn_cwd sp2
      = stagingDir h (uuid h (draws (invocations h between w1))) /\
    spawn_cwd sp1 <> spawn_cwd sp2.
Proof.
  intros Fresh H1 H2 L.
  set (wb := invocations h between w1) in *.
  pose proof (succeeds_handler _ _ _ _ _ _ _ H1) as G1.
  pose proof (succeeds_handler _ _ _ _ _ _ _ H2) as G2.
  destruct (generateSlide_succeeds_inv _ _ _ _ _ _ H1)
    as (names1 & datas1 & R1 & F1 & ->).
  destruct (generateSlide_succeeds_inv _ _ _ _ _ _ H2)
    as (names2 & datas2 & R2 & F2 & ->).
  destruct (succeeds_spawned _ _ _ _ _ _ _ H1) as (D1 & root1 & S1).
  destruct (succeeds_spawned _ _ _ _ _ _ _ H2) as (_ & root2 & S2).
  assert (Db : draws wb = (S (draws w) + List.length between)%nat).
  { unfold wb. rewrite invocations_draws, D1. reflexivity. }
  assert (Ne : uuid h (draws w) <> uuid h (draws wb)).
  { intros E. apply Fresh in E. lia. }
  split; [exact G1|]. split; [exact G2|]. split; [exact Db|].
  split; [exact Ne|]. split.
  - eexists. split; [reflexivity|]. do 2 f_equal.
    unfold readdir in R1, R2. rewrite L in R1. rewrite R1 in R2.
    injection R2 as <-.
    apply (Forall2_reads_same_directory _ _ _ _ _ _ L) in F1.
    now rewrite (reads_functional _ _ _ _ _ F1 F2).
  - destruct (invocations_spawned h between w1) as [more Sb]. fold wb in Sb.
    rewrite S2, Sb, S1, <- !app_assoc. cbn [app].
    do 3 eexists. split; [reflexivity|]. cbn [command spawn_cwd spawn_of].
    repeat split.
    unfold stagingDir, join. intros E. apply app_inj_tail in E as [_ E].
    exact (Ne E).
Qed.

Lemma no_memoization_witness :
  generateSlide Trial.counting "# Deck" None Sample.disk
    = (Ok (TextPart (Trial.serial 0) :: Sample.slides), Trial.once) /\
  generateSlide Trial.counting "# Deck" None Trial.later
    = (Ok (TextPart (Trial.serial 2) :: Sample.slides), Trial.twice) /\
  draws Trial.later = 2%nat /\
  Trial.serial 0 <> Trial.serial 2 /\
  (exists rest,
      TextPart (Trial.serial 0) :: Sample.slides
        = TextPart (Trial.serial 0) :: rest /\
      TextPart (Trial.serial 2) :: Sample.slides
        = TextPart (Trial.serial 2) :: rest) /\
  exists sp1 more sp2,
    spawned Trial.twice = (spawned Sample.disk ++ sp1 :: more ++ [sp2])%list /\
    command sp1 = command sp2 /\
    spawn_cwd sp1 = stagingDir Trial.counting (Trial.serial 0) /\
    spawn_cwd sp2 = stagingDir Trial.counting (Trial.serial 2) /\
    spawn_cwd sp1 <> spawn_cwd sp2.
Proof.
  apply (no_memoization Trial.counting "# Deck" None [Trial.other]
           Sample.disk Trial.once Trial.twice).
  - exact serial_fresh.
  - vm_compute. reflexivity.
  - vm_compute. reflexivity.
  - vm_compute. reflexivity.
Defined.
